(** * Verification of the test-debug-agent fix pipeline

    Shallow embedding of the Python sources under [test-debug-agent/]:
    [ast_analyzer.py], [syntax_fix_generator.py], [type_fix_generator.py],
    [ml_context_engine.py] and [next_gen_auto_fixer.py].

    Conventions of the embedding.
    - A Python [str] is a [string] of 8-bit characters; [str.strip] and its
      variants remove the ASCII white space characters.
    - A Python [int] is a [Z]; list subscripts follow Python (negative
      subscripts count from the end, anything further out raises
      [IndexError]).  A call that may raise returns an [outcome].
    - Classes are records; a field name shared by several classes carries
      a prefix in all but one of them.
    - A Python [float] is a rational number ([Q]) that stands for the
      binary64 number nearest to it: a decimal literal for the float it
      denotes, the result of an operation of [Binary64] for itself.  The
      rounding of binary64 is modelled where a result depends on it: in
      the confidences that [syntax_fix_generator.py] and the applier of
      [type_fix_generator.py] compute and in the scores of
      [ml_context_engine.py].  The aggregate of [next_gen_auto_fixer.py]
      and its batch statistics are in exact arithmetic.
    - External collaborators (the Node.js parser process, the clock, the
      pattern fixer, the file system) are parameters of the functions that
      call them. *)

From Stdlib Require Import List Bool Arith ZArith QArith Lia Lqa.
From Stdlib Require Import Ascii String DecimalString.
From Stdlib Require Import Permutation Sorted.
Import ListNotations.

Close Scope Q_scope.
Local Open Scope nat_scope.
Local Open Scope list_scope.
Local Open Scope string_scope.

(* ================================================================== *)
(** * Part I: definitions *)
(* ================================================================== *)

(* ================================================================== *)
(** ** Python string primitives *)
(* ================================================================== *)

Module Py.

Definition nl : ascii := "010"%char.

(** White space removed by [str.strip()], on the ASCII range. *)
Definition isspace (c : ascii) : bool :=
  let n := nat_of_ascii c in
  ((9 <=? n)%nat && (n <=? 13)%nat) || ((28 <=? n)%nat && (n <=? 32)%nat).

Definition is_empty (s : string) : bool :=
  match s with EmptyString => true | String _ _ => false end.

(** [s.startswith(p)] *)
Fixpoint startswith (p s : string) : bool :=
  match p with
  | EmptyString => true
  | String a p' =>
      match s with
      | EmptyString => false
      | String b s' => Ascii.eqb a b && startswith p' s'
      end
  end.

(** [s.find(sub)], counted from offset [i]; [None] stands for [-1]. *)
Fixpoint find_from (sub s : string) (i : nat) : option nat :=
  if startswith sub s then Some i
  else match s with
       | EmptyString => None
       | String _ s' => find_from sub s' (S i)
       end.

Definition find (sub s : string) : option nat := find_from sub s 0.

(** [sub in s] *)
Definition contains (sub s : string) : bool :=
  match find sub s with Some _ => true | None => false end.

(** [s.rfind(c)] for a one-character [c]. *)
Fixpoint rfind_char_from (c : ascii) (s : string) (i : nat) : option nat :=
  match s with
  | EmptyString => None
  | String a s' =>
      match rfind_char_from c s' (S i) with
      | Some j => Some j
      | None => if Ascii.eqb a c then Some i else None
      end
  end.

Definition rfind_char (c : ascii) (s : string) : option nat :=
  rfind_char_from c s 0.

(** [s.count(c)] for a one-character [c]. *)
Fixpoint count_char (c : ascii) (s : string) : nat :=
  match s with
  | EmptyString => 0
  | String a s' => (if Ascii.eqb a c then 1 else 0) + count_char c s'
  end.

(** [s[n:]] and [s[:n]] for [0 <= n]. *)
Fixpoint drop (n : nat) (s : string) : string :=
  match n, s with
  | O, _ => s
  | S _, EmptyString => EmptyString
  | S k, String _ s' => drop k s'
  end.

Fixpoint take (n : nat) (s : string) : string :=
  match n, s with
  | O, _ => EmptyString
  | S _, EmptyString => EmptyString
  | S k, String a s' => String a (take k s')
  end.

(** [c * n] for a one-character [c]. *)
Fixpoint repeat_char (c : ascii) (n : nat) : string :=
  match n with
  | O => EmptyString
  | S k => String c (repeat_char c k)
  end.

(** [s.lstrip()], [s.rstrip()], [s.strip()] *)
Fixpoint lstrip (s : string) : string :=
  match s with
  | EmptyString => EmptyString
  | String a s' => if isspace a then lstrip s' else s
  end.

Fixpoint rstrip (s : string) : string :=
  match s with
  | EmptyString => EmptyString
  | String a s' =>
      let r := rstrip s' in
      if isspace a && is_empty r then EmptyString else String a r
  end.

Definition strip (s : string) : string := rstrip (lstrip s).

(** [s.endswith(p)] *)
Definition endswith (p s : string) : bool :=
  (String.length p <=? String.length s)%nat
  && String.eqb (drop (String.length s - String.length p) s) p.

(** [s[:-1]] *)
Definition drop_last (s : string) : string := take (String.length s - 1) s.

(** [s.split('\n')] *)
Fixpoint split_lines (s : string) : list string :=
  match s with
  | EmptyString => [EmptyString]
  | String a s' =>
      let r := split_lines s' in
      if Ascii.eqb a nl then EmptyString :: r
      else match r with
           | h :: t => String a h :: t
           | [] => [String a EmptyString]
           end
  end.

(** ['\n'.join(lines)] *)
Definition join_lines (lines : list string) : string :=
  String.concat (String nl EmptyString) lines.

(** [s.split(sep)] for a non-empty [sep]; [skip] characters of a separator
    that has just been recognised are still to be passed over. *)
Fixpoint split_aux (sep s : string) (skip : nat) : list string :=
  match s with
  | EmptyString => [EmptyString]
  | String a s' =>
      match skip with
      | S k => split_aux sep s' k
      | O =>
          if startswith sep s
          then EmptyString :: split_aux sep s' (String.length sep - 1)
          else match split_aux sep s' 0 with
               | h :: t => String a h :: t
               | [] => [String a EmptyString]
               end
      end
  end.

Definition split (sep s : string) : list string := split_aux sep s 0.

(** [s.replace(old, new)] for a non-empty [old]: the occurrences are taken
    left to right and do not overlap. *)
Fixpoint replace_aux (old new s : string) (skip : nat) : string :=
  match s with
  | EmptyString => EmptyString
  | String a s' =>
      match skip with
      | S k => replace_aux old new s' k
      | O =>
          if startswith old s
          then new ++ replace_aux old new s' (String.length old - 1)
          else String a (replace_aux old new s' 0)
      end
  end.

(** With an empty [old] Python puts [new] before every character and at
    the end. *)
Fixpoint intersperse (new s : string) : string :=
  match s with
  | EmptyString => new
  | String a s' => new ++ String a (intersperse new s')
  end.

Definition replace (old new s : string) : string :=
  if is_empty old then intersperse new s else replace_aux old new s 0.

(** [str(n)] for a natural number. *)
Definition str_of_nat (n : nat) : string :=
  NilEmpty.string_of_uint (Nat.to_uint n).

(** [len(l)] as a Python integer. *)
Definition len {A : Type} (l : list A) : Z := Z.of_nat (List.length l).

(** Position denoted by the subscript [i] in a list of [n] items. *)
Definition subscript (n : nat) (i : Z) : option nat :=
  if (0 <=? i)%Z
  then (if (i <? Z.of_nat n)%Z then Some (Z.to_nat i) else None)
  else (if (- Z.of_nat n <=? i)%Z then Some (Z.to_nat (Z.of_nat n + i)) else None).

Fixpoint set_nth {A : Type} (k : nat) (v : A) (l : list A) : list A :=
  match l, k with
  | [], _ => []
  | _ :: t, O => v :: t
  | h :: t, S k' => h :: set_nth k' v t
  end.

(** [l[i]] *)
Definition getitem {A : Type} (l : list A) (i : Z) : option A :=
  match subscript (List.length l) i with
  | Some k => nth_error l k
  | None => None
  end.

(** [l[i] = v] *)
Definition setitem {A : Type} (l : list A) (i : Z) (v : A) : option (list A) :=
  match subscript (List.length l) i with
  | Some k => Some (set_nth k v l)
  | None => None
  end.

End Py.

(* ================================================================== *)
(** ** Exceptions *)
(* ================================================================== *)

Inductive exn : Type :=
  | IndexError
  | KeyError (key : string)
  | Exception (str_e : string).

(** [str(e)] *)
Definition str_exn (e : exn) : string :=
  match e with
  | IndexError => "list index out of range"
  | KeyError key => "'" ++ key ++ "'"
  | Exception str_e => str_e
  end.

(** The outcome of a call that either returns or raises. *)
Inductive outcome (A : Type) : Type :=
  | Return (a : A)
  | Raise (e : exn).

Arguments Return {A} a.
Arguments Raise {A} e.

Definition bind {A B : Type} (m : outcome A) (k : A -> outcome B) : outcome B :=
  match m with
  | Return a => k a
  | Raise e => Raise e
  end.

Notation "'do' x <- m ; k" := (bind m (fun x => k))
  (at level 10, x name, m at level 100, k at level 200).

(** [l[i]] and [l[i] = v] as calls that may raise [IndexError]. *)
Definition getitem {A : Type} (l : list A) (i : Z) : outcome A :=
  match Py.getitem l i with
  | Some a => Return a
  | None => Raise IndexError
  end.

Definition setitem {A : Type} (l : list A) (i : Z) (v : A) : outcome (list A) :=
  match Py.setitem l i v with
  | Some l' => Return l'
  | None => Raise IndexError
  end.

(* ================================================================== *)
(** ** Stable sorting, as [list.sort(key=..., reverse=True)] *)
(* ================================================================== *)

Section StableSort.
Context {A : Type}.
(** [lt_key x y]: the key of [x] is strictly below the key of [y]. *)
Variable lt_key : A -> A -> bool.

(** [x] was found before every item of [l]: it goes in front of the
    first item whose key is not strictly greater. *)
Fixpoint insert_desc (x : A) (l : list A) : list A :=
  match l with
  | [] => [x]
  | y :: l' => if lt_key x y then y :: insert_desc x l' else x :: l
  end.

Fixpoint sort_desc (l : list A) : list A :=
  match l with
  | [] => []
  | x :: l' => insert_desc x (sort_desc l')
  end.
End StableSort.

(* ================================================================== *)
(** ** Binary64 arithmetic, as Python's [float] *)
(* ================================================================== *)

Module Binary64.

(** [n/d < 2^e], for positive [n] and [d]. *)
Definition below_pow2 (n d e : Z) : bool :=
  if (0 <=? e)%Z then (n <? d * 2 ^ e)%Z else (n * 2 ^ (- e) <? d)%Z.

(** The exponent [e] with [2^e <= n/d < 2^(e+1)], for positive [n], [d]. *)
Definition exponent (n d : Z) : Z :=
  let e0 := (Z.log2 n - Z.log2 d)%Z in
  if below_pow2 n d e0 then (e0 - 1)%Z else e0.

(** The binary64 number nearest to the positive rational [n/d]: 53
    significant bits, or a multiple of [2^-1074] below the normal range,
    a tie going to the even significand.  Overflow is not part of the
    model: the magnitudes met here are far below [2^1024]. *)
Definition round_pos (n d : Z) : Q :=
  let ulp := Z.max (exponent n d - 52) (-1074) in
  let scaled_n := if (0 <=? ulp)%Z then n else (n * 2 ^ (- ulp))%Z in
  let scaled_d := if (0 <=? ulp)%Z then (d * 2 ^ ulp)%Z else d in
  let m := (scaled_n / scaled_d)%Z in
  let r := (scaled_n mod scaled_d)%Z in
  let m' :=
    match (2 * r ?= scaled_d)%Z with
    | Lt => m
    | Gt => (m + 1)%Z
    | Eq => if Z.even m then m else (m + 1)%Z
    end in
  if (0 <=? ulp)%Z then inject_Z (m' * 2 ^ ulp)
  else Qred (Qmake m' (Z.to_pos (2 ^ (- ulp)))).

(** The float that the rational [q] stands for, as the rational that it
    is. *)
Definition round64 (q : Q) : Q :=
  match Qnum q with
  | Z0 => (0 # 1)%Q
  | Zpos n => round_pos (Zpos n) (Zpos (Qden q))
  | Zneg n => Qopp (round_pos (Zpos n) (Zpos (Qden q)))
  end.

(** [x + y], [x - y], [x * y] and [x / y] on floats: the exact result,
    rounded. *)
Definition add (x y : Q) : Q := round64 (round64 x + round64 y)%Q.
Definition sub (x y : Q) : Q := round64 (round64 x - round64 y)%Q.
Definition mul (x y : Q) : Q := round64 (round64 x * round64 y)%Q.
Definition div (x y : Q) : Q := round64 (round64 x / round64 y)%Q.

End Binary64.

(* ================================================================== *)
(** ** ast_analyzer.py: data *)
(* ================================================================== *)

(** [class SyntaxError] *)
Record SyntaxError : Type := mkSyntaxError {
  err_line : Z;
  err_column : Z;
  message : string;
  severity : string;
  error_code : string;
  source : string
}.

(** [class ASTNode] *)
Record ASTNode : Type := mkASTNode {
  node_type : string;
  node_start : Z;
  node_end : Z;
  node_line : Z;
  node_column : Z;
  raw : string
}.

(** [class ASTAnalysis]; [parse_time] is a reading of the clock. *)
Record ASTAnalysis : Type := mkASTAnalysis {
  is_valid : bool;
  syntax_errors : list SyntaxError;
  ast_nodes : list ASTNode;
  parse_time : Q;
  file_type : string
}.

(* ================================================================== *)
(** ** syntax_fix_generator.py *)
(* ================================================================== *)

(** [class SyntaxFix] *)
Record SyntaxFix : Type := mkSyntaxFix {
  line : Z;
  column : Z;
  old_text : string;
  new_text : string;
  description : string;
  confidence : Q;
  fix_type : string
}.

(** [class FixResult] *)
Record FixResult : Type := mkFixResult {
  success : bool;
  fixed_content : string;
  fixes_applied : list SyntaxFix;
  errors_remaining : list SyntaxError;
  fr_confidence : Q
}.

(** One entry of [fix_patterns]. *)
Record PatternInfo : Type := mkPatternInfo {
  pi_description : string;
  pi_confidence : Q;
  pi_fix_type : string
}.

Module fix_patterns.
Definition UNMATCHED_PAREN : PatternInfo :=
  mkPatternInfo "Fix unmatched parentheses" (9 # 10) "parentheses".
Definition INCOMPLETE_CALL : PatternInfo :=
  mkPatternInfo "Complete incomplete function calls" (95 # 100) "call_completion".
Definition MALFORMED_TIMEOUT : PatternInfo :=
  mkPatternInfo "Fix malformed setTimeout patterns" (85 # 100) "async_pattern".
Definition MISSING_SEMICOLON : PatternInfo :=
  mkPatternInfo "Add missing semicolons" (8 # 10) "semicolon".
Definition UNMATCHED_BRACKET : PatternInfo :=
  mkPatternInfo "Fix unmatched brackets" (9 # 10) "bracket".
End fix_patterns.

(** [s.index(sub)]: every call below is guarded by a membership test for a
    string that [sub] is a prefix of, so the search succeeds (lemma
    [contains_index]). *)
Definition index (sub s : string) : nat :=
  match Py.find sub s with
  | Some i => i
  | None => 0
  end.

(** The loop of the removal branch: each round deletes the last [')']. *)
Fixpoint remove_last_parens (rounds : nat) (new_line : string) : string :=
  match rounds with
  | O => new_line
  | S k =>
      let new_line' :=
        match Py.rfind_char ")" new_line with
        | Some last_paren =>
            Py.take last_paren new_line ++ Py.drop (S last_paren) new_line
        | None => new_line
        end in
      remove_last_parens k new_line'
  end.

Definition _fix_unmatched_parentheses
    (error : SyntaxError) (line : string) (line_num : Z) : option SyntaxFix :=
  let pattern_info := fix_patterns.UNMATCHED_PAREN in
  let open_parens := Py.count_char "(" line in
  let close_parens := Py.count_char ")" line in
  if (close_parens <? open_parens)%nat then
    let missing_parens := open_parens - close_parens in
    let new_line :=
      if Py.endswith ";" (Py.rstrip line)
      then Py.drop_last (Py.rstrip line) ++ Py.repeat_char ")" missing_parens ++ ";"
      else Py.rstrip line ++ Py.repeat_char ")" missing_parens in
    Some {| line := line_num;
            column := Z.of_nat (String.length (Py.rstrip line)) + 1;
            old_text := Py.rstrip line;
            new_text := new_line;
            description := pi_description pattern_info ++ " - add "
                           ++ Py.str_of_nat missing_parens ++ " closing paren(s)";
            confidence := pi_confidence pattern_info;
            fix_type := pi_fix_type pattern_info |}
  else if (open_parens <? close_parens)%nat then
    let excess_parens := close_parens - open_parens in
    let new_line := remove_last_parens excess_parens line in
    Some {| line := line_num;
            column := 1;
            old_text := Py.rstrip line;
            new_text := Py.rstrip new_line;
            description := pi_description pattern_info ++ " - remove "
                           ++ Py.str_of_nat excess_parens ++ " extra paren(s)";
            confidence := Binary64.mul (pi_confidence pattern_info) (8 # 10);
            fix_type := pi_fix_type pattern_info |}
  else None.

Definition function_patterns : list string :=
  ["expect("; "render("; "waitFor("; "screen.getBy"].

(** The [for pattern in function_patterns] loop of [_fix_incomplete_call]. *)
Fixpoint incomplete_call_general
    (patterns : list string) (line : string) (line_num : Z) : option SyntaxFix :=
  let pattern_info := fix_patterns.INCOMPLETE_CALL in
  match patterns with
  | [] => None
  | pattern :: rest =>
      if Py.contains pattern line then
        let tail := Py.drop (index pattern line) line in
        let open_parens := Py.count_char "(" tail in
        let close_parens := Py.count_char ")" tail in
        if (close_parens <? open_parens)%nat then
          let missing_parens := open_parens - close_parens in
          let new_line := Py.rstrip line ++ Py.repeat_char ")" missing_parens in
          Some {| line := line_num;
                  column := Z.of_nat (String.length (Py.rstrip line)) + 1;
                  old_text := Py.rstrip line;
                  new_text := new_line;
                  description := pi_description pattern_info ++ " - complete "
                                 ++ pattern ++ " call";
                  confidence := Binary64.mul (pi_confidence pattern_info) (9 # 10);
                  fix_type := pi_fix_type pattern_info |}
        else incomplete_call_general rest line line_num
      else incomplete_call_general rest line line_num
  end.

Definition _fix_incomplete_call
    (error : SyntaxError) (line : string) (line_num : Z) : option SyntaxFix :=
  let pattern_info := fix_patterns.INCOMPLETE_CALL in
  if Py.contains "setSystemTime(" line
     && (Py.contains ";" line && negb (Py.endswith ");" (Py.strip line)))
  then
    let semicolon_pos := index ";" line in
    let new_line := Py.take semicolon_pos line ++ ")" ++ Py.drop semicolon_pos line in
    Some {| line := line_num;
            column := Z.of_nat semicolon_pos + 1;
            old_text := Py.rstrip line;
            new_text := Py.rstrip new_line;
            description := pi_description pattern_info ++ " - complete setSystemTime call";
            confidence := pi_confidence pattern_info;
            fix_type := pi_fix_type pattern_info |}
  else incomplete_call_general function_patterns line line_num.

Definition _fix_malformed_timeout
    (error : SyntaxError) (line : string) (line_num : Z) : option SyntaxFix :=
  let pattern_info := fix_patterns.MALFORMED_TIMEOUT in
  if Py.contains "setTimeout((" line && Py.contains ";" line then
    let new_line := Py.replace "setTimeout((;" "setTimeout(()" line in
    Some {| line := line_num;
            column := Z.of_nat (index "setTimeout(" line) + 1;
            old_text := Py.rstrip line;
            new_text := Py.rstrip new_line;
            description := pi_description pattern_info ++ " - fix arrow function syntax";
            confidence := pi_confidence pattern_info;
            fix_type := pi_fix_type pattern_info |}
  else
    if Py.contains "setTimeout(() =>" line && Py.contains "=>" line then
      let parts := Py.split "=>" line in
      if (2 <? List.length parts)%nat then
        let new_line :=
          hd EmptyString parts ++ "=>"
          ++ String.concat EmptyString (skipn 2 parts) in
        Some {| line := line_num;
                column := Z.of_nat (index "setTimeout(" line) + 1;
                old_text := Py.rstrip line;
                new_text := Py.rstrip new_line;
                description := pi_description pattern_info
                               ++ " - remove duplicate arrow function";
                confidence := Binary64.mul (pi_confidence pattern_info) (8 # 10);
                fix_type := pi_fix_type pattern_info |}
      else None
    else None.

Definition statement_enders : list string := [";"; "{"; "}"; ")"; "]"].

Definition statement_patterns : list string :=
  ["const "; "let "; "var "; "return "; "throw "; "import "].

Definition _fix_general_parse_error
    (error : SyntaxError) (line : string) (line_num : Z) : option SyntaxFix :=
  if negb (existsb (fun e => Py.endswith e (Py.strip line)) statement_enders)
     && negb (Py.is_empty (Py.strip line))
  then
    if existsb (fun pattern => Py.startswith pattern (Py.strip line)) statement_patterns
    then
      let new_line := Py.rstrip line ++ ";" in
      Some {| line := line_num;
              column := Z.of_nat (String.length (Py.rstrip line)) + 1;
              old_text := Py.rstrip line;
              new_text := new_line;
              description := "Add missing semicolon";
              confidence := (7 # 10)%Q;
              fix_type := "semicolon" |}
    else None
  else None.

Definition _generate_fix_for_error
    (error : SyntaxError) (lines : list string) (content : string)
    : outcome (option SyntaxFix) :=
  let error_code := error_code error in
  let line_num := err_line error in
  if (Py.len lines <? line_num)%Z then Return None
  else
    do line <- getitem lines (line_num - 1);
    if String.eqb error_code "UNMATCHED_PAREN" then
      Return (_fix_unmatched_parentheses error line line_num)
    else if String.eqb error_code "INCOMPLETE_CALL" then
      Return (_fix_incomplete_call error line line_num)
    else if String.eqb error_code "MALFORMED_TIMEOUT" then
      Return (_fix_malformed_timeout error line line_num)
    else if String.eqb error_code "PARSE_ERROR" || String.eqb error_code "PARSE_FAILED" then
      Return (_fix_general_parse_error error line line_num)
    else Return None.

(** The [for error in analysis.syntax_errors] loop of [generate_fixes]. *)
Fixpoint collect_fixes
    (errors : list SyntaxError) (lines : list string) (content : string)
    : outcome (list SyntaxFix) :=
  match errors with
  | [] => Return []
  | error :: rest =>
      if String.eqb (source error) "ast" then
        do fx <- _generate_fix_for_error error lines content;
        do fixes <- collect_fixes rest lines content;
        Return (match fx with
                | Some f => f :: fixes
                | None => fixes
                end)
      else collect_fixes rest lines content
  end.

(** The sort key [(x.line, x.column)], compared as Python compares tuples. *)
Definition position_lt (x y : SyntaxFix) : bool :=
  (line x <? line y)%Z || ((line x =? line y)%Z && (column x <? column y)%Z).

Definition generate_fixes (analysis : ASTAnalysis) (content : string)
    : outcome (list SyntaxFix) :=
  let lines := Py.split_lines content in
  do fixes <- collect_fixes (syntax_errors analysis) lines content;
  Return (sort_desc position_lt fixes).

(** The [for fix in fixes] loop of [apply_fixes]: the state is the pair of
    [lines] and [fixes_applied]. *)
Fixpoint apply_loop
    (fixes : list SyntaxFix) (lines : list string) (fixes_applied : list SyntaxFix)
    : outcome (list string * list SyntaxFix) :=
  match fixes with
  | [] => Return (lines, fixes_applied)
  | fx :: rest =>
      if (line fx <=? Py.len lines)%Z then
        let line_index := (line fx - 1)%Z in
        do old_line <- getitem lines line_index;
        do lines' <- setitem lines line_index (new_text fx);
        apply_loop rest lines' (fixes_applied ++ [fx])%list
      else apply_loop rest lines fixes_applied
  end.

(** [sum(fix.confidence for fix in fixes)]: the floats are added from
    the left, starting from the integer 0, as CPython does up to version
    3.11 (later versions compensate the rounding of the additions, which
    can change the last bit of the sum). *)
Definition sum_confidence (fixes : list SyntaxFix) : Q :=
  fold_left (fun acc fx => Binary64.add acc (confidence fx)) fixes (0 # 1)%Q.

Definition apply_fixes (content : string) (fixes : list SyntaxFix) : outcome FixResult :=
  match fixes with
  | [] =>
      Return {| success := true;
                fixed_content := content;
                fixes_applied := [];
                errors_remaining := [];
                fr_confidence := (1 # 1)%Q |}
  | _ :: _ =>
      let lines := Py.split_lines content in
      do st <- apply_loop fixes lines [];
      let '(lines', fixes_applied) := st in
      let fixed_content := Py.join_lines lines' in
      let overall_confidence :=
        match fixes_applied with
        | _ :: _ => Binary64.div (sum_confidence fixes_applied)
                                 (inject_Z (Py.len fixes_applied))
        | [] => (1 # 1)%Q
        end in
      Return {| success := (0 <? List.length fixes_applied)%nat;
                fixed_content := fixed_content;
                fixes_applied := fixes_applied;
                errors_remaining := [];
                fr_confidence := overall_confidence |}
  end.

Definition fix_content (analysis : ASTAnalysis) (content : string) : outcome FixResult :=
  do fixes <- generate_fixes analysis content;
  apply_fixes content fixes.

(* ================================================================== *)
(** ** ast_analyzer.py: pattern detection *)
(* ================================================================== *)

(** [s.rfind(c) + 1] *)
Definition rfind_plus_one (c : ascii) (s : string) : Z :=
  match Py.rfind_char c s with
  | Some i => Z.of_nat i + 1
  | None => 0
  end.

(** The body of the [for i, line in enumerate(lines)] loop. *)
Definition detect_line (line_num : Z) (line : string) : list SyntaxError :=
  let unmatched :=
    if existsb (fun pattern => Py.contains pattern line) function_patterns then
      let open_parens := Py.count_char "(" line in
      let close_parens := Py.count_char ")" line in
      if (close_parens <? open_parens)%nat then
        [ {| err_line := line_num;
             err_column := Z.of_nat (String.length line)
                           - Z.of_nat (String.length (Py.lstrip line)) + 1;
             message := "Unmatched opening parenthesis in function call";
             severity := "error";
             error_code := "UNMATCHED_PAREN";
             source := "ast" |} ]
      else if (open_parens <? close_parens)%nat then
        [ {| err_line := line_num;
             err_column := rfind_plus_one ")" line;
             message := "Unmatched closing parenthesis in function call";
             severity := "error";
             error_code := "UNMATCHED_PAREN";
             source := "ast" |} ]
      else []
    else [] in
  let incomplete :=
    if Py.contains "setSystemTime(" line && negb (Py.endswith ");" (Py.strip line)) then
      if Py.contains ";" line
         && negb (Py.contains ")" (Py.drop (index ";" line) line))
      then
        [ {| err_line := line_num;
             err_column := Z.of_nat (index "setSystemTime" line) + 1;
             message := "Incomplete setSystemTime call - missing closing parenthesis";
             severity := "error";
             error_code := "INCOMPLETE_CALL";
             source := "ast" |} ]
      else []
    else [] in
  let timeout :=
    if Py.contains "setTimeout(()" line
       && (Py.contains ";" line
           && negb (Py.contains ")" (Py.drop (index ";" line) line)))
    then
      [ {| err_line := line_num;
           err_column := Z.of_nat (index "setTimeout" line) + 1;
           message := "Malformed setTimeout pattern";
           severity := "error";
           error_code := "MALFORMED_TIMEOUT";
           source := "ast" |} ]
    else [] in
  (unmatched ++ incomplete ++ timeout)%list.

Fixpoint detect_from (i : nat) (lines : list string) : list SyntaxError :=
  match lines with
  | [] => []
  | line :: rest => (detect_line (Z.of_nat i + 1) line ++ detect_from (S i) rest)%list
  end.

Definition detect_specific_errors (analysis : ASTAnalysis) (content : string)
    : list SyntaxError :=
  detect_from 0 (Py.split_lines content).

(* ================================================================== *)
(** ** ast_analyzer.py: the parser adapter *)
(* ================================================================== *)

(** What [subprocess.run(['node', ...], timeout=30)] did. *)
Inductive run_outcome : Type :=
  | Completed (returncode : Z) (stdout stderr : string)
  | TimeoutExpired
  | RunException (str_e : string).

(** A decoded JSON object is a dictionary: a key may be absent. *)
Record error_dict : Type := mkErrorDict {
  e_line : option Z;
  e_column : option Z;
  e_message : option string;
  e_severity : option string;
  e_errorCode : option string;
  e_source : option string
}.

Record node_dict : Type := mkNodeDict {
  n_type : option string;
  n_start : option Z;
  n_end : option Z;
  n_line : option Z;
  n_column : option Z;
  n_raw : option string
}.

Record parse_dict : Type := mkParseDict {
  d_success : option bool;
  d_error : option string;
  d_isValid : option bool;
  d_syntaxErrors : option (list error_dict);
  d_astNodes : option (list node_dict);
  d_fileType : option string
}.

(** The collaborators of [JSASTParser.parse] and [ASTAnalyzer]. *)
Record parser_env : Type := mkParserEnv {
  (** [_ensure_typescript_installed()]: [Some str_e] when it raises
      anything but the [CalledProcessError] it handles itself *)
  ensure_typescript_raises : option string;
  (** [self.node_script_path] *)
  node_script_path : option string;
  (** the Node.js process, by file path *)
  run_node : string -> run_outcome;
  (** [json.loads]; [inr str_e] when it raises *)
  json_loads : string -> parse_dict + string;
  (** [time.time() - start_time] when the parse is over *)
  elapsed : Q;
  (** [Path(file_path).suffix] *)
  path_suffix : string -> string;
  (** the name [NamedTemporaryFile] picks, before the suffix *)
  temp_prefix : string
}.

(** The dictionary [parse] returns in each of its failure branches. *)
Definition failure_dict (error : string) : parse_dict :=
  {| d_success := Some false;
     d_error := Some error;
     d_isValid := Some false;
     d_syntaxErrors := Some [];
     d_astNodes := Some [];
     d_fileType := Some "unknown" |}.

(** [JSASTParser.parse]: every exception is caught inside. *)
Definition parse (env : parser_env) (file_path : string) : parse_dict :=
  match ensure_typescript_raises env with
  | Some str_e => failure_dict str_e
  | None =>
      match node_script_path env with
      | None => failure_dict "Node.js script not initialized"
      | Some _ =>
          match run_node env file_path with
          | Completed returncode stdout stderr =>
              if negb (returncode =? 0)%Z then failure_dict stderr
              else match json_loads env stdout with
                   | inl d => d
                   | inr str_e => failure_dict str_e
                   end
          | TimeoutExpired => failure_dict "Parse timeout"
          | RunException str_e => failure_dict str_e
          end
      end
  end.

Definition supported_extensions : list string :=
  [".ts"; ".tsx"; ".js"; ".jsx"; ".test.ts"; ".test.tsx"].

(** [d[key]] *)
Definition item {A : Type} (key : string) (v : option A) : outcome A :=
  match v with
  | Some a => Return a
  | None => Raise (KeyError key)
  end.

(** [d.get(key, default)] *)
Definition get {A : Type} (v : option A) (default : A) : A :=
  match v with
  | Some a => a
  | None => default
  end.

Definition convert_error (error : error_dict) : outcome SyntaxError :=
  do l <- item "line" (e_line error);
  do c <- item "column" (e_column error);
  do m <- item "message" (e_message error);
  do sv <- item "severity" (e_severity error);
  do src <- item "source" (e_source error);
  Return {| err_line := l; err_column := c; message := m; severity := sv;
            error_code := get (e_errorCode error) "UNKNOWN"; source := src |}.

Definition convert_node (node : node_dict) : outcome ASTNode :=
  do t <- item "type" (n_type node);
  do st <- item "start" (n_start node);
  do en <- item "end" (n_end node);
  do l <- item "line" (n_line node);
  do c <- item "column" (n_column node);
  do r <- item "raw" (n_raw node);
  Return {| node_type := t; node_start := st; node_end := en;
            node_line := l; node_column := c; raw := r |}.

Fixpoint map_outcome {A B : Type} (f : A -> outcome B) (l : list A) : outcome (list B) :=
  match l with
  | [] => Return []
  | a :: rest =>
      do b <- f a;
      do bs <- map_outcome f rest;
      Return (b :: bs)
  end.

Definition parse_failed (msg : string) : SyntaxError :=
  {| err_line := 1; err_column := 1; message := msg; severity := "error";
     error_code := "PARSE_FAILED"; source := "ast" |}.

Definition analyze_file (env : parser_env) (file_path : string) : outcome ASTAnalysis :=
  if negb (existsb (fun ext => Py.endswith ext file_path) supported_extensions) then
    Return {| is_valid := false;
              syntax_errors :=
                [ {| err_line := 1; err_column := 1;
                     message := "Unsupported file type: " ++ path_suffix env file_path;
                     severity := "error"; error_code := "UNSUPPORTED_TYPE";
                     source := "ast" |} ];
              ast_nodes := [];
              parse_time := elapsed env;
              file_type := "unsupported" |}
  else
    let parse_result := parse env file_path in
    let parse_time := elapsed env in
    do ok <- item "success" (d_success parse_result);
    if negb ok then
      Return {| is_valid := false;
                syntax_errors :=
                  [ parse_failed (get (d_error parse_result) "Unknown parse error") ];
                ast_nodes := [];
                parse_time := parse_time;
                file_type := get (d_fileType parse_result) "unknown" |}
    else
      do raw_errors <- item "syntaxErrors" (d_syntaxErrors parse_result);
      do syntax_errors <- map_outcome convert_error raw_errors;
      do raw_nodes <- item "astNodes" (d_astNodes parse_result);
      do ast_nodes <- map_outcome convert_node raw_nodes;
      do valid <- item "isValid" (d_isValid parse_result);
      do ft <- item "fileType" (d_fileType parse_result);
      Return {| is_valid := valid;
                syntax_errors := syntax_errors;
                ast_nodes := ast_nodes;
                parse_time := parse_time;
                file_type := ft |}.

(** [analyze_with_content]: the analysis of a temporary copy, extended in
    place with the diagnostics of [detect_specific_errors]. *)
Definition analyze_with_content
    (env : parser_env) (file_path content : string) : outcome ASTAnalysis :=
  let temp_path := temp_prefix env ++ path_suffix env file_path in
  do analysis <- analyze_file env temp_path;
  let specific_errors := detect_specific_errors analysis content in
  Return {| is_valid := is_valid analysis;
            syntax_errors := (syntax_errors analysis ++ specific_errors)%list;
            ast_nodes := ast_nodes analysis;
            parse_time := parse_time analysis;
            file_type := file_type analysis |}.

(* ================================================================== *)
(** ** next_gen_auto_fixer.py: the aggregate confidence *)
(* ================================================================== *)

Definition Qltb (x y : Q) : bool := negb (Qle_bool y x).

(** [min(a, b)] and [max(a, b)] of two numbers: the first argument is kept
    unless the second is strictly better. *)
Definition py_min (a b : Q) : Q := if Qltb b a then b else a.
Definition py_max (a b : Q) : Q := if Qltb a b then b else a.

Definition _calculate_confidence
    (original fixed : string) (fixes : list string)
    (ast_analysis : option ASTAnalysis) (manual_review : bool)
    (errors : list string) : Q :=
  match fixes with
  | [] => if String.eqb original fixed then (1 # 1)%Q else (0 # 1)%Q
  | _ :: _ =>
      let base_confidence := (9 # 10)%Q in
      let base_confidence :=
        if manual_review then (base_confidence - (2 # 10))%Q else base_confidence in
      let base_confidence :=
        match errors with
        | _ :: _ => (base_confidence - (1 # 10) * inject_Z (Py.len errors))%Q
        | [] => base_confidence
        end in
      let base_confidence :=
        match ast_analysis with
        | Some analysis =>
            if is_valid analysis then (base_confidence + (1 # 10))%Q
            else base_confidence
        | None => base_confidence
        end in
      let base_confidence :=
        if (10 <? List.length fixes)%nat then (base_confidence - (1 # 10))%Q
        else if (5 <? List.length fixes)%nat then (base_confidence - (5 # 100))%Q
        else base_confidence in
      py_max (0 # 1)%Q (py_min (1 # 1)%Q base_confidence)
  end.

(* ================================================================== *)
(** ** type_fix_generator.py: missing-member diagnostics *)
(* ================================================================== *)

Module TypeFixGenerator.

(** [class TypeDiagnostic] (typescript_analyzer.py) *)
Record TypeDiagnostic : Type := mkTypeDiagnostic {
  diag_line : Z;
  diag_column : Z;
  diag_message : string;
  diag_severity : string;
  code : Z;
  category : string;
  file : string
}.

(** [class TypeFix] *)
Record TypeFix : Type := mkTypeFix {
  line : Z;
  column : Z;
  fix_type : string;
  old_text : string;
  new_text : string;
  description : string;
  confidence : Q;
  type_info : option string
}.

Definition quote : ascii := "039"%char.

(** The longest prefix without a quote, and what follows it: the only way
    for [[^']+] to be followed by a quote. *)
Fixpoint span_not_quote (s : string) : string * string :=
  match s with
  | EmptyString => (EmptyString, EmptyString)
  | String a s' =>
      if Ascii.eqb a quote then (EmptyString, s)
      else let (g, r) := span_not_quote s' in (String a g, r)
  end.

(** A match of [Property '([^']+)' does not exist] at the start of [s]:
    the group. *)
Definition match_property_here (s : string) : option string :=
  if Py.startswith "Property '" s then
    let (g, r) := span_not_quote (Py.drop 10 s) in
    if negb (Py.is_empty g) && Py.startswith "' does not exist" r
    then Some g else None
  else None.

(** [re.search(r"Property '([^']+)' does not exist", message)]: the group
    of the leftmost match. *)
Fixpoint search_property (message : string) : option string :=
  match match_property_here message with
  | Some g => Some g
  | None =>
      match message with
      | EmptyString => None
      | String _ rest => search_property rest
      end
  end.

Definition valid_queries : list string :=
  ["getByText"; "getByRole"; "getByLabelText"; "getByPlaceholderText";
   "getByAltText"; "getByTitle"; "getByTestId"; "getByDisplayValue"].

Definition _fix_property_not_exist
    (diagnostic : TypeDiagnostic) (line0 : string) : option TypeFix :=
  match search_property (diag_message diagnostic) with
  | None => None
  | Some property_name =>
      if Py.contains "mockReturnValue" line0 || Py.contains "mockImplementation" line0
      then
        if negb (Py.contains "as any" line0) then
          let new_line := Py.replace property_name (property_name ++ " as any") line0 in
          Some {| line := diag_line diagnostic;
                  column := diag_column diagnostic;
                  fix_type := "type_assertion";
                  old_text := Py.strip line0;
                  new_text := Py.strip new_line;
                  description := "Add type assertion for mock property '"
                                 ++ property_name ++ "'";
                  confidence := (8 # 10)%Q;
                  type_info := Some "any" |}
        else None
      else
        if Py.contains "screen." line0 && Py.startswith "getBy" property_name then
          if existsb (String.eqb property_name) valid_queries then
            Some {| line := diag_line diagnostic;
                    column := diag_column diagnostic;
                    fix_type := "import_fix";
                    old_text := Py.strip line0;
                    new_text := Py.strip line0;
                    description := "Valid screen query '" ++ property_name
                                   ++ "' - ensure proper imports";
                    confidence := (9 # 10)%Q;
                    type_info := Some "screen_query" |}
          else None
        else None
  end.

(** The handlers of the other diagnostic codes are not modelled: the
    dispatch takes them as parameters. *)
Record other_handlers : Type := mkOtherHandlers {
  _fix_argument_type_mismatch : TypeDiagnostic -> string -> option TypeFix;
  _fix_type_assignment_error : TypeDiagnostic -> string -> option TypeFix;
  _fix_cannot_find_name : TypeDiagnostic -> string -> option TypeFix;
  _fix_unknown_type : TypeDiagnostic -> string -> option TypeFix;
  _fix_implicit_any_parameter : TypeDiagnostic -> string -> option TypeFix
}.

Definition _create_fix_for_diagnostic
    (h : other_handlers) (diagnostic : TypeDiagnostic) (line0 : string)
    : option TypeFix :=
  if (code diagnostic =? 2339)%Z then _fix_property_not_exist diagnostic line0
  else if (code diagnostic =? 2345)%Z then _fix_argument_type_mismatch h diagnostic line0
  else if (code diagnostic =? 2322)%Z then _fix_type_assignment_error h diagnostic line0
  else if (code diagnostic =? 2304)%Z then _fix_cannot_find_name h diagnostic line0
  else if (code diagnostic =? 2571)%Z then _fix_unknown_type h diagnostic line0
  else if (code diagnostic =? 7006)%Z then _fix_implicit_any_parameter h diagnostic line0
  else None.

(** The loop of [_fix_type_diagnostics]. *)
Fixpoint fix_diagnostics_loop
    (h : other_handlers) (diagnostics : list TypeDiagnostic) (lines : list string)
    : outcome (list TypeFix) :=
  match diagnostics with
  | [] => Return []
  | diagnostic :: rest =>
      if (diag_line diagnostic <=? Py.len lines)%Z then
        do line0 <- getitem lines (diag_line diagnostic - 1);
        do fixes <- fix_diagnostics_loop h rest lines;
        Return (match _create_fix_for_diagnostic h diagnostic line0 with
                | Some f => f :: fixes
                | None => fixes
                end)
      else fix_diagnostics_loop h rest lines
  end.

Definition _fix_type_diagnostics
    (h : other_handlers) (diagnostics : list TypeDiagnostic) (content : string)
    : outcome (list TypeFix) :=
  fix_diagnostics_loop h diagnostics (Py.split_lines content).

End TypeFixGenerator.

(* ================================================================== *)
(** ** ml_context_engine.py: contextual ranking *)
(* ================================================================== *)

Module MLContextEngine.

(** [class CodeContext] *)
Record CodeContext : Type := mkCodeContext {
  cc_file_type : string;
  framework : string;
  patterns : list string;
  imports : list string;
  functions : list string;
  variables : list string;
  test_type : string;
  complexity_score : Q
}.

(** [class ContextualFix] *)
Record ContextualFix : Type := mkContextualFix {
  line : Z;
  column : Z;
  fix_type : string;
  old_text : string;
  new_text : string;
  description : string;
  confidence : Q;
  context_match : Q;
  similar_patterns : list string;
  reasoning : string
}.

(** An item of [available_fixes] is a dictionary: a key may be absent. *)
Record FixDict : Type := mkFixDict {
  fd_line : option Z;
  fd_column : option Z;
  fd_fix_type : option string;
  fd_old_text : option string;
  fd_new_text : option string;
  fd_description : option string;
  fd_framework : option string;
  fd_test_type : option string;
  fd_patterns : option (list string);
  fd_required_imports : option (list string)
}.

(** An entry of [fix_history], as far as it is read here. *)
Record HistoryEntry : Type := mkHistoryEntry {
  code_hash : string;
  h_fix_type : string;
  h_success : bool
}.

(** The state of the engine read by [suggest_contextual_fixes], and its
    two collaborators: [analyze_context] and the pattern classifier. *)
Record engine : Type := mkEngine {
  analyze_context : string -> string -> CodeContext;
  predict_fix_type : string -> string * Q;
  (** [context_patterns]: per fix type, the [success_rate] if recorded *)
  context_patterns : list (string * option Q);
  fix_history : list HistoryEntry
}.

Definition mem (x : string) (l : list string) : bool := existsb (String.eqb x) l.

(** [len(set(a) & set(b))] *)
Definition overlap (a b : list string) : nat :=
  List.length (nodup string_dec (filter (fun x => mem x b) a)).

Definition ratio (n d : nat) : Q := (inject_Z (Z.of_nat n) / inject_Z (Z.of_nat d))%Q.

Definition _calculate_context_match (fx : FixDict) (context : CodeContext) : Q :=
  let match_score := (0 # 1)%Q in
  let match_score :=
    match fd_framework fx with
    | Some f => if String.eqb f (framework context)
                then Binary64.add match_score (3 # 10) else match_score
    | None => match_score
    end in
  let match_score :=
    match fd_test_type fx with
    | Some t => if String.eqb t (test_type context)
                then Binary64.add match_score (2 # 10) else match_score
    | None => match_score
    end in
  let fix_patterns := get (fd_patterns fx) [] in
  let pattern_overlap := overlap fix_patterns (patterns context) in
  let match_score :=
    match fix_patterns with
    | _ :: _ =>
        Binary64.add match_score
          (Binary64.mul (3 # 10) (ratio pattern_overlap (List.length fix_patterns)))
    | [] => match_score
    end in
  let fix_imports := get (fd_required_imports fx) [] in
  let import_overlap := overlap fix_imports (imports context) in
  let match_score :=
    match fix_imports with
    | _ :: _ =>
        Binary64.add match_score
          (Binary64.mul (2 # 10) (ratio import_overlap (List.length fix_imports)))
    | [] => match_score
    end in
  py_min match_score (1 # 1)%Q.

Fixpoint lookup (key : string) (d : list (string * option Q)) : option (option Q) :=
  match d with
  | [] => None
  | (k, v) :: rest => if String.eqb k key then Some v else lookup key rest
  end.

(** The answer of the classifier and the literal [0.1] are compared with
    floats: they are read as the floats that they stand for. *)
Definition _get_ml_confidence
    (e : engine) (fx : FixDict) (context : CodeContext) (code : string) : Q :=
  let '(predicted_fix, base_confidence) := predict_fix_type e code in
  let base_confidence := Binary64.round64 base_confidence in
  let confidence :=
    match fd_fix_type fx with
    | Some t => if String.eqb predicted_fix t then base_confidence
                else Binary64.mul base_confidence (7 # 10)
    | None => Binary64.mul base_confidence (7 # 10)
    end in
  let fix_type := get (fd_fix_type fx) "unknown" in
  let confidence :=
    match lookup fix_type (context_patterns e) with
    | Some pattern_info =>
        let context_boost := Binary64.sub (get pattern_info (5 # 10)%Q) (5 # 10) in
        Binary64.add confidence (Binary64.mul context_boost (3 # 10))
    | None => confidence
    end in
  py_max (Binary64.round64 (1 # 10)) (py_min confidence (1 # 1)%Q).

(** [l[-n:]] *)
Definition last_n {A : Type} (n : nat) (l : list A) : list A :=
  skipn (List.length l - n) l.

Definition _find_similar_patterns (e : engine) (code fix_type : string) : list string :=
  firstn 5
    (map code_hash
       (filter (fun entry => String.eqb (h_fix_type entry) fix_type && h_success entry)
               (last_n 50 (fix_history e)))).

Definition _generate_reasoning
    (fx : FixDict) (context : CodeContext) (similar_patterns : list string) : string :=
  let r1 :=
    if Py.is_empty (framework context) then []
    else ["Detected " ++ framework context ++ " framework"] in
  let r2 :=
    if Py.is_empty (test_type context) then []
    else ["Identified as " ++ test_type context ++ " test"] in
  let r3 :=
    match similar_patterns with
    | [] => []
    | _ :: _ => ["Found " ++ Py.str_of_nat (List.length similar_patterns)
                 ++ " similar successful patterns"]
    end in
  let r4 :=
    if Qltb (5 # 1) (complexity_score context)
    then ["High complexity code may benefit from this fix"] else [] in
  let reasons := (r1 ++ r2 ++ r3 ++ r4)%list in
  match reasons with
  | [] => "General fix recommendation"
  | _ :: _ => String.concat "; " reasons
  end.

(** The body of the [for fix in available_fixes] loop. *)
Definition contextual_fix
    (e : engine) (context : CodeContext) (code : string) (fx : FixDict)
    : outcome ContextualFix :=
  let context_match := _calculate_context_match fx context in
  let ml_confidence := _get_ml_confidence e fx context code in
  do fix_type <- item "fix_type" (fd_fix_type fx);
  let similar_patterns := _find_similar_patterns e code fix_type in
  let reasoning := _generate_reasoning fx context similar_patterns in
  Return {| line := get (fd_line fx) 1%Z;
            column := get (fd_column fx) 1%Z;
            fix_type := get (fd_fix_type fx) "unknown";
            old_text := get (fd_old_text fx) EmptyString;
            new_text := get (fd_new_text fx) EmptyString;
            description := get (fd_description fx) EmptyString;
            confidence := ml_confidence;
            context_match := context_match;
            similar_patterns := similar_patterns;
            reasoning := reasoning |}.

(** The combined score in exact arithmetic. *)
Definition score (x : ContextualFix) : Q :=
  (confidence x * (7 # 10) + context_match x * (3 # 10))%Q.

(** The sort key of the ranking: the float that
    [x.confidence * 0.7 + x.context_match * 0.3] evaluates to. *)
Definition ranking_key (x : ContextualFix) : Q :=
  Binary64.add (Binary64.mul (confidence x) (7 # 10))
               (Binary64.mul (context_match x) (3 # 10)).

Definition ranking_lt (x y : ContextualFix) : bool :=
  Qltb (ranking_key x) (ranking_key y).

Definition suggest_contextual_fixes
    (e : engine) (code file_path : string) (available_fixes : list FixDict)
    : outcome (list ContextualFix) :=
  let context := analyze_context e code file_path in
  do contextual_fixes <- map_outcome (contextual_fix e context code) available_fixes;
  Return (sort_desc ranking_lt contextual_fixes).

End MLContextEngine.

(* ================================================================== *)
(** ** next_gen_auto_fixer.py: the orchestrator *)
(* ================================================================== *)

(** [l.append(x)] *)
Definition list_append {A : Type} (l : list A) (x : A) : list A := (l ++ [x])%list.

(** [class FixResult] of enhanced_auto_fixer.py *)
Record EnhancedFixResult : Type := mkEnhancedFixResult {
  enh_success : bool;
  changes_made : list string;
  issues_found : list string;
  file_content : string;
  enh_confidence : Q
}.

(** [class NextGenFixResult] *)
Record NextGenFixResult : Type := mkNextGenFixResult {
  ng_success : bool;
  ng_file_path : string;
  original_content : string;
  ng_fixed_content : string;
  total_fixes : nat;
  confidence_score : Q;
  processing_time : Q;
  fixes_by_engine : list (string * list string);
  ast_analysis : option ASTAnalysis;
  manual_review_needed : bool;
  ng_errors_remaining : list string
}.

(** [class BatchProcessingResult] *)
Record BatchProcessingResult : Type := mkBatchProcessingResult {
  total_files : nat;
  files_processed : nat;
  files_fixed : nat;
  success_rate : Q;
  average_confidence : Q;
  average_processing_time : Q;
  total_fixes_applied : nat;
  manual_review_files : list string;
  detailed_results : list NextGenFixResult
}.

(** The collaborators of [NextGenAutoFixer]: the file system, the parser
    processes (their behaviour depends on the text handed to them), the
    pattern fixer of enhanced_auto_fixer.py and the clock.  The counters
    [total_files_processed] and [total_fixes_applied] of the object are
    not part of the results and are left out. *)
Record fixer_env : Type := mkFixerEnv {
  (** [open(file_path).read()] *)
  read_file : string -> outcome string;
  (** the parser environment met when the text is analysed *)
  parser_for : string -> parser_env;
  (** writing the text to the temporary file and [fix_file] on it *)
  enhanced_fix_file : string -> string -> outcome EnhancedFixResult;
  (** writing the result back, when not a dry run *)
  write_file : string -> string -> outcome unit;
  (** [time.time() - start_time] at the end of [process_file] *)
  file_time : string -> Q;
  (** [time.time() - start_time] at the end of [process_directory] *)
  batch_time : Q
}.

Definition max_iterations : nat := 3.

(** [d[key] = value] on a dictionary kept in insertion order. *)
Fixpoint dict_set (key : string) (value : list string)
    (d : list (string * list string)) : list (string * list string) :=
  match d with
  | [] => [(key, value)]
  | (k, v) :: rest =>
      if String.eqb k key then (k, value) :: rest
      else (k, v) :: dict_set key value rest
  end.

Fixpoint dict_get (key : string) (d : list (string * list string))
    : option (list string) :=
  match d with
  | [] => None
  | (k, v) :: rest => if String.eqb k key then Some v else dict_get key rest
  end.

(** The local variables of [process_file] that the phases update. *)
Record locals : Type := mkLocals {
  current_content : string;
  all_fixes : list string;
  l_fixes_by_engine : list (string * list string);
  l_ast_analysis : option ASTAnalysis;
  l_manual_review_needed : bool;
  l_errors_remaining : list string
}.

(** Analyse, generate and apply once: the common part of phase 1 and of a
    refinement round.  [None] when no fix was generated; otherwise the
    result of [apply_fixes]. *)
Definition ast_pass (env : fixer_env) (file_path content : string)
    : outcome (ASTAnalysis * option FixResult) :=
  do analysis <- analyze_with_content (parser_for env content) file_path content;
  do fixes <- generate_fixes analysis content;
  match fixes with
  | [] => Return (analysis, None)
  | _ :: _ =>
      do result <- apply_fixes content fixes;
      Return (analysis, Some result)
  end.

(** Phase 1: AST analysis. [ast_analysis] is assigned as soon as the
    analysis returns, also when what follows raises. *)
Definition phase1 (env : fixer_env) (file_path : string) (st : locals) : locals :=
  match analyze_with_content (parser_for env (current_content st)) file_path
          (current_content st) with
  | Raise e =>
      mkLocals (current_content st) (all_fixes st) (l_fixes_by_engine st)
        (l_ast_analysis st) (l_manual_review_needed st)
        (list_append (l_errors_remaining st) ("AST analysis error: " ++ str_exn e))
  | Return analysis =>
      match (do ast_fixes <- generate_fixes analysis (current_content st);
             match ast_fixes with
             | [] => Return None
             | _ :: _ =>
                 do r <- apply_fixes (current_content st) ast_fixes;
                 Return (Some r)
             end) with
      | Raise e =>
          mkLocals (current_content st) (all_fixes st) (l_fixes_by_engine st)
            (Some analysis) (l_manual_review_needed st)
            (list_append (l_errors_remaining st) ("AST analysis error: " ++ str_exn e))
      | Return None =>
          mkLocals (current_content st) (all_fixes st) (l_fixes_by_engine st)
            (Some analysis) (l_manual_review_needed st) (l_errors_remaining st)
      | Return (Some ast_fix_result) =>
          if success ast_fix_result then
            let ast_fix_descriptions := map description (fixes_applied ast_fix_result) in
            mkLocals (fixed_content ast_fix_result)
              (all_fixes st ++ ast_fix_descriptions)%list
              (dict_set "ast" ast_fix_descriptions (l_fixes_by_engine st))
              (Some analysis) (l_manual_review_needed st) (l_errors_remaining st)
          else
            mkLocals (current_content st) (all_fixes st) (l_fixes_by_engine st)
              (Some analysis) (l_manual_review_needed st) (l_errors_remaining st)
      end
  end.

(** Phase 2: the pattern fixer, on a temporary copy. *)
Definition phase2 (env : fixer_env) (file_path : string) (st : locals) : locals :=
  let temp_file_path := file_path ++ ".temp" in
  match enhanced_fix_file env temp_file_path (current_content st) with
  | Raise e =>
      mkLocals (current_content st) (all_fixes st) (l_fixes_by_engine st)
        (l_ast_analysis st) (l_manual_review_needed st)
        (list_append (l_errors_remaining st) ("Enhanced fixes error: " ++ str_exn e))
  | Return enhanced_result =>
      match changes_made enhanced_result with
      | _ :: _ =>
          if enh_success enhanced_result then
            mkLocals (file_content enhanced_result)
              (all_fixes st ++ changes_made enhanced_result)%list
              (dict_set "enhanced" (changes_made enhanced_result) (l_fixes_by_engine st))
              (l_ast_analysis st)
              (match issues_found enhanced_result with
               | _ :: _ => true
               | [] => l_manual_review_needed st
               end)
              (l_errors_remaining st ++ issues_found enhanced_result)%list
          else st
      | [] => st
      end
  end.

(** Phase 3: the rounds [iteration], [iteration + 1], ... of the refinement
    loop, [rounds] of them at most. *)
Fixpoint refine (env : fixer_env) (file_path : string) (rounds iteration : nat)
    (st : locals) : locals :=
  match rounds with
  | O => st
  | S rounds' =>
      match ast_pass env file_path (current_content st) with
      | Raise _ => st
      | Return (_, None) => st
      | Return (_, Some refined_result) =>
          let st' :=
            if success refined_result then
              let refined_descriptions := map description (fixes_applied refined_result) in
              let key := "ast_iteration_" ++ Py.str_of_nat iteration in
              mkLocals (fixed_content refined_result)
                (all_fixes st ++ refined_descriptions)%list
                (dict_set key
                   (get (dict_get key (l_fixes_by_engine st)) [] ++ refined_descriptions)%list
                   (l_fixes_by_engine st))
                (l_ast_analysis st) (l_manual_review_needed st) (l_errors_remaining st)
            else st in
          refine env file_path rounds' (S iteration) st'
      end
  end.

Definition phase3 (env : fixer_env) (file_path : string) (st : locals) : locals :=
  if (0 <? List.length (all_fixes st))%nat && (1 <? max_iterations)%nat
  then refine env file_path (max_iterations - 1) 1 st
  else st.

(** The result of the [except Exception] clause around the whole body. *)
Definition critical_error (env : fixer_env) (file_path : string) (e : exn)
    : NextGenFixResult :=
  {| ng_success := false;
     ng_file_path := file_path;
     original_content := EmptyString;
     ng_fixed_content := EmptyString;
     total_fixes := 0;
     confidence_score := (0 # 1)%Q;
     processing_time := file_time env file_path;
     fixes_by_engine := [];
     ast_analysis := None;
     manual_review_needed := false;
     ng_errors_remaining := ["Critical error: " ++ str_exn e] |}.

Definition process_file (env : fixer_env) (file_path : string) (dry_run : bool)
    : NextGenFixResult :=
  match read_file env file_path with
  | Raise e => critical_error env file_path e
  | Return original =>
      let st := mkLocals original [] [] None false [] in
      let st := phase1 env file_path st in
      let st := phase2 env file_path st in
      let st := phase3 env file_path st in
      let confidence_score :=
        _calculate_confidence original (current_content st) (all_fixes st)
          (l_ast_analysis st) (l_manual_review_needed st) (l_errors_remaining st) in
      let written :=
        if negb dry_run && negb (String.eqb (current_content st) original)
        then write_file env file_path (current_content st)
        else Return tt in
      match written with
      | Raise e => critical_error env file_path e
      | Return _ =>
          {| ng_success := (0 <? List.length (all_fixes st))%nat;
             ng_file_path := file_path;
             original_content := original;
             ng_fixed_content := current_content st;
             total_fixes := List.length (all_fixes st);
             confidence_score := confidence_score;
             processing_time := file_time env file_path;
             fixes_by_engine := l_fixes_by_engine st;
             ast_analysis := l_ast_analysis st;
             manual_review_needed := l_manual_review_needed st;
             ng_errors_remaining := l_errors_remaining st |}
      end
  end.

(** The accumulators of the loop of [process_directory]. *)
Record tally : Type := mkTally {
  t_results : list NextGenFixResult;
  t_manual_review_files : list string;
  t_total_fixes : nat;
  t_total_confidence : Q;
  t_files_fixed : nat
}.

Definition tally_step (env : fixer_env) (dry_run : bool) (t : tally) (file_path : string)
    : tally :=
  let result := process_file env file_path dry_run in
  if ng_success result then
    mkTally (t_results t ++ [result])%list
      (if manual_review_needed result
       then (t_manual_review_files t ++ [file_path])%list
       else t_manual_review_files t)
      (t_total_fixes t + total_fixes result)
      (t_total_confidence t + confidence_score result)%Q
      (t_files_fixed t + 1)
  else
    mkTally (t_results t ++ [result])%list (t_manual_review_files t)
      (t_total_fixes t) (t_total_confidence t) (t_files_fixed t).

Definition per_file (x : Q) (test_files : list string) : Q :=
  match test_files with
  | [] => (0 # 1)%Q
  | _ :: _ => (x / inject_Z (Py.len test_files))%Q
  end.

(** [process_directory], on the list of test files that the four [glob]
    patterns found. *)
Definition process_directory (env : fixer_env) (test_files : list string) (dry_run : bool)
    : BatchProcessingResult :=
  let t := fold_left (tally_step env dry_run) test_files
             (mkTally [] [] 0 (0 # 1)%Q 0) in
  {| total_files := List.length test_files;
     files_processed := List.length (t_results t);
     files_fixed := t_files_fixed t;
     success_rate := per_file (inject_Z (Z.of_nat (t_files_fixed t))) test_files;
     average_confidence := per_file (t_total_confidence t) test_files;
     average_processing_time := per_file (batch_time env) test_files;
     total_fixes_applied := t_total_fixes t;
     manual_review_files := t_manual_review_files t;
     detailed_results := t_results t |}.

(* ================================================================== *)
(** ** Vocabulary of the statements, and sample inputs *)
(* ================================================================== *)

(** The string holds no line break. *)
Definition single_line (s : string) : Prop := Py.count_char Py.nl s = 0.

(* ================================================================== *)
(** ** The patch applier *)
(* ================================================================== *)

(** The test of [apply_fixes] on an edit, for a text of [n] lines. *)
Definition in_range (n : nat) (f : SyntaxFix) : bool :=
  (line f <=? Z.of_nat n)%Z.

(** The edit overwrites position [k] of a list of [n] lines. *)
Definition writes_to (n k : nat) (f : SyntaxFix) : bool :=
  in_range n f &&
  match Py.subscript n (line f - 1) with
  | Some j => (j =? k)%nat
  | None => false
  end.

(* ================================================================== *)
(** ** Properties of the patch applier *)
(* ================================================================== *)

Definition lo_edit : SyntaxFix :=
  mkSyntaxFix 1 1 "foo(" "foo() as any" "cast" (7 # 10)%Q "type_assertion".
Definition hi_edit : SyntaxFix :=
  mkSyntaxFix 1 5 "foo(" "foo()" "close" (9 # 10)%Q "parentheses".
Definition stale_edit : SyntaxFix :=
  mkSyntaxFix 7 1 "bar(" "bar()" "close" (9 # 10)%Q "parentheses".
Definition two_line_edit : SyntaxFix :=
  mkSyntaxFix 1 1 "a" (String "b" (String Py.nl "c")) "split" (9 # 10)%Q "parentheses".

(* ================================================================== *)
(** ** The parenthesis handler *)
(* ================================================================== *)

(** Removing occurrences of [c] "from the end", as a single scan:
    [strip_last c n s] returns [s] without its last [n] occurrences of [c]
    (all of them if there are fewer) and the number still to remove. *)
Fixpoint strip_last (c : ascii) (n : nat) (s : string) : nat * string :=
  match s with
  | EmptyString => (n, EmptyString)
  | String a s' =>
      let (m, r) := strip_last c n s' in
      if Ascii.eqb a c && (0 <? m)%nat then (m - 1, r) else (m, String a r)
  end.

(* ================================================================== *)
(** ** The parser adapter on a failing parser *)
(* ================================================================== *)

(** The external parser call fails: it times out, crashes, exits with a
    non-zero status, or prints something that is not JSON. *)
Inductive parser_call_fails (env : parser_env) (file_path : string) : Prop :=
  | fails_timeout :
      run_node env file_path = TimeoutExpired ->
      parser_call_fails env file_path
  | fails_crash (str_e : string) :
      run_node env file_path = RunException str_e ->
      parser_call_fails env file_path
  | fails_exit (returncode : Z) (stdout stderr : string) :
      run_node env file_path = Completed returncode stdout stderr ->
      returncode <> 0%Z ->
      parser_call_fails env file_path
  | fails_garbled (stdout stderr str_e : string) :
      run_node env file_path = Completed 0 stdout stderr ->
      json_loads env stdout = inr str_e ->
      parser_call_fails env file_path.

Definition is_supported (file_path : string) : bool :=
  existsb (fun ext => Py.endswith ext file_path) supported_extensions.

Definition is_parse_failed (e : SyntaxError) : bool :=
  String.eqb (error_code e) "PARSE_FAILED".

Definition timeout_env : parser_env :=
  {| ensure_typescript_raises := None;
     node_script_path := Some "/tmp/script.js";
     run_node := fun _ => TimeoutExpired;
     json_loads := fun _ => inr "Expecting value";
     elapsed := (30 # 1)%Q;
     path_suffix := fun _ => ".tsx";
     temp_prefix := "/tmp/tmpab12" |}.

(* ================================================================== *)
(** ** Scenario A: the incomplete [setSystemTime] call *)
(* ================================================================== *)

Definition scenario_A : string := "setSystemTime(new Date(2023, 0, 1);".

Definition incomplete_call_diagnostic : SyntaxError :=
  {| err_line := 1; err_column := 1;
     message := "Incomplete setSystemTime call - missing closing parenthesis";
     severity := "error"; error_code := "INCOMPLETE_CALL"; source := "ast" |}.

Definition unchanged (content : string) : FixResult :=
  {| success := true; fixed_content := content; fixes_applied := [];
     errors_remaining := []; fr_confidence := (1 # 1)%Q |}.

(* ================================================================== *)
(** ** The aggregate confidence *)
(* ================================================================== *)

Definition clamp01 (x : Q) : Q := py_max (0 # 1)%Q (py_min (1 # 1)%Q x).

Definition flag (b : bool) (x : Q) : Q := if b then x else (0 # 1)%Q.

Definition validity (ast_analysis : option ASTAnalysis) : bool :=
  match ast_analysis with
  | Some analysis => is_valid analysis
  | None => false
  end.

(** The aggregate of the specification: the penalty for more than ten
    edits comes in addition to the one for more than five. *)
Definition cumulative_confidence
    (n_fixes : nat) (valid manual_review : bool) (n_errors : nat) : Q :=
  clamp01 ((9 # 10) - flag manual_review (2 # 10)
           - (1 # 10) * inject_Z (Z.of_nat n_errors)
           - flag (5 <? n_fixes)%nat (5 # 100)
           - flag (10 <? n_fixes)%nat (1 # 10)
           + flag valid (1 # 10))%Q.

(** The aggregate of the code: one penalty, chosen by the number of edits. *)
Definition size_penalty (n_fixes : nat) : Q :=
  if (10 <? n_fixes)%nat then (1 # 10)%Q
  else if (5 <? n_fixes)%nat then (5 # 100)%Q
  else (0 # 1)%Q.

Definition exclusive_confidence
    (n_fixes : nat) (valid manual_review : bool) (n_errors : nat) : Q :=
  clamp01 ((9 # 10) - flag manual_review (2 # 10)
           - (1 # 10) * inject_Z (Z.of_nat n_errors)
           - size_penalty n_fixes
           + flag valid (1 # 10))%Q.

Definition eleven_fixes : list string :=
  ["f1"; "f2"; "f3"; "f4"; "f5"; "f6"; "f7"; "f8"; "f9"; "f10"; "f11"].

(* ================================================================== *)
(** ** Scenario B: a missing member on a line that holds a cast *)
(* ================================================================== *)

Definition missing_getByText : TypeFixGenerator.TypeDiagnostic :=
  TypeFixGenerator.mkTypeDiagnostic 3 8
    "Property 'getByText' does not exist on type 'Screen'."
    "error" 2339 "error" "a.test.tsx".

Definition cast_line : string := "  screen.getByText(label as any);".

Definition no_other_handler : TypeFixGenerator.other_handlers :=
  TypeFixGenerator.mkOtherHandlers
    (fun _ _ => None) (fun _ _ => None) (fun _ _ => None)
    (fun _ _ => None) (fun _ _ => None).

Definition missing_mockReturnValue : TypeFixGenerator.TypeDiagnostic :=
  TypeFixGenerator.mkTypeDiagnostic 5 4
    "Property 'mockReturnValue' does not exist on type '() => void'."
    "error" 2339 "error" "a.test.tsx".

(* ================================================================== *)
(** ** The ranking of candidate fixes *)
(* ================================================================== *)

Section SortKey.
Context {A : Type}.
Variable key : A -> Q.

(** The comparison of a sort by the rational [key], in reverse. *)
Definition key_lt (x y : A) : bool := Qltb (key x) (key y).

(** [y] may follow [x] in a descending ranking. *)
Definition ranks_before (x y : A) : Prop := (key y <= key x)%Q.

(** The items whose key is the number [k]. *)
Definition with_key (k : Q) (x : A) : bool := Qeq_bool (key x) k.

End SortKey.

Definition has_fix_type (fx : MLContextEngine.FixDict) : Prop :=
  MLContextEngine.fd_fix_type fx <> None.

(* ================================================================== *)
(** ** The success flag and the batch statistics *)
(* ================================================================== *)

(** The accumulators that the statistics are computed from. *)
Definition same_counts (t t' : tally) : Prop :=
  t_manual_review_files t = t_manual_review_files t'
  /\ t_total_fixes t = t_total_fixes t'
  /\ t_total_confidence t = t_total_confidence t'
  /\ t_files_fixed t = t_files_fixed t'.

(** A parser that accepts every text, and a pattern fixer that changes
    nothing: the file [fixed.test.tsx] has an unmatched parenthesis, every
    other file is clean. *)
Definition accepting_parser : parser_env :=
  {| ensure_typescript_raises := None;
     node_script_path := Some "/tmp/script.js";
     run_node := fun _ => Completed 0 "{}" EmptyString;
     json_loads := fun _ =>
       inl (mkParseDict (Some true) None (Some true) (Some []) (Some []) (Some "tsx"));
     elapsed := (1 # 10)%Q;
     path_suffix := fun _ => ".tsx";
     temp_prefix := "/tmp/tmpab12" |}.

Definition demo_env : fixer_env :=
  {| read_file := fun file_path =>
       if String.eqb file_path "fixed.test.tsx"
       then Return "expect(render(x);"
       else Return "const a = 1;";
     parser_for := fun _ => accepting_parser;
     enhanced_fix_file := fun _ content =>
       Return (mkEnhancedFixResult false [] [] content (1 # 1)%Q);
     write_file := fun _ _ => Return tt;
     file_time := fun _ => (2 # 10)%Q;
     batch_time := (4 # 10)%Q |}.

(** Three candidates, the last two with the same score. *)
Definition demo_engine : MLContextEngine.engine :=
  {| MLContextEngine.analyze_context := fun _ _ =>
       MLContextEngine.mkCodeContext ".tsx" "react" ["expect_assertion"] []
         [] [] "component" (1 # 10)%Q;
     MLContextEngine.predict_fix_type := fun _ => ("import_fix", (8 # 10)%Q);
     MLContextEngine.context_patterns := [];
     MLContextEngine.fix_history := [] |}.

Definition candidate (fix_type description : string) : MLContextEngine.FixDict :=
  MLContextEngine.mkFixDict (Some 1%Z) (Some 1%Z) (Some fix_type) (Some EmptyString)
    (Some EmptyString) (Some description) None None None None.

Definition demo_candidates : list MLContextEngine.FixDict :=
  [candidate "assertion_fix" "first"; candidate "import_fix" "second";
   candidate "import_fix" "third"; candidate "mock_fix" "fourth"].

(* ================================================================== *)
(** ** Vocabulary of the further properties *)
(* ================================================================== *)

(** The diagnostic codes that [_generate_fix_for_error] has a handler for. *)
Definition handled_code (c : string) : bool :=
  existsb (String.eqb c)
    ["UNMATCHED_PAREN"; "INCOMPLETE_CALL"; "MALFORMED_TIMEOUT";
     "PARSE_ERROR"; "PARSE_FAILED"].

(** The diagnostic codes that [detect_specific_errors] reports. *)
Definition detected_code (c : string) : bool :=
  existsb (String.eqb c) ["UNMATCHED_PAREN"; "INCOMPLETE_CALL"; "MALFORMED_TIMEOUT"].

(** [x] may come before [y] in the order of [generate_fixes]: its position
    [(line, column)] is not below. *)
Definition position_ge (x y : SyntaxFix) : Prop :=
  (line y < line x)%Z \/ (line y = line x /\ column y <= column x)%Z.

Definition is_unmatched_paren (e : SyntaxError) : bool :=
  String.eqb (error_code e) "UNMATCHED_PAREN".

(** The keys that [analyze_file] subscripts in a reported diagnostic
    ([errorCode] is read with [get]). *)
Definition error_complete (e : error_dict) : Prop :=
  e_line e <> None /\ e_column e <> None /\ e_message e <> None
  /\ e_severity e <> None /\ e_source e <> None.

Definition node_complete (n : node_dict) : Prop :=
  n_type n <> None /\ n_start n <> None /\ n_end n <> None
  /\ n_line n <> None /\ n_column n <> None /\ n_raw n <> None.

(** Every key that [analyze_file] subscripts after a successful parse is
    there. *)
Definition dict_complete (d : parse_dict) : Prop :=
  (exists raw, d_syntaxErrors d = Some raw /\ Forall error_complete raw)
  /\ (exists nodes, d_astNodes d = Some nodes /\ Forall node_complete nodes)
  /\ d_isValid d <> None
  /\ d_fileType d <> None.

(** A parser environment for a Markdown file, whatever the process does. *)
Definition markdown_env (run : string -> run_outcome) : parser_env :=
  {| ensure_typescript_raises := None;
     node_script_path := Some "/tmp/script.js";
     run_node := run;
     json_loads := fun _ => inr "Expecting value";
     elapsed := (1 # 100)%Q;
     path_suffix := fun _ => ".md";
     temp_prefix := "/tmp/tmpcd34" |}.

(** A parser that reports one diagnostic without an [errorCode]. *)
Definition reporting_parser : parser_env :=
  {| ensure_typescript_raises := None;
     node_script_path := Some "/tmp/script.js";
     run_node := fun _ => Completed 0 "{...}" EmptyString;
     json_loads := fun _ =>
       inl (mkParseDict (Some true) None (Some false)
              (Some [mkErrorDict (Some 3%Z) (Some 7%Z) (Some "')' expected.")
                       (Some "error") None (Some "typescript")])
              (Some []) (Some "tsx"));
     elapsed := (2 # 10)%Q;
     path_suffix := fun _ => ".tsx";
     temp_prefix := "/tmp/tmpab12" |}.

(* ================================================================== *)
(** ** type_fix_generator.py: the other handlers and the applier *)
(* ================================================================== *)

Module Re.

(** [\w], on the ASCII range. *)
Definition is_word (c : ascii) : bool :=
  let n := nat_of_ascii c in
  ((48 <=? n)%nat && (n <=? 57)%nat) || ((65 <=? n)%nat && (n <=? 90)%nat)
  || ((97 <=? n)%nat && (n <=? 122)%nat) || (n =? 95)%nat.

(** The longest prefix whose characters satisfy [p], and what follows:
    what a greedy character-class repetition takes when the next thing
    the pattern asks for is a character outside the class. *)
Fixpoint span (p : ascii -> bool) (s : string) : string * string :=
  match s with
  | EmptyString => (EmptyString, EmptyString)
  | String a s' =>
      if p a then let (g, r) := span p s' in (String a g, r)
      else (EmptyString, s)
  end.

Definition other_than (stop : ascii) (c : ascii) : bool := negb (Ascii.eqb c stop).

(** A match of [pre([^stop]+)suf] at the start of [s], where [suf] begins
    with the character [stop]: the group. *)
Definition match_delimited_here (pre : string) (stop : ascii) (suf s : string)
    : option string :=
  if Py.startswith pre s then
    let (g, r) := span (other_than stop) (Py.drop (String.length pre) s) in
    if negb (Py.is_empty g) && Py.startswith suf r then Some g else None
  else None.

(** [re.search] for such a pattern: the group of the leftmost match. *)
Fixpoint search_delimited (pre : string) (stop : ascii) (suf s : string)
    : option string :=
  match match_delimited_here pre stop suf s with
  | Some g => Some g
  | None =>
      match s with
      | EmptyString => None
      | String _ rest => search_delimited pre stop suf rest
      end
  end.

(** A match of [mockR\w+Value\(([^)]+)\)] at the start of [s]: the run of
    word characters after [mockR] has to end with [Value], after at least
    one other character, and to be followed by the parenthesis. *)
Definition match_mock_value_here (s : string) : option string :=
  if Py.startswith "mockR" s then
    let (w, r) := span is_word (Py.drop 5 s) in
    if (6 <=? String.length w)%nat && Py.endswith "Value" w && Py.startswith "(" r
    then
      let (g, r') := span (other_than ")") (Py.drop 1 r) in
      if negb (Py.is_empty g) && Py.startswith ")" r' then Some g else None
    else None
  else None.

Fixpoint search_mock_value (s : string) : option string :=
  match match_mock_value_here s with
  | Some g => Some g
  | None =>
      match s with
      | EmptyString => None
      | String _ rest => search_mock_value rest
      end
  end.

(** [re.search(r'(\w+)\.', s)]: the first run of word characters that a
    dot follows. *)
Fixpoint search_word_dot (s : string) : option string :=
  match s with
  | EmptyString => None
  | String _ rest =>
      let (w, r) := span is_word s in
      if negb (Py.is_empty w) && Py.startswith "." r then Some w
      else search_word_dot rest
  end.

(** A match of [const\s+(\w+)\s*=] at the start of [s]. *)
Definition match_const_here (s : string) : option string :=
  if Py.startswith "const" s then
    let (sp, r) := span Py.isspace (Py.drop 5 s) in
    if Py.is_empty sp then None
    else
      let (w, r2) := span is_word r in
      if Py.is_empty w then None
      else
        let (_, r3) := span Py.isspace r2 in
        if Py.startswith "=" r3 then Some w else None
  else None.

Fixpoint search_const (s : string) : option string :=
  match match_const_here s with
  | Some g => Some g
  | None =>
      match s with
      | EmptyString => None
      | String _ rest => search_const rest
      end
  end.

End Re.

Module TypeFixHandlers.

Import TypeFixGenerator.

(** [s.lower()], on the ASCII range. *)
Definition lower_char (c : ascii) : ascii :=
  let n := nat_of_ascii c in
  if (65 <=? n)%nat && (n <=? 90)%nat then ascii_of_nat (n + 32) else c.

Fixpoint lower (s : string) : string :=
  match s with
  | EmptyString => EmptyString
  | String a s' => String (lower_char a) (lower s')
  end.

(** [s.find(sub) + 1] *)
Definition find_plus_one (sub s : string) : Z :=
  match Py.find sub s with
  | Some i => Z.of_nat i + 1
  | None => 0
  end.

Definition _fix_argument_type_mismatch
    (diagnostic : TypeDiagnostic) (line0 : string) : option TypeFix :=
  if Py.contains "expect(" line0 then
    match Re.search_delimited "expect(" ")" ")" line0 with
    | Some arg =>
        if negb (Py.contains "as any" arg) then
          let new_line := Py.replace arg (arg ++ " as any") line0 in
          Some {| line := diag_line diagnostic;
                  column := diag_column diagnostic;
                  fix_type := "type_assertion";
                  old_text := Py.strip line0;
                  new_text := Py.strip new_line;
                  description := "Add type assertion for expect argument";
                  confidence := (7 # 10)%Q;
                  type_info := Some "any" |}
        else None
    | None => None
    end
  else None.

Definition _fix_type_assignment_error
    (diagnostic : TypeDiagnostic) (line0 : string) : option TypeFix :=
  if Py.contains "mockReturnValue" line0 || Py.contains "mockResolvedValue" line0 then
    if negb (Py.contains "as any" line0) then
      match Re.search_mock_value line0 with
      | Some value =>
          let new_line := Py.replace value (value ++ " as any") line0 in
          Some {| line := diag_line diagnostic;
                  column := diag_column diagnostic;
                  fix_type := "type_assertion";
                  old_text := Py.strip line0;
                  new_text := Py.strip new_line;
                  description := "Add type assertion for mock return value";
                  confidence := (8 # 10)%Q;
                  type_info := Some "any" |}
      | None => None
      end
    else None
  else None.

(** The table [common_globals], in the order it is written. *)
Definition common_globals : list (string * string) :=
  [("jest", "import jest from 'jest';");
   ("expect", "import { expect } from '@testing-library/jest-dom';");
   ("describe", "// describe is a global in Jest");
   ("it", "// it is a global in Jest");
   ("beforeEach", "// beforeEach is a global in Jest");
   ("afterEach", "// afterEach is a global in Jest")].

Fixpoint lookup_global (name : string) (table : list (string * string)) : option string :=
  match table with
  | [] => None
  | (k, v) :: rest => if String.eqb k name then Some v else lookup_global name rest
  end.

Definition _fix_cannot_find_name
    (diagnostic : TypeDiagnostic) (line0 : string) : option TypeFix :=
  match Re.search_delimited "Cannot find name '" quote "'" (diag_message diagnostic) with
  | None => None
  | Some name =>
      match lookup_global name common_globals with
      | Some import_text =>
          Some {| line := diag_line diagnostic;
                  column := diag_column diagnostic;
                  fix_type := "import_fix";
                  old_text := Py.strip line0;
                  new_text := Py.strip line0;
                  description := "Add import for '" ++ name ++ "'";
                  confidence := (9 # 10)%Q;
                  type_info := Some import_text |}
      | None => None
      end
  end.

Definition _fix_unknown_type
    (diagnostic : TypeDiagnostic) (line0 : string) : option TypeFix :=
  if negb (Py.contains "as any" line0) then
    match Re.search_word_dot line0 with
    | Some obj_name =>
        let new_line := Py.replace obj_name ("(" ++ obj_name ++ " as any)") line0 in
        Some {| line := diag_line diagnostic;
                column := diag_column diagnostic;
                fix_type := "type_assertion";
                old_text := Py.strip line0;
                new_text := Py.strip new_line;
                description := "Add type assertion for unknown object '"
                               ++ obj_name ++ "'";
                confidence := (7 # 10)%Q;
                type_info := Some "any" |}
    | None => None
    end
  else None.

Definition _fix_implicit_any_parameter
    (diagnostic : TypeDiagnostic) (line0 : string) : option TypeFix :=
  match Re.search_delimited "Parameter '" quote "' implicitly has an 'any' type"
          (diag_message diagnostic) with
  | None => None
  | Some param_name =>
      if negb (Py.contains (param_name ++ ":") line0) then
        let new_line := Py.replace param_name (param_name ++ ": any") line0 in
        Some {| line := diag_line diagnostic;
                column := diag_column diagnostic;
                fix_type := "type_annotation";
                old_text := Py.strip line0;
                new_text := Py.strip new_line;
                description := "Add type annotation for parameter '"
                               ++ param_name ++ "'";
                confidence := (8 # 10)%Q;
                type_info := Some "any" |}
      else None
  end.

(** The five handlers of the source, for the dispatch. *)
Definition source_handlers : other_handlers :=
  {| TypeFixGenerator._fix_argument_type_mismatch := _fix_argument_type_mismatch;
     TypeFixGenerator._fix_type_assignment_error := _fix_type_assignment_error;
     TypeFixGenerator._fix_cannot_find_name := _fix_cannot_find_name;
     TypeFixGenerator._fix_unknown_type := _fix_unknown_type;
     TypeFixGenerator._fix_implicit_any_parameter := _fix_implicit_any_parameter |}.

(** The loop [for i, line in enumerate(lines)] of the three passes over
    the text, from the line number [line_num]. *)
Fixpoint per_line (body : Z -> string -> list TypeFix) (line_num : Z)
    (lines : list string) : list TypeFix :=
  match lines with
  | [] => []
  | line0 :: rest => (body line_num line0 ++ per_line body (line_num + 1) rest)%list
  end.

Definition improve_line (line_num : Z) (line0 : string) : list TypeFix :=
  if Py.contains "as any" line0 then
    let improved_as :=
      if Py.contains "mock" (lower line0) then Some "as jest.Mock"
      else if Py.contains "render(" line0 || Py.contains "component" (lower line0)
      then Some "as React.ComponentType"
      else if Py.contains "event" (lower line0) || Py.contains "handler" (lower line0)
      then Some "as React.SyntheticEvent"
      else None in
    match improved_as with
    | Some better =>
        let new_line := Py.replace "as any" better line0 in
        [ {| line := line_num;
             column := find_plus_one "as any" line0;
             fix_type := "type_assertion_improvement";
             old_text := Py.strip line0;
             new_text := Py.strip new_line;
             description := "Improve type assertion from 'any' to more specific type";
             confidence := (8 # 10)%Q;
             type_info := None |} ]
    | None => []
    end
  else [].

Definition _improve_type_assertions (content : string) : list TypeFix :=
  per_line improve_line 1 (Py.split_lines content).

Definition annotate_line (line_num : Z) (line0 : string) : list TypeFix :=
  if Py.contains "const mock" line0
     && negb (Py.contains ":" (hd EmptyString (Py.split "=" line0)))
  then
    match Re.search_const line0 with
    | Some var_name =>
        let suggested_type :=
          if Py.contains "user" (lower var_name) then "User"
          else if Py.contains "data" (lower var_name) then "any[]"
          else if Py.contains "response" (lower var_name) then "ApiResponse"
          else "any" in
        let new_line :=
          Py.replace ("const " ++ var_name)
                     ("const " ++ var_name ++ ": " ++ suggested_type) line0 in
        [ {| line := line_num;
             column := find_plus_one var_name line0;
             fix_type := "type_annotation";
             old_text := Py.strip line0;
             new_text := Py.strip new_line;
             description := "Add type annotation for variable '" ++ var_name ++ "'";
             confidence := (7 # 10)%Q;
             type_info := Some suggested_type |} ]
    | None => []
    end
  else [].

Definition _add_missing_type_annotations (content : string) : list TypeFix :=
  per_line annotate_line 1 (Py.split_lines content).

Definition react_import : TypeFix :=
  {| line := 1; column := 1; fix_type := "import_addition";
     old_text := EmptyString;
     new_text := "import React from 'react';";
     description := "Add React import for type annotations";
     confidence := (9 # 10)%Q;
     type_info := Some "react" |}.

Definition jest_import : TypeFix :=
  {| line := 1; column := 1; fix_type := "import_addition";
     old_text := EmptyString;
     new_text := "import type { Jest } from '@jest/types';";
     description := "Add Jest type import";
     confidence := (9 # 10)%Q;
     type_info := Some "jest" |}.

Definition _optimize_type_imports (content : string) : list TypeFix :=
  let lines := Py.split_lines content in
  let has_react_import := existsb (Py.contains "from 'react'") lines in
  let react :=
    if negb has_react_import && existsb (Py.contains "React.") lines
    then [react_import] else [] in
  let jest :=
    if Py.contains "jest.Mock" content && negb (existsb (Py.contains "jest") lines)
    then [jest_import] else [] in
  (react ++ jest)%list.

Definition mock_data_line (line_num : Z) (line0 : string) : list TypeFix :=
  if Py.contains "mockReturnValue({" line0 && negb (Py.contains "as any" line0) then
    if Py.contains "})" line0 then
      let new_line := Py.replace "})" "} as any)" line0 in
      [ {| line := line_num;
           column := find_plus_one "mockReturnValue" line0;
           fix_type := "type_assertion";
           old_text := Py.strip line0;
           new_text := Py.strip new_line;
           description := "Add type assertion for mock return value";
           confidence := (8 # 10)%Q;
           type_info := Some "any" |} ]
    else []
  else [].

Definition _fix_mock_data_types (content : string) : list TypeFix :=
  per_line mock_data_line 1 (Py.split_lines content).

(** The sort key [(x.line, x.column)] of [generate_type_fixes], for an
    ascending sort. *)
Definition position_gt (x y : TypeFix) : bool :=
  (line y <? line x)%Z || ((line y =? line x)%Z && (column y <? column x)%Z).

(** [generate_type_fixes], on the diagnostics that the type analysis of
    the file reported. *)
Definition generate_type_fixes
    (diagnostics : list TypeDiagnostic) (content : string) : outcome (list TypeFix) :=
  do diagnostic_fixes <- _fix_type_diagnostics source_handlers diagnostics content;
  let fixes :=
    (diagnostic_fixes ++ _improve_type_assertions content
     ++ _add_missing_type_annotations content
     ++ _optimize_type_imports content
     ++ _fix_mock_data_types content)%list in
  Return (sort_desc position_gt fixes).

(** [class TypeFixResult], without [remaining_diagnostics], which is
    always empty. *)
Record TypeFixResult : Type := mkTypeFixResult {
  tr_success : bool;
  tr_fixes_applied : list TypeFix;
  tr_fixed_content : string;
  tr_confidence : Q
}.

Definition is_import_addition (f : TypeFix) : bool :=
  String.eqb (fix_type f) "import_addition".

(** The first loop of [apply_type_fixes]: [lines.insert(0, ...)]. *)
Fixpoint insert_imports (import_fixes : list TypeFix) (lines : list string)
    (applied_fixes : list TypeFix) : list string * list TypeFix :=
  match import_fixes with
  | [] => (lines, applied_fixes)
  | fx :: rest =>
      if negb (Py.is_empty (new_text fx))
      then insert_imports rest (new_text fx :: lines) (applied_fixes ++ [fx])%list
      else insert_imports rest lines applied_fixes
  end.

(** The second loop of [apply_type_fixes]. *)
Fixpoint replace_loop (other_fixes : list TypeFix) (lines : list string)
    (applied_fixes : list TypeFix) : outcome (list string * list TypeFix) :=
  match other_fixes with
  | [] => Return (lines, applied_fixes)
  | fx :: rest =>
      if (line fx <=? Py.len lines)%Z then
        do lines' <- setitem lines (line fx - 1) (new_text fx);
        replace_loop rest lines' (applied_fixes ++ [fx])%list
      else replace_loop rest lines applied_fixes
  end.

Definition line_lt (x y : TypeFix) : bool := (line x <? line y)%Z.

Definition sum_type_confidence (fixes : list TypeFix) : Q :=
  fold_left (fun acc fx => Binary64.add acc (confidence fx)) fixes (0 # 1)%Q.

Definition apply_type_fixes (content : string) (fixes : list TypeFix)
    : outcome TypeFixResult :=
  match fixes with
  | [] =>
      Return {| tr_success := true; tr_fixes_applied := [];
                tr_fixed_content := content; tr_confidence := (1 # 1)%Q |}
  | _ :: _ =>
      let lines := Py.split_lines content in
      let import_fixes := filter is_import_addition fixes in
      let other_fixes := filter (fun f => negb (is_import_addition f)) fixes in
      let '(lines, applied_fixes) := insert_imports import_fixes lines [] in
      let other_fixes := sort_desc line_lt other_fixes in
      do st <- replace_loop other_fixes lines applied_fixes;
      let '(lines, applied_fixes) := st in
      let confidence :=
        match applied_fixes with
        | _ :: _ => Binary64.div (sum_type_confidence applied_fixes)
                                 (inject_Z (Py.len applied_fixes))
        | [] => (1 # 1)%Q
        end in
      Return {| tr_success := (0 <? List.length applied_fixes)%nat;
                tr_fixes_applied := applied_fixes;
                tr_fixed_content := Py.join_lines lines;
                tr_confidence := confidence |}
  end.

Definition fix_file_types (diagnostics : list TypeDiagnostic) (content : string)
    : outcome TypeFixResult :=
  do fixes <- generate_type_fixes diagnostics content;
  apply_type_fixes content fixes.

End TypeFixHandlers.

(** The diagnostic codes that [_create_fix_for_diagnostic] dispatches on. *)
Definition diagnostic_codes : list Z := [2339; 2345; 2322; 2304; 2571; 7006]%Z.

(** A line where the argument of [expect] holds no cast but the matcher's
    argument does, and an argument-mismatch diagnostic on it. *)
Definition expect_line : string := "  expect(value).toEqual(other as any);".
Definition argument_mismatch : TypeFixGenerator.TypeDiagnostic :=
  TypeFixGenerator.mkTypeDiagnostic 4 3
    "Argument of type 'X' is not assignable to parameter of type 'Y'"
    "error" 2345 "type_mismatch" "a.test.tsx".


(** The test of the second loop of [apply_type_fixes] on an edit, for a
    text of [n] lines, and the position that the edit overwrites. *)
Definition type_in_range (n : nat) (f : TypeFixGenerator.TypeFix) : bool :=
  (TypeFixGenerator.line f <=? Z.of_nat n)%Z.

Definition type_writes_to (n k : nat) (f : TypeFixGenerator.TypeFix) : bool :=
  type_in_range n f &&
  match Py.subscript n (TypeFixGenerator.line f - 1) with
  | Some j => (j =? k)%nat
  | None => false
  end.

(** The edits that the first loop of [apply_type_fixes] applies. *)
Definition adds_import (f : TypeFixGenerator.TypeFix) : bool :=
  TypeFixHandlers.is_import_addition f
  && negb (Py.is_empty (TypeFixGenerator.new_text f)).

(** A text without the React import whose second line holds a cast, and
    the edits that the passes over the text compute for it. *)
Definition react_text : string :=
  "const a = 1;" ++ String Py.nl "React.render(x as any);".

Definition mock_text : string :=
  "const fn = jest.fn() as any; // mock" ++ String Py.nl
  "fn.mockReturnValue({ id: 1 });".

(** The predicate of [_find_similar_patterns] on a history entry. *)
Definition successful_entry (fix_type : string)
    (entry : MLContextEngine.HistoryEntry) : bool :=
  String.eqb (MLContextEngine.h_fix_type entry) fix_type
  && MLContextEngine.h_success entry.

(** An engine whose classifier answers out of the range of a confidence,
    and a candidate without the key [fix_type]. *)
Definition overconfident_engine : MLContextEngine.engine :=
  {| MLContextEngine.analyze_context := MLContextEngine.analyze_context demo_engine;
     MLContextEngine.predict_fix_type := fun _ => ("import_fix", (5 # 1)%Q);
     MLContextEngine.context_patterns := [("import_fix", Some (1 # 1)%Q)];
     MLContextEngine.fix_history := [] |}.

Definition untyped_candidate : MLContextEngine.FixDict :=
  MLContextEngine.mkFixDict (Some 1%Z) (Some 1%Z) None None None None None None None None.

(* ================================================================== *)
(** ** ml_context_engine.py: the pattern classifier *)
(* ================================================================== *)

Module PatternClassifier.

(** An entry of [self.patterns]; [fix_types] is a [defaultdict(int)], kept
    in insertion order. *)
Record pattern : Type := mkPattern {
  total_attempts : Z;
  successes : Z;
  fix_types : list (string * Z);
  examples : list string
}.

Definition new_pattern : pattern := mkPattern 0 0 [] [].

Fixpoint lookup {A : Type} (key : string) (d : list (string * A)) : option A :=
  match d with
  | [] => None
  | (k, v) :: rest => if String.eqb k key then Some v else lookup key rest
  end.

(** The entry under [key] replaced by its image, where it stands. *)
Fixpoint update {A : Type} (key : string) (f : A -> A) (d : list (string * A))
    : list (string * A) :=
  match d with
  | [] => []
  | (k, v) :: rest =>
      if String.eqb k key then (k, f v) :: rest else (k, v) :: update key f rest
  end.

(** [d[key] += 1] on a [defaultdict(int)] *)
Fixpoint increment (key : string) (d : list (string * Z)) : list (string * Z) :=
  match d with
  | [] => [(key, 1%Z)]
  | (k, v) :: rest =>
      if String.eqb k key then (k, (v + 1)%Z) :: rest
      else (k, v) :: increment key rest
  end.

(** The four updates of [learn_pattern] on the entry of the pattern. *)
Definition record_attempt (code fix_type : string) (success : bool) (p : pattern)
    : pattern :=
  {| total_attempts := total_attempts p + 1;
     successes := if success then (successes p + 1)%Z else successes p;
     fix_types := increment fix_type (fix_types p);
     examples := (examples p ++ [Py.take 200 code])%list |}.

(** [max(items, key=lambda x: x[1])] continued from the best item so far:
    a later item replaces it only if its count is strictly greater. *)
Fixpoint max_by_count (best : string * Z) (items : list (string * Z)) : string * Z :=
  match items with
  | [] => best
  | x :: rest => max_by_count (if (snd best <? snd x)%Z then x else best) rest
  end.

Definition _heuristic_prediction (code : string) : string * Q :=
  if Py.contains "expect(" code then ("assertion_fix", (7 # 10)%Q)
  else if Py.contains "import" code then ("import_fix", (8 # 10)%Q)
  else if Py.contains "async" code || Py.contains "await" code
  then ("async_fix", (75 # 100)%Q)
  else if Py.contains "mock" (TypeFixHandlers.lower code) then ("mock_fix", (8 # 10)%Q)
  else if Py.contains "(" code && negb (Py.contains ")" code)
  then ("syntax_fix", (9 # 10)%Q)
  else ("general_fix", (5 # 10)%Q).

(** What a call of [predict_fix_type] does: it returns a pair, or the
    division or [max] raises. *)
Inductive prediction : Type :=
  | Predicted (fix_type : string) (confidence : Q)
  | ZeroDivisionError
  | ValueError.

(** A call of [learn_pattern]. *)
Record attempt : Type := mkAttempt {
  a_code : string;
  a_fix_type : string;
  a_success : bool
}.

Section Classifier.

(** [_extract_pattern_hash]: regular expressions and MD5. *)
Variable _extract_pattern_hash : string -> string.

Definition learn_pattern (patterns : list (string * pattern))
    (code fix_type : string) (success : bool) : list (string * pattern) :=
  let pattern_hash := _extract_pattern_hash code in
  let patterns :=
    match lookup pattern_hash patterns with
    | None => (patterns ++ [(pattern_hash, new_pattern)])%list
    | Some _ => patterns
    end in
  update pattern_hash (record_attempt code fix_type success) patterns.

Definition predict_fix_type (patterns : list (string * pattern)) (code : string)
    : prediction :=
  let pattern_hash := _extract_pattern_hash code in
  match lookup pattern_hash patterns with
  | Some p =>
      if (total_attempts p =? 0)%Z then ZeroDivisionError
      else
        let success_rate := (inject_Z (successes p) / inject_Z (total_attempts p))%Q in
        match fix_types p with
        | [] => ValueError
        | x :: rest => Predicted (fst (max_by_count x rest)) success_rate
        end
  | None =>
      let (fix_type, confidence) := _heuristic_prediction code in
      Predicted fix_type confidence
  end.

(** The classifier after a sequence of calls of [learn_pattern]. *)
Definition learn_all (patterns : list (string * pattern)) (attempts : list attempt)
    : list (string * pattern) :=
  fold_left (fun c a => learn_pattern c (a_code a) (a_fix_type a) (a_success a))
            attempts patterns.

(** The attempt was made on a code of the pattern [pattern_hash]. *)
Definition same_pattern (pattern_hash : string) (a : attempt) : bool :=
  String.eqb (_extract_pattern_hash (a_code a)) pattern_hash.

End Classifier.

Definition has_type (fix_type : string) (a : attempt) : bool :=
  String.eqb (a_fix_type a) fix_type.

Definition count_of (key : string) (d : list (string * Z)) : Z :=
  match lookup key d with
  | Some v => v
  | None => 0%Z
  end.

(** The entry of a pattern in terms of the attempts made on it. *)
Definition summarises (p : pattern) (attempts : list attempt) : Prop :=
  total_attempts p = Z.of_nat (List.length attempts)
  /\ successes p = Z.of_nat (List.length (filter a_success attempts))
  /\ (forall t, count_of t (fix_types p)
                = Z.of_nat (List.length (filter (has_type t) attempts)))
  /\ NoDup (map fst (fix_types p))
  /\ examples p = map (fun a => Py.take 200 (a_code a)) attempts.

Definition classifier_invariant (hash : string -> string)
    (c : list (string * pattern)) (attempts : list attempt) : Prop :=
  forall k,
    match lookup k c with
    | None => filter (same_pattern hash k) attempts = []
    | Some p =>
        filter (same_pattern hash k) attempts <> []
        /\ summarises p (filter (same_pattern hash k) attempts)
    end.

End PatternClassifier.

(* ================================================================== *)
(** ** Vocabulary of the properties of the orchestrator *)
(* ================================================================== *)

(** The keys that [process_file] may put into [fixes_by_engine]. *)
Definition engine_keys : list string :=
  ["ast"; "enhanced"; "ast_iteration_1"; "ast_iteration_2"].

Definition iteration_key (iteration : nat) : string :=
  "ast_iteration_" ++ Py.str_of_nat iteration.

(** The number of descriptions held by [fixes_by_engine]. *)
Definition fix_count (d : list (string * list string)) : nat :=
  List.length (List.concat (map snd d)).

(** What the phases of [process_file] keep true of its local variables,
    [original] being the text that was read. *)
Definition consistent (original : string) (st : locals) : Prop :=
  fix_count (l_fixes_by_engine st) = List.length (all_fixes st)
  /\ (all_fixes st = [] -> current_content st = original)
  /\ (l_manual_review_needed st = true ->
      all_fixes st <> [] /\ l_errors_remaining st <> []).

(** The sum of [total_fixes] over a list of results. *)
Definition sum_total_fixes (results : list NextGenFixResult) : nat :=
  fold_right (fun r n => total_fixes r + n) 0 results.

(** The sum of [confidence_score] over the results that succeeded. *)
Definition sum_confidence_fixed (results : list NextGenFixResult) : Q :=
  fold_right (fun r q => if ng_success r then (confidence_score r + q)%Q else q)
             (0 # 1)%Q results.

(* ================================================================== *)
(** ** Sample inputs of the further properties *)
(* ================================================================== *)

(** A parse error on the second of two statements, which lacks its
    semicolon. *)
Definition parse_error_at_line_2 : SyntaxError :=
  mkSyntaxError 2 1 "';' expected" "error" "PARSE_ERROR" "ast".

Definition two_statements : string :=
  String.concat (String Py.nl EmptyString) ["const a = 1;"; "  let b = 2  "].

(** Three diagnostics, out of order, on a text of three lines. *)
Definition three_lines : string :=
  String.concat (String Py.nl EmptyString)
    ["let a = 1"; "expect(render(x);"; "const b = 2"].

Definition three_diagnostics : list SyntaxError :=
  [mkSyntaxError 1 1 "m" "error" "PARSE_ERROR" "ast";
   mkSyntaxError 3 1 "m" "error" "PARSE_FAILED" "ast";
   mkSyntaxError 2 1 "m" "error" "UNMATCHED_PAREN" "ast"].

(** Two edits on different lines. *)
Definition edit_line_1 : SyntaxFix :=
  mkSyntaxFix 1 10 "let a = 1" "let a = 1;" "Add missing semicolon" (7 # 10)%Q
    "semicolon".

Definition edit_line_3 : SyntaxFix :=
  mkSyntaxFix 3 12 "const b = 2" "const b = 2;" "Add missing semicolon" (7 # 10)%Q
    "semicolon".


(** [x] may come before [y] in the order of [generate_type_fixes]. *)
Definition type_position_le (x y : TypeFixGenerator.TypeFix) : Prop :=
  (TypeFixGenerator.line x < TypeFixGenerator.line y)%Z
  \/ (TypeFixGenerator.line x = TypeFixGenerator.line y
      /\ (TypeFixGenerator.column x <= TypeFixGenerator.column y)%Z).

(** An engine whose context has the test type [unit] and the patterns
    [a] and [b], and two candidates of the predicted type: the first
    shares two of its three patterns with the context, the second its
    test type.  In exact arithmetic both have the context match 0.2. *)
Definition rounding_engine (base_confidence : Q) : MLContextEngine.engine :=
  {| MLContextEngine.analyze_context := fun _ _ =>
       MLContextEngine.mkCodeContext ".tsx" "react" ["a"; "b"] [] [] [] "unit"
         (1 # 10)%Q;
     MLContextEngine.predict_fix_type := fun _ => ("import_fix", base_confidence);
     MLContextEngine.context_patterns := [];
     MLContextEngine.fix_history := [] |}.

Definition by_patterns : MLContextEngine.FixDict :=
  MLContextEngine.mkFixDict (Some 1%Z) (Some 1%Z) (Some "import_fix")
    (Some EmptyString) (Some EmptyString) (Some "by patterns")
    None None (Some ["a"; "b"; "c"]) None.

Definition by_test_type : MLContextEngine.FixDict :=
  MLContextEngine.mkFixDict (Some 1%Z) (Some 1%Z) (Some "import_fix")
    (Some EmptyString) (Some EmptyString) (Some "by test type")
    None (Some "unit") None None.

(* ================================================================== *)
(** * Part II: lemmas and theorems *)
(* ================================================================== *)

(* ================================================================== *)
(** ** Python string primitives *)
(* ================================================================== *)

Example py_strip_ex : Py.strip "  a b ;  " = "a b ;".
Proof. reflexivity. Qed.
Example py_split_ex : Py.split "=>" "a => => b" = ["a "; " "; " b"].
Proof. reflexivity. Qed.
Example py_replace_ex : Py.replace "aa" "b" "aaaxaa" = "baxb".
Proof. reflexivity. Qed.
Example py_lines_ex : Py.split_lines (String "a" (String Py.nl "b")) = ["a"; "b"].
Proof. reflexivity. Qed.
Example py_endswith_ex : Py.endswith ");" "f(1);" = true.
Proof. reflexivity. Qed.

(* ================================================================== *)
(** ** Lemmas on the primitives *)
(* ================================================================== *)

Lemma set_nth_length {A : Type} (k : nat) (v : A) (l : list A) :
  List.length (Py.set_nth k v l) = List.length l.
Proof.
  revert k; induction l as [|h t IH]; intros [|k]; simpl; auto.
Qed.

Lemma setitem_length {A : Type} (l l' : list A) (i : Z) (v : A) :
  setitem l i v = Return l' -> List.length l' = List.length l.
Proof.
  unfold setitem, Py.setitem.
  destruct (Py.subscript (List.length l) i); intros H; inversion H.
  apply set_nth_length.
Qed.

Lemma subscript_bound (n : nat) (i : Z) (k : nat) :
  Py.subscript n i = Some k -> k < n.
Proof.
  unfold Py.subscript.
  destruct (0 <=? i)%Z eqn:E0.
  - destruct (i <? Z.of_nat n)%Z eqn:E1; intros H; inversion H; subst. lia.
  - destruct (- Z.of_nat n <=? i)%Z eqn:E1; intros H; inversion H; subst. lia.
Qed.

Lemma getitem_setitem {A : Type} (l : list A) (i : Z) (v : A) :
  (exists a, getitem l i = Return a) <-> (exists l', setitem l i v = Return l').
Proof.
  unfold getitem, setitem, Py.getitem, Py.setitem.
  destruct (Py.subscript (List.length l) i) as [k|] eqn:E.
  - apply subscript_bound in E.
    destruct (nth_error l k) eqn:N.
    + split; eauto.
    + apply nth_error_None in N. lia.
  - split; intros [x H]; discriminate.
Qed.

Lemma nth_error_set_nth_eq {A : Type} (k : nat) (v : A) (l : list A) :
  k < List.length l -> nth_error (Py.set_nth k v l) k = Some v.
Proof.
  revert k; induction l as [|h t IH]; intros [|k] H; simpl in *; try lia; auto.
  apply IH. lia.
Qed.

Lemma nth_error_set_nth_neq {A : Type} (k j : nat) (v : A) (l : list A) :
  j <> k -> nth_error (Py.set_nth k v l) j = nth_error l j.
Proof.
  revert k j; induction l as [|h t IH]; intros [|k] [|j] H; simpl; auto;
    lia.
Qed.

Lemma Forall_set_nth {A : Type} (P : A -> Prop) (k : nat) (v : A) (l : list A) :
  P v -> Forall P l -> Forall P (Py.set_nth k v l).
Proof.
  intros Hv Hl; revert k; induction Hl; intros [|k]; simpl; auto.
Qed.

(** *** Lines of a text *)

Lemma split_lines_nonempty (s : string) : Py.split_lines s <> [].
Proof.
  induction s as [|a s IH]; simpl; [discriminate|].
  destruct (Ascii.eqb a Py.nl); [discriminate|].
  destruct (Py.split_lines s); discriminate.
Qed.

Lemma concat_cons_cons (sep x y : string) (l : list string) :
  String.concat sep (x :: y :: l) = x ++ sep ++ String.concat sep (y :: l).
Proof. reflexivity. Qed.

Lemma join_split (s : string) : Py.join_lines (Py.split_lines s) = s.
Proof.
  unfold Py.join_lines.
  induction s as [|a s IH]; [reflexivity|].
  cbn [Py.split_lines].
  pose proof (split_lines_nonempty s) as Hne.
  destruct (Py.split_lines s) as [|h t]; [congruence|].
  destruct (Ascii.eqb a Py.nl) eqn:E.
  - apply Ascii.eqb_eq in E; subst a.
    rewrite concat_cons_cons, IH. reflexivity.
  - destruct t as [|y t].
    + rewrite <- IH. reflexivity.
    + rewrite concat_cons_cons in *. rewrite <- IH. reflexivity.
Qed.

Lemma split_lines_single (s : string) :
  single_line s -> Py.split_lines s = [s].
Proof.
  unfold single_line.
  induction s as [|a s IH]; simpl; [reflexivity|].
  destruct (Ascii.eqb a Py.nl); [discriminate|].
  intros H. now rewrite IH.
Qed.

Lemma split_lines_app (x rest : string) :
  single_line x ->
  Py.split_lines (x ++ String Py.nl rest) = x :: Py.split_lines rest.
Proof.
  unfold single_line.
  induction x as [|a x IH]; simpl.
  - intros _. reflexivity.
  - destruct (Ascii.eqb a Py.nl); [discriminate|].
    intros H. now rewrite IH.
Qed.

Lemma split_join (ls : list string) :
  ls <> [] -> Forall single_line ls ->
  Py.split_lines (Py.join_lines ls) = ls.
Proof.
  unfold Py.join_lines.
  induction ls as [|x ls IH]; [congruence|].
  intros _ Hall. inversion Hall as [|? ? Hx Hls]; subst.
  destruct ls as [|y ls].
  - simpl. now apply split_lines_single.
  - rewrite concat_cons_cons. simpl.
    rewrite split_lines_app by assumption.
    f_equal. apply IH; [discriminate|assumption].
Qed.

Lemma split_lines_single_line (s : string) :
  Forall single_line (Py.split_lines s).
Proof.
  induction s as [|a s IH]; simpl.
  - constructor; [reflexivity|constructor].
  - destruct (Ascii.eqb a Py.nl) eqn:E.
    + constructor; [reflexivity|assumption].
    + destruct (Py.split_lines s) as [|h t]; constructor.
      * unfold single_line. simpl. now rewrite E.
      * constructor.
      * inversion IH; subst. unfold single_line in *. simpl. now rewrite E.
      * now inversion IH.
Qed.

(** *** Searching and counting *)

Lemma startswith_app (sub x s : string) :
  Py.startswith (sub ++ x) s = true -> Py.startswith sub s = true.
Proof.
  revert s; induction sub as [|a sub IH]; intros s; simpl; [reflexivity|].
  destruct s as [|b s]; [discriminate|].
  intros H. apply andb_true_iff in H. destruct H as [Hab H].
  rewrite Hab. simpl. now apply IH.
Qed.

(** The guard of every [index] call: a successful membership test for an
    extension of [sub] makes the search for [sub] succeed. *)
Lemma contains_index (sub x s : string) :
  Py.contains (sub ++ x) s = true -> exists i, Py.find sub s = Some i.
Proof.
  unfold Py.contains, Py.find. generalize 0.
  induction s as [|a s IH]; intros n; simpl.
  - destruct (Py.startswith (sub ++ x) EmptyString) eqn:E; [|discriminate].
    intros _. apply startswith_app in E. rewrite E. eauto.
  - destruct (Py.startswith (sub ++ x) (String a s)) eqn:E.
    + intros _. apply startswith_app in E. rewrite E. eauto.
    + intros H. destruct (Py.startswith sub (String a s)); eauto.
Qed.

Lemma count_char_app (c : ascii) (s1 s2 : string) :
  Py.count_char c (s1 ++ s2) = Py.count_char c s1 + Py.count_char c s2.
Proof.
  induction s1 as [|a s1 IH]; simpl; [reflexivity|]. rewrite IH. lia.
Qed.

Lemma count_char_repeat_same (c : ascii) (n : nat) :
  Py.count_char c (Py.repeat_char c n) = n.
Proof.
  induction n as [|n IH]; simpl; [reflexivity|].
  now rewrite Ascii.eqb_refl, IH.
Qed.

Lemma count_char_repeat_other (c d : ascii) (n : nat) :
  Ascii.eqb d c = false -> Py.count_char c (Py.repeat_char d n) = 0.
Proof.
  intros H. induction n as [|n IH]; simpl; [reflexivity|]. now rewrite H, IH.
Qed.

Lemma count_char_rstrip (c : ascii) (s : string) :
  Py.isspace c = false -> Py.count_char c (Py.rstrip s) = Py.count_char c s.
Proof.
  intros Hc. induction s as [|a s IH]; simpl; [reflexivity|].
  destruct (Py.isspace a && Py.is_empty (Py.rstrip s)) eqn:E.
  - apply andb_true_iff in E. destruct E as [Ha He].
    destruct (Py.rstrip s); [|discriminate]. simpl in IH. rewrite <- IH.
    destruct (Ascii.eqb_spec a c) as [->|_]; [congruence|reflexivity].
  - simpl. now rewrite IH.
Qed.

Lemma take_drop (n : nat) (s : string) : Py.take n s ++ Py.drop n s = s.
Proof.
  revert n; induction s as [|a s IH]; intros [|n]; simpl; try reflexivity.
  now rewrite IH.
Qed.

Lemma endswith_drop_last (p s : string) :
  String.length p = 1 -> Py.endswith p s = true -> s = Py.drop_last s ++ p.
Proof.
  unfold Py.endswith, Py.drop_last. intros Hp H.
  apply andb_true_iff in H. destruct H as [_ H].
  apply String.eqb_eq in H. rewrite Hp in H.
  rewrite <- H. symmetry. apply take_drop.
Qed.

(** [rfind] returns the position of the last occurrence. *)
Lemma rfind_char_from_spec (c : ascii) (s : string) : forall n,
  match Py.rfind_char_from c s n with
  | Some j => exists i, j = n + i
                        /\ s = Py.take i s ++ String c (Py.drop (S i) s)
                        /\ Py.count_char c (Py.drop (S i) s) = 0
  | None => Py.count_char c s = 0
  end.
Proof.
  induction s as [|a s IH]; intros n; simpl; [reflexivity|].
  specialize (IH (S n)).
  destruct (Py.rfind_char_from c s (S n)) as [j|].
  - destruct IH as [i [Hj [Hs Hc]]]. exists (S i). simpl.
    split; [lia|]. split; [f_equal; exact Hs|exact Hc].
  - destruct (Ascii.eqb_spec a c) as [->|Hne].
    + exists 0. simpl. split; [lia|]. split; [reflexivity|exact IH].
    + simpl. exact IH.
Qed.

Lemma rfind_char_spec (c : ascii) (s : string) :
  match Py.rfind_char c s with
  | Some i => s = Py.take i s ++ String c (Py.drop (S i) s)
              /\ Py.count_char c (Py.drop (S i) s) = 0
  | None => Py.count_char c s = 0
  end.
Proof.
  unfold Py.rfind_char. pose proof (rfind_char_from_spec c s 0) as H.
  destruct (Py.rfind_char_from c s 0); [|exact H].
  destruct H as [i [-> H]]. exact H.
Qed.

(* ================================================================== *)
(** ** The patch applier *)
(* ================================================================== *)

Lemma apply_loop_length fixes : forall lines acc lines' acc',
  apply_loop fixes lines acc = Return (lines', acc') ->
  List.length lines' = List.length lines.
Proof.
  induction fixes as [|f rest IH]; simpl; intros lines acc lines' acc' H.
  - now inversion H.
  - destruct (line f <=? Py.len lines)%Z.
    + destruct (getitem lines (line f - 1)); simpl in H; [|discriminate].
      destruct (setitem lines (line f - 1) (new_text f)) as [l1|] eqn:E;
        simpl in H; [|discriminate].
      apply IH in H. apply setitem_length in E. congruence.
    + eauto.
Qed.

Lemma apply_loop_applied fixes : forall lines acc lines' acc',
  apply_loop fixes lines acc = Return (lines', acc') ->
  acc' = (acc ++ filter (in_range (List.length lines)) fixes)%list.
Proof.
  induction fixes as [|f rest IH]; simpl; intros lines acc lines' acc' H.
  - inversion H. now rewrite app_nil_r.
  - unfold in_range at 1. unfold Py.len in H.
    destruct (line f <=? Z.of_nat (List.length lines))%Z.
    + destruct (getitem lines (line f - 1)); simpl in H; [|discriminate].
      destruct (setitem lines (line f - 1) (new_text f)) as [l1|] eqn:E;
        simpl in H; [|discriminate].
      apply IH in H. apply setitem_length in E.
      rewrite H, E, <- app_assoc. reflexivity.
    + eauto.
Qed.

Lemma apply_loop_skip_stale l1 : forall lines acc f l2,
  in_range (List.length lines) f = false ->
  apply_loop (l1 ++ f :: l2) lines acc = apply_loop (l1 ++ l2) lines acc.
Proof.
  induction l1 as [|g l1 IH]; simpl; intros lines acc f l2 Hf.
  - unfold in_range in Hf. unfold Py.len. now rewrite Hf.
  - destruct (line g <=? Py.len lines)%Z; [|now apply IH].
    destruct (getitem lines (line g - 1)); simpl; [|reflexivity].
    destruct (setitem lines (line g - 1) (new_text g)) as [l'|] eqn:E;
      simpl; [|reflexivity].
    apply IH. apply setitem_length in E. now rewrite E.
Qed.

Lemma apply_loop_returns fixes : forall lines acc,
  Forall (fun f => (1 - Py.len lines <= line f)%Z) fixes ->
  exists st, apply_loop fixes lines acc = Return st.
Proof.
  induction fixes as [|f rest IH]; intros lines acc Hall; cbn [apply_loop];
    eauto.
  inversion Hall as [|? ? Hf Hrest]; subst. cbv beta in Hf.
  destruct (line f <=? Py.len lines)%Z eqn:E; [|now apply IH].
  apply Z.leb_le in E.
  assert (Hs : exists k, Py.subscript (List.length lines) (line f - 1) = Some k).
  { unfold Py.subscript, Py.len in *.
    destruct (0 <=? line f - 1)%Z eqn:E0.
    - destruct (line f - 1 <? Z.of_nat (List.length lines))%Z eqn:E1; eauto.
      apply Z.ltb_ge in E1. lia.
    - destruct (- Z.of_nat (List.length lines) <=? line f - 1)%Z eqn:E1; eauto.
      apply Z.leb_gt in E1. lia. }
  destruct Hs as [k Hk].
  pose proof (subscript_bound _ _ _ Hk) as Hlt.
  unfold getitem, setitem, Py.getitem, Py.setitem. rewrite Hk.
  destruct (nth_error lines k) eqn:N; [|apply nth_error_None in N; lia].
  simpl. apply IH.
  unfold Py.len in *. now rewrite set_nth_length.
Qed.

Lemma find_append {A : Type} (p : A -> bool) (l1 l2 : list A) :
  List.find p (l1 ++ l2)%list =
    match List.find p l1 with
    | Some x => Some x
    | None => List.find p l2
    end.
Proof.
  induction l1 as [|x l1 IH]; simpl; [reflexivity|].
  destruct (p x); auto.
Qed.

(** Last writer wins: position [k] ends with the [new_text] of the last
    edit of the list that overwrites it. *)
Lemma apply_loop_last_write fixes : forall lines acc lines' acc' k,
  apply_loop fixes lines acc = Return (lines', acc') ->
  nth_error lines' k =
    match List.find (writes_to (List.length lines) k) (rev fixes) with
    | Some g => Some (new_text g)
    | None => nth_error lines k
    end.
Proof.
  induction fixes as [|f rest IH]; simpl; intros lines acc lines' acc' k H.
  - now inversion H.
  - rewrite find_append. unfold Py.len in H.
    destruct (line f <=? Z.of_nat (List.length lines))%Z eqn:E.
    + destruct (getitem lines (line f - 1)); simpl in H; [|discriminate].
      unfold setitem, Py.setitem in H.
      destruct (Py.subscript (List.length lines) (line f - 1)) as [j|] eqn:Ej;
        simpl in H; [|discriminate].
      apply IH with (k := k) in H. rewrite set_nth_length in H. rewrite H.
      destruct (List.find _ (rev rest)); [reflexivity|].
      cbn [List.find]. unfold writes_to, in_range. rewrite E, Ej. cbn [andb].
      pose proof (subscript_bound _ _ _ Ej) as Hj.
      destruct (Nat.eqb_spec j k) as [->|Hne].
      * now apply nth_error_set_nth_eq.
      * apply nth_error_set_nth_neq. congruence.
    + apply IH with (k := k) in H. rewrite H.
      destruct (List.find _ (rev rest)); [reflexivity|].
      cbn [List.find]. unfold writes_to, in_range. rewrite E. reflexivity.
Qed.

(** What [apply_fixes] returns, in terms of its loop; the early return on
    an empty list agrees with it. *)
Lemma apply_fixes_loop (content : string) (fixes : list SyntaxFix) (r : FixResult) :
  apply_fixes content fixes = Return r ->
  exists lines',
    apply_loop fixes (Py.split_lines content) [] = Return (lines', fixes_applied r)
    /\ fixed_content r = Py.join_lines lines'.
Proof.
  destruct fixes as [|f rest].
  - intros H. inversion H; subst. simpl.
    exists (Py.split_lines content). split; [reflexivity|].
    symmetry. apply join_split.
  - unfold apply_fixes.
    destruct (apply_loop (f :: rest) (Py.split_lines content) []) as [[l a]|e];
      intros H; inversion H; subst. simpl. eauto.
Qed.

Lemma apply_fixes_of_loop (content : string) (fixes : list SyntaxFix)
    (lines' : list string) (applied : list SyntaxFix) :
  apply_loop fixes (Py.split_lines content) [] = Return (lines', applied) ->
  exists r, apply_fixes content fixes = Return r
            /\ fixes_applied r = applied
            /\ fixed_content r = Py.join_lines lines'.
Proof.
  destruct fixes as [|f rest].
  - intros H. inversion H; subst. eexists. split; [reflexivity|].
    split; [reflexivity|]. simpl. symmetry. apply join_split.
  - intros H. unfold apply_fixes. rewrite H. simpl.
    eexists. split; [reflexivity|]. split; reflexivity.
Qed.

Lemma apply_fixes_returns (content : string) (fixes : list SyntaxFix) :
  Forall (fun f => (1 <= line f)%Z) fixes ->
  exists r, apply_fixes content fixes = Return r.
Proof.
  intros Hall.
  destruct (apply_loop_returns fixes (Py.split_lines content) []) as [[l a] H].
  - eapply Forall_impl; [|exact Hall]. intros f Hf. cbv beta in *.
    unfold Py.len. lia.
  - apply apply_fixes_of_loop in H. destruct H as [r [H _]]. eauto.
Qed.

(* ================================================================== *)
(** ** Properties of the patch applier *)
(* ================================================================== *)

(** C3, as stated, fails: whatever priority is attached to the edits, an
    in-range edit that shares its line with a higher-priority edit is
    still applied.  Here [lo_edit] and [hi_edit] both target line 1 of the
    text ["foo("], [lo_edit] has the lower priority, comes last in the
    list, is applied and even decides the final text. *)
Lemma apply_fixes_priority_counterexample :
  ~ (forall (priority : SyntaxFix -> nat) (content : string)
            (fixes : list SyntaxFix) (r : FixResult) (lo hi : SyntaxFix),
        apply_fixes content fixes = Return r ->
        In lo fixes -> In hi fixes ->
        line lo = line hi ->
        priority lo < priority hi ->
        in_range (List.length (Py.split_lines content)) lo = true ->
        ~ In lo (fixes_applied r)).
Proof.
  intros claim.
  pose (priority := fun f : SyntaxFix =>
                      if String.eqb (fix_type f) "parentheses" then 3 else 2).
  destruct (apply_fixes "foo(" [hi_edit; lo_edit]) as [r|e] eqn:E;
    [|vm_compute in E; discriminate].
  apply (claim priority "foo(" [hi_edit; lo_edit] r lo_edit hi_edit E).
  - right; left; reflexivity.
  - left; reflexivity.
  - reflexivity.
  - vm_compute. lia.
  - reflexivity.
  - vm_compute in E. inversion E; subst. simpl. right; left; reflexivity.
Qed.

(** C3, amended: [apply_fixes] consults no priority and discards nothing.
    Whenever it returns, every edit whose line number passes the range test
    is recorded as applied, in list order, and every line of the result
    holds the [new_text] of the last edit of the list that overwrites it
    (or the original line when there is none). *)
Theorem apply_fixes_same_line_last_wins
    (content : string) (fixes : list SyntaxFix) (r : FixResult) :
  apply_fixes content fixes = Return r ->
  let n := List.length (Py.split_lines content) in
  fixes_applied r = filter (in_range n) fixes
  /\ (forall f, In f fixes -> in_range n f = true -> In f (fixes_applied r))
  /\ exists lines',
       fixed_content r = Py.join_lines lines'
       /\ List.length lines' = n
       /\ forall k,
            nth_error lines' k =
              match List.find (writes_to n k) (rev fixes) with
              | Some g => Some (new_text g)
              | None => nth_error (Py.split_lines content) k
              end.
Proof.
  intros H n.
  destruct (apply_fixes_loop _ _ _ H) as [lines' [Hloop Hjoin]].
  pose proof (apply_loop_applied _ _ _ _ _ Hloop) as Happ. simpl in Happ.
  split; [exact Happ|]. split.
  - intros f Hin Hr. rewrite Happ. apply filter_In. now split.
  - exists lines'. split; [exact Hjoin|]. split.
    + eapply apply_loop_length; eauto.
    + intros k. eapply apply_loop_last_write; eauto.
Qed.

Lemma apply_fixes_same_line_last_wins_witness :
  exists r,
    apply_fixes "foo(" [hi_edit; lo_edit] = Return r
    /\ fixed_content r = "foo() as any"
    /\ fixes_applied r = filter (in_range 1) [hi_edit; lo_edit].
Proof.
  eexists. split; [vm_compute; reflexivity|]. split; [reflexivity|].
  exact (proj1 (apply_fixes_same_line_last_wins
                  "foo(" [hi_edit; lo_edit] _ eq_refl)).
Defined.

(** C4, as stated, fails in its last part: the result keeps no count of
    stale edits.  No function of the [FixResult] can recover the number of
    out-of-range edits, since the list [[hi_edit]] and the list
    [[hi_edit; stale_edit]] give the same result on the text ["foo("]. *)
Lemma apply_fixes_stale_not_counted :
  ~ (exists stale_count : FixResult -> nat,
        forall (content : string) (fixes : list SyntaxFix) (r : FixResult),
          apply_fixes content fixes = Return r ->
          stale_count r =
            List.length
              (filter (fun f => negb (in_range (List.length (Py.split_lines content)) f))
                      fixes)).
Proof.
  intros [stale_count claim].
  destruct (apply_fixes "foo(" [hi_edit]) as [r|e] eqn:E;
    [|vm_compute in E; discriminate].
  assert (E' : apply_fixes "foo(" [hi_edit; stale_edit] = Return r).
  { rewrite <- E. vm_compute. reflexivity. }
  apply claim in E. apply claim in E'.
  rewrite E in E'. vm_compute in E'. discriminate.
Qed.

(** C4, amended: an edit whose line number exceeds the number of lines of
    the text is skipped without trace.  It is not among the applied fixes,
    and the text and the applied fixes are those obtained from the list
    without it; when other edits remain in the list the whole result is
    the same, so nothing in it counts the edit as stale. *)
Theorem apply_fixes_stale_edit_skipped
    (content : string) (l1 l2 : list SyntaxFix) (f : SyntaxFix) (r : FixResult) :
  (Py.len (Py.split_lines content) < line f)%Z ->
  apply_fixes content (l1 ++ f :: l2) = Return r ->
  ~ In f (fixes_applied r)
  /\ (exists r', apply_fixes content (l1 ++ l2) = Return r'
                 /\ fixed_content r' = fixed_content r
                 /\ fixes_applied r' = fixes_applied r)
  /\ ((l1 ++ l2)%list <> [] -> apply_fixes content (l1 ++ l2) = Return r).
Proof.
  intros Hstale H.
  assert (Hf : in_range (List.length (Py.split_lines content)) f = false).
  { unfold in_range. apply Z.leb_gt. exact Hstale. }
  destruct (apply_fixes_loop _ _ _ H) as [lines' [Hloop Hjoin]].
  split; [|split].
  - pose proof (apply_loop_applied _ _ _ _ _ Hloop) as Happ. simpl in Happ.
    rewrite Happ. intros Hin. apply filter_In in Hin. destruct Hin as [_ Hin].
    congruence.
  - rewrite apply_loop_skip_stale in Hloop by exact Hf.
    apply apply_fixes_of_loop in Hloop. destruct Hloop as [r' [Hr' [Ha Hc]]].
    exists r'. repeat split; congruence.
  - intros Hne. rewrite <- H. unfold apply_fixes.
    rewrite apply_loop_skip_stale by exact Hf.
    destruct (l1 ++ l2)%list eqn:E12; [congruence|].
    destruct (l1 ++ f :: l2)%list eqn:E; [destruct l1; discriminate|].
    reflexivity.
Qed.

Lemma apply_fixes_stale_edit_skipped_witness :
  (Py.len (Py.split_lines "foo(") < line stale_edit)%Z
  /\ exists r,
       apply_fixes "foo(" ([hi_edit] ++ stale_edit :: []) = Return r
       /\ ~ In stale_edit (fixes_applied r)
       /\ apply_fixes "foo(" [hi_edit] = Return r.
Proof.
  assert (Hs : (Py.len (Py.split_lines "foo(") < line stale_edit)%Z)
    by (vm_compute; reflexivity).
  split; [exact Hs|].
  eexists. split; [vm_compute; reflexivity|].
  pose proof (apply_fixes_stale_edit_skipped
                "foo(" [hi_edit] [] stale_edit _ Hs eq_refl) as [H1 [_ H3]].
  split; [exact H1|]. apply H3. discriminate.
Defined.

(** C10, as stated, fails: an edit is any [SyntaxFix], and one whose
    [new_text] holds a line break turns one line into two. *)
Lemma apply_fixes_line_count_counterexample :
  exists r,
    apply_fixes "a" [two_line_edit] = Return r
    /\ List.length (Py.split_lines "a") = 1
    /\ List.length (Py.split_lines (fixed_content r)) = 2.
Proof.
  eexists. split; [vm_compute; reflexivity|]. split; reflexivity.
Qed.

(* ================================================================== *)
(** ** The parenthesis handler *)
(* ================================================================== *)

Lemma strip_last_none (c : ascii) (n : nat) (s : string) :
  Py.count_char c s = 0 -> strip_last c n s = (n, s).
Proof.
  induction s as [|a s IH]; simpl; [reflexivity|].
  destruct (Ascii.eqb a c); [discriminate|].
  intros H. now rewrite IH.
Qed.

Lemma strip_last_zero (c : ascii) (s : string) : strip_last c 0 s = (0, s).
Proof.
  induction s as [|a s IH]; simpl; [reflexivity|].
  rewrite IH. simpl. now rewrite andb_false_r.
Qed.

Lemma strip_last_app (c : ascii) (n : nat) (p t : string) :
  strip_last c n (p ++ t) =
    let (m, r) := strip_last c n t in
    let (m', r') := strip_last c m p in
    (m', r' ++ r).
Proof.
  induction p as [|a p IH]; simpl.
  - destruct (strip_last c n t); reflexivity.
  - rewrite IH. destruct (strip_last c n t) as [m r].
    destruct (strip_last c m p) as [m' r'].
    destruct (Ascii.eqb a c && (0 <? m')%nat); reflexivity.
Qed.

Lemma strip_last_round (c : ascii) (k : nat) (p q : string) :
  Py.count_char c q = 0 ->
  strip_last c (S k) (p ++ String c q) = strip_last c k (p ++ q).
Proof.
  intros Hq. rewrite !strip_last_app. simpl.
  rewrite !strip_last_none by exact Hq.
  rewrite Ascii.eqb_refl. simpl. now rewrite Nat.sub_0_r.
Qed.

(** The loop of the handler removes the last occurrences. *)
Lemma remove_last_parens_strip_last (n : nat) : forall s,
  remove_last_parens n s = snd (strip_last ")" n s).
Proof.
  induction n as [|k IH]; intros s; cbn [remove_last_parens].
  - now rewrite strip_last_zero.
  - rewrite IH. pose proof (rfind_char_spec ")" s) as H.
    destruct (Py.rfind_char ")" s) as [i|].
    + destruct H as [Hs Hc].
      rewrite <- strip_last_round by exact Hc. now rewrite <- Hs.
    + now rewrite !strip_last_none.
Qed.

Lemma remove_last_parens_count (n : nat) : forall s,
  Py.count_char ")" (remove_last_parens n s) = Py.count_char ")" s - n
  /\ Py.count_char "(" (remove_last_parens n s) = Py.count_char "(" s.
Proof.
  induction n as [|k IH]; intros s; cbn [remove_last_parens].
  - split; [lia|reflexivity].
  - pose proof (rfind_char_spec ")" s) as H.
    destruct (Py.rfind_char ")" s) as [i|].
    + destruct H as [Hs Hc].
      destruct (IH (Py.take i s ++ Py.drop (S i) s)) as [IH1 IH2].
      rewrite IH1, IH2.
      assert (E1 : Py.count_char ")" s
                   = Py.count_char ")" (Py.take i s ++ String ")" (Py.drop (S i) s)))
        by (rewrite <- Hs; reflexivity).
      assert (E2 : Py.count_char "(" s
                   = Py.count_char "(" (Py.take i s ++ String ")" (Py.drop (S i) s)))
        by (rewrite <- Hs; reflexivity).
      rewrite E1, E2, !count_char_app. simpl. split; lia.
    + destruct (IH s) as [IH1 IH2]. rewrite IH1, IH2. split; [lia|reflexivity].
Qed.

(** A diagnostic of code [UNMATCHED_PAREN] on a line of the text reaches
    the parenthesis handler with that line. *)
Lemma _generate_fix_for_error_unmatched_paren
    (error : SyntaxError) (lines : list string) (content line0 : string) :
  error_code error = "UNMATCHED_PAREN" ->
  (1 <= err_line error <= Py.len lines)%Z ->
  nth_error lines (Z.to_nat (err_line error - 1)) = Some line0 ->
  _generate_fix_for_error error lines content
  = Return (_fix_unmatched_parentheses error line0 (err_line error)).
Proof.
  intros Hcode [Hlo Hhi] Hnth. unfold _generate_fix_for_error.
  assert (E : (Py.len lines <? err_line error)%Z = false) by (apply Z.ltb_ge; lia).
  rewrite E. unfold getitem, Py.getitem, Py.subscript. unfold Py.len in Hhi.
  assert (E0 : (0 <=? err_line error - 1)%Z = true) by (apply Z.leb_le; lia).
  assert (E1 : (err_line error - 1 <? Z.of_nat (List.length lines))%Z = true)
    by (apply Z.ltb_lt; lia).
  rewrite E0, E1, Hnth, Hcode. reflexivity.
Qed.

Lemma removal_confidence_value :
  (Binary64.mul (9 # 10) (8 # 10) == 6485183463413515 # 9007199254740992)%Q.
Proof.
  vm_compute. reflexivity.
Qed.

(** C8, as stated, fails twice.  On a line whose statement is followed by
    a comment the missing parenthesis is not put before the semicolon: it
    lands at the end of the line, inside the comment.  And the confidence
    of a removal is the binary64 product [0.9 * 0.8], which is the float
    [0.7200000000000001], just above the float [0.72]. *)
Lemma _fix_unmatched_parentheses_counterexample :
  (Py.count_char ")" "expect(render(x); // note"
   < Py.count_char "(" "expect(render(x); // note"
   /\ exists fx,
        _fix_unmatched_parentheses
          (mkSyntaxError 1 1 "m" "error" "UNMATCHED_PAREN" "ast")
          "expect(render(x); // note" 1 = Some fx
        /\ new_text fx = "expect(render(x); // note)"
        /\ new_text fx <> "expect(render(x)); // note")
  /\ (Py.count_char "(" "expect(x)));" < Py.count_char ")" "expect(x)));"
      /\ exists fx,
           _fix_unmatched_parentheses
             (mkSyntaxError 1 1 "m" "error" "UNMATCHED_PAREN" "ast")
             "expect(x)));" 1 = Some fx
           /\ ~ (confidence fx == Binary64.round64 (72 # 100))%Q
           /\ (Binary64.round64 (72 # 100) < confidence fx)%Q
           /\ (confidence fx
               == Binary64.round64 (7200000000000001 # 10000000000000000))%Q).
Proof.
  split.
  - split; [vm_compute; lia|]. eexists. split; [vm_compute; reflexivity|].
    split; [reflexivity|discriminate].
  - split; [vm_compute; lia|]. eexists. split; [reflexivity|].
    cbn [confidence]. split; [|split].
    + intros H. vm_compute in H. discriminate H.
    + vm_compute. reflexivity.
    + vm_compute. reflexivity.
Qed.

(** C8, amended: on a line with more opening than closing parentheses
    the handler returns an edit of confidence 9/10 whose text is the line
    (without trailing white space) with the missing closing parentheses
    put before its last character when that is a semicolon, and at its
    very end otherwise; on a line with more closing than opening
    parentheses it returns an edit whose confidence is the binary64
    product of 0.9 and 0.8 and whose text is the line without its last
    excess closing parentheses.  Both texts are balanced. *)
Theorem _fix_unmatched_parentheses_spec
    (error : SyntaxError) (line0 : string) (line_num : Z) :
  let open_parens := Py.count_char "(" line0 in
  let close_parens := Py.count_char ")" line0 in
  (close_parens < open_parens ->
   exists fx,
     _fix_unmatched_parentheses error line0 line_num = Some fx
     /\ confidence fx = (9 # 10)%Q
     /\ line fx = line_num /\ old_text fx = Py.rstrip line0
     /\ (Py.endswith ";" (old_text fx) = true ->
         exists body,
           old_text fx = body ++ ";"
           /\ new_text fx
              = body ++ Py.repeat_char ")" (open_parens - close_parens) ++ ";")
     /\ (Py.endswith ";" (old_text fx) = false ->
         new_text fx
         = old_text fx ++ Py.repeat_char ")" (open_parens - close_parens))
     /\ Py.count_char ")" (new_text fx) = Py.count_char "(" (new_text fx)
     /\ Py.count_char "(" (new_text fx) = open_parens)
  /\ (open_parens < close_parens ->
      exists fx,
        _fix_unmatched_parentheses error line0 line_num = Some fx
        /\ confidence fx = Binary64.mul (9 # 10) (8 # 10)
        /\ (confidence fx == 6485183463413515 # 9007199254740992)%Q
        /\ line fx = line_num /\ old_text fx = Py.rstrip line0
        /\ new_text fx =
             Py.rstrip (snd (strip_last ")" (close_parens - open_parens) line0))
        /\ Py.count_char ")" (new_text fx) = Py.count_char "(" (new_text fx)
        /\ Py.count_char "(" (new_text fx) = open_parens).
Proof.
  intros open_parens close_parens. unfold _fix_unmatched_parentheses.
  fold open_parens close_parens. split; intros Hlt.
  - apply Nat.ltb_lt in Hlt. rewrite Hlt. eexists. split; [reflexivity|].
    cbn [confidence line old_text new_text fix_patterns.UNMATCHED_PAREN pi_confidence].
    split; [reflexivity|]. split; [reflexivity|]. split; [reflexivity|].
    apply Nat.ltb_lt in Hlt.
    assert (Hc : Py.count_char ")" (Py.rstrip line0) = close_parens)
      by (apply count_char_rstrip; reflexivity).
    assert (Ho : Py.count_char "(" (Py.rstrip line0) = open_parens)
      by (apply count_char_rstrip; reflexivity).
    destruct (Py.endswith ";" (Py.rstrip line0)) eqn:E.
    + apply endswith_drop_last in E; [|reflexivity].
      split; [intros _; eexists; split; [exact E|reflexivity]|].
      split; [discriminate|].
      rewrite E in Hc, Ho. rewrite count_char_app in Hc, Ho. simpl in Hc, Ho.
      rewrite !count_char_app, count_char_repeat_same,
        count_char_repeat_other by reflexivity.
      simpl. split; lia.
    + split; [discriminate|]. split; [reflexivity|].
      rewrite !count_char_app, count_char_repeat_same,
        count_char_repeat_other by reflexivity.
      split; lia.
  - assert (Hge : (close_parens <? open_parens)%nat = false)
      by (apply Nat.ltb_ge; lia).
    rewrite Hge. apply Nat.ltb_lt in Hlt. rewrite Hlt. eexists.
    split; [reflexivity|].
    cbn [confidence line old_text new_text fix_patterns.UNMATCHED_PAREN pi_confidence].
    split; [reflexivity|]. split; [exact removal_confidence_value|].
    split; [reflexivity|]. split; [reflexivity|].
    split; [now rewrite remove_last_parens_strip_last|].
    apply Nat.ltb_lt in Hlt.
    destruct (remove_last_parens_count (close_parens - open_parens) line0)
      as [H1 H2].
    rewrite !count_char_rstrip by reflexivity. rewrite H1, H2.
    fold open_parens close_parens. split; lia.
Qed.

Lemma _fix_unmatched_parentheses_spec_witness :
  (Py.count_char ")" "expect(render(x);" < Py.count_char "(" "expect(render(x);"
   /\ exists fx,
        _fix_unmatched_parentheses
          (mkSyntaxError 1 1 "m" "error" "UNMATCHED_PAREN" "ast")
          "expect(render(x);" 1 = Some fx
        /\ confidence fx = (9 # 10)%Q
        /\ new_text fx = "expect(render(x));")
  /\ (Py.count_char ")" "expect(render(x); // note"
      < Py.count_char "(" "expect(render(x); // note"
      /\ exists fx,
           _fix_unmatched_parentheses
             (mkSyntaxError 1 1 "m" "error" "UNMATCHED_PAREN" "ast")
             "expect(render(x); // note" 1 = Some fx
           /\ confidence fx = (9 # 10)%Q
           /\ new_text fx = "expect(render(x); // note)")
  /\ (Py.count_char "(" "expect(x)));" < Py.count_char ")" "expect(x)));"
      /\ exists fx,
           _fix_unmatched_parentheses
             (mkSyntaxError 1 1 "m" "error" "UNMATCHED_PAREN" "ast")
             "expect(x)));" 1 = Some fx
           /\ (confidence fx == 6485183463413515 # 9007199254740992)%Q
           /\ new_text fx = "expect(x);").
Proof.
  split; [|split].
  - assert (H : Py.count_char ")" "expect(render(x);"
                < Py.count_char "(" "expect(render(x);") by (vm_compute; lia).
    split; [exact H|].
    destruct (proj1 (_fix_unmatched_parentheses_spec
                       (mkSyntaxError 1 1 "m" "error" "UNMATCHED_PAREN" "ast")
                       "expect(render(x);" 1) H)
      as (fx & E & Hc & _ & Ho & Hsemi & _).
    exists fx. split; [exact E|]. split; [exact Hc|].
    destruct Hsemi as (body & Hb & Hn); [rewrite Ho; reflexivity|].
    rewrite Hn. rewrite Ho in Hb.
    assert (Hbody : body = "expect(render(x)").
    { change (Py.rstrip "expect(render(x);") with ("expect(render(x)" ++ ";") in Hb.
      revert Hb. generalize "expect(render(x)". intros b Hb.
      clear - Hb. revert body Hb.
      induction b as [|c b IH]; intros [|c' body] Hb; cbn in Hb;
        try reflexivity; try discriminate.
      - destruct body; discriminate.
      - inversion Hb. destruct b; discriminate.
      - inversion Hb; subst. f_equal. now apply IH. }
    rewrite Hbody. reflexivity.
  - assert (H : Py.count_char ")" "expect(render(x); // note"
                < Py.count_char "(" "expect(render(x); // note")
      by (vm_compute; lia).
    split; [exact H|].
    destruct (proj1 (_fix_unmatched_parentheses_spec
                       (mkSyntaxError 1 1 "m" "error" "UNMATCHED_PAREN" "ast")
                       "expect(render(x); // note" 1) H)
      as (fx & E & Hc & _ & Ho & _ & Hplain & _).
    exists fx. split; [exact E|]. split; [exact Hc|].
    rewrite Hplain by (rewrite Ho; reflexivity). rewrite Ho. reflexivity.
  - assert (H : Py.count_char "(" "expect(x)));"
                < Py.count_char ")" "expect(x)));") by (vm_compute; lia).
    split; [exact H|].
    destruct (proj2 (_fix_unmatched_parentheses_spec
                       (mkSyntaxError 1 1 "m" "error" "UNMATCHED_PAREN" "ast")
                       "expect(x)));" 1) H)
      as (fx & E & _ & Hc & _ & _ & Hn & _).
    exists fx. split; [exact E|]. split; [exact Hc|]. rewrite Hn. reflexivity.
Defined.

(* ================================================================== *)
(** ** The parser adapter on a failing parser *)
(* ================================================================== *)

Lemma parse_fails (env : parser_env) (file_path : string) :
  parser_call_fails env file_path ->
  exists msg, parse env file_path = failure_dict msg.
Proof.
  intros H. unfold parse.
  destruct (ensure_typescript_raises env); [eauto|].
  destruct (node_script_path env); [|eauto].
  destruct H as [H|e H|rc out err H Hrc|out err e H Hj]; rewrite H; eauto.
  - destruct (Z.eqb_spec rc 0); [contradiction|]. simpl. eauto.
  - simpl. rewrite Hj. eauto.
Qed.

(** What [analyze_file] makes of a dictionary that reports a failure. *)
Lemma analyze_file_unsuccessful (env : parser_env) (file_path : string) :
  is_supported file_path = true ->
  d_success (parse env file_path) = Some false ->
  analyze_file env file_path
  = Return {| is_valid := false;
              syntax_errors :=
                [parse_failed (get (d_error (parse env file_path))
                                   "Unknown parse error")];
              ast_nodes := [];
              parse_time := elapsed env;
              file_type := get (d_fileType (parse env file_path)) "unknown" |}.
Proof.
  intros Hsup Hd. unfold analyze_file. fold (is_supported file_path).
  rewrite Hsup. cbn [negb]. rewrite Hd. reflexivity.
Qed.

Lemma analyze_file_failed_call (env : parser_env) (file_path : string) :
  is_supported file_path = true ->
  parser_call_fails env file_path ->
  exists msg,
    analyze_file env file_path
    = Return {| is_valid := false;
                syntax_errors := [parse_failed msg];
                ast_nodes := [];
                parse_time := elapsed env;
                file_type := "unknown" |}.
Proof.
  intros Hsup Hfail. destruct (parse_fails _ _ Hfail) as [msg Hmsg].
  exists msg. rewrite analyze_file_unsuccessful; [|exact Hsup|now rewrite Hmsg].
  rewrite Hmsg. reflexivity.
Qed.

Lemma detect_line_not_parse_failed (line_num : Z) (line0 : string) :
  filter is_parse_failed (detect_line line_num line0) = [].
Proof.
  unfold detect_line.
  repeat match goal with
         | |- context [if ?b then _ else _] => destruct b
         end; reflexivity.
Qed.

Lemma detect_not_parse_failed (analysis : ASTAnalysis) (content : string) :
  filter is_parse_failed (detect_specific_errors analysis content) = [].
Proof.
  unfold detect_specific_errors. generalize 0.
  induction (Py.split_lines content) as [|l ls IH]; intros n;
    cbn [detect_from]; [reflexivity|].
  now rewrite filter_app, detect_line_not_parse_failed, IH.
Qed.

(** C5: when the external parser call fails on a supported file,
    [analyze_file] does not raise: it returns an analysis that is not valid
    and whose diagnostic list is exactly one synthetic diagnostic of code
    [PARSE_FAILED]; [analyze_with_content], which hands the parser a
    temporary copy, does not raise either, and its list, which also holds
    what the pattern detector found, contains exactly one diagnostic of
    that code. *)
Theorem analyze_file_parse_failed (env : parser_env) (file_path : string) :
  is_supported file_path = true ->
  parser_call_fails env file_path ->
  exists msg,
    analyze_file env file_path
    = Return {| is_valid := false;
                syntax_errors := [parse_failed msg];
                ast_nodes := [];
                parse_time := elapsed env;
                file_type := "unknown" |}
    /\ error_code (parse_failed msg) = "PARSE_FAILED"
    /\ (forall file_path0 content,
          temp_prefix env ++ path_suffix env file_path0 = file_path ->
          exists analysis,
            analyze_with_content env file_path0 content = Return analysis
            /\ is_valid analysis = false
            /\ List.length (filter is_parse_failed (syntax_errors analysis)) = 1).
Proof.
  intros Hsup Hfail.
  destruct (analyze_file_failed_call _ _ Hsup Hfail) as [msg H].
  exists msg. split; [exact H|]. split; [reflexivity|].
  intros file_path0 content Htemp.
  unfold analyze_with_content. rewrite Htemp, H. cbn [bind].
  eexists. split; [reflexivity|]. split; [reflexivity|].
  cbn [syntax_errors]. rewrite filter_app, detect_not_parse_failed.
  reflexivity.
Qed.

Lemma analyze_file_parse_failed_witness :
  is_supported "/tmp/tmpab12.tsx" = true
  /\ parser_call_fails timeout_env "/tmp/tmpab12.tsx"
  /\ exists msg,
       analyze_file timeout_env "/tmp/tmpab12.tsx"
       = Return {| is_valid := false;
                   syntax_errors := [parse_failed msg];
                   ast_nodes := [];
                   parse_time := (30 # 1)%Q;
                   file_type := "unknown" |}
       /\ error_code (parse_failed msg) = "PARSE_FAILED".
Proof.
  assert (H1 : is_supported "/tmp/tmpab12.tsx" = true) by reflexivity.
  assert (H2 : parser_call_fails timeout_env "/tmp/tmpab12.tsx")
    by (apply fails_timeout; reflexivity).
  split; [exact H1|]. split; [exact H2|].
  destruct (analyze_file_parse_failed timeout_env "/tmp/tmpab12.tsx" H1 H2)
    as [msg [Ha [Hc _]]].
  exists msg. split; [exact Ha|exact Hc].
Defined.


(* ================================================================== *)
(** ** Scenario A: the incomplete [setSystemTime] call *)
(* ================================================================== *)

(** C1 (the code at the scenario line): the line ends with [");"] once
    stripped, so the detector reports no [INCOMPLETE_CALL], the handler
    returns no edit even when it is handed that diagnostic, and the
    pipeline leaves the text as it is with no edit applied, whether the
    external parser failed or accepted the text. *)
Theorem scenario_A_emits_no_edit :
  Py.endswith ");" (Py.strip scenario_A) = true
  /\ (forall analysis, detect_specific_errors analysis scenario_A = [])
  /\ (forall error line_num, _fix_incomplete_call error scenario_A line_num = None)
  /\ (forall valid nodes t ft,
        generate_fixes (mkASTAnalysis valid [incomplete_call_diagnostic] nodes t ft)
                       scenario_A = Return [])
  /\ (forall valid nodes t ft,
        let analysis := mkASTAnalysis valid [] nodes t ft in
        fix_content
          (mkASTAnalysis valid (detect_specific_errors analysis scenario_A) nodes t ft)
          scenario_A = Return (unchanged scenario_A))
  /\ (do analysis <- analyze_with_content timeout_env "a.test.tsx" scenario_A;
      fix_content analysis scenario_A) = Return (unchanged scenario_A)
  /\ (do analysis <- analyze_with_content accepting_parser "a.test.tsx" scenario_A;
      fix_content analysis scenario_A) = Return (unchanged scenario_A).
Proof.
  split; [reflexivity|]. split; [reflexivity|]. split; [reflexivity|].
  split; [reflexivity|]. split; [reflexivity|]. split; reflexivity.
Qed.

(** With a trailing comment the same call is detected and completed. *)
Example scenario_A_with_comment :
  let content := scenario_A ++ "  // Missing closing parenthesis" in
  exists fx r,
    generate_fixes
      (mkASTAnalysis false
         (detect_specific_errors (mkASTAnalysis false [] [] (0 # 1)%Q "tsx") content)
         [] (0 # 1)%Q "tsx") content = Return [fx]
    /\ fix_type fx = "call_completion"
    /\ confidence fx = (95 # 100)%Q
    /\ apply_fixes content [fx] = Return r
    /\ fixed_content r
       = "setSystemTime(new Date(2023, 0, 1));  // Missing closing parenthesis".
Proof.
  eexists. eexists. split; [vm_compute; reflexivity|].
  split; [reflexivity|]. split; [reflexivity|].
  split; [vm_compute; reflexivity|]. reflexivity.
Qed.

(* ================================================================== *)
(** ** The aggregate confidence *)
(* ================================================================== *)

Lemma Qltb_lt (x y : Q) : Qltb x y = true <-> (x < y)%Q.
Proof.
  unfold Qltb. rewrite negb_true_iff. split; intros H.
  - apply Qnot_le_lt. intros Hle. apply Qle_bool_iff in Hle. congruence.
  - destruct (Qle_bool y x) eqn:E; [|reflexivity].
    apply Qle_bool_iff in E. exfalso. apply (Qlt_not_le _ _ H E).
Qed.

Lemma Qltb_ge (x y : Q) : Qltb x y = false <-> (y <= x)%Q.
Proof.
  unfold Qltb. rewrite negb_false_iff. apply Qle_bool_iff.
Qed.

(* ------------------------------------------------------------------ *)
(** *** Binary64: signs *)
(* ------------------------------------------------------------------ *)

Lemma round_pos_nonneg (n d : Z) :
  (0 < n)%Z -> (0 < d)%Z -> (0 <= Binary64.round_pos n d)%Q.
Proof.
  intros Hn Hd. unfold Binary64.round_pos.
  set (ulp := Z.max (Binary64.exponent n d - 52) (-1074)).
  set (sn := if (0 <=? ulp)%Z then n else (n * 2 ^ (- ulp))%Z).
  set (sd := if (0 <=? ulp)%Z then (d * 2 ^ ulp)%Z else d).
  assert (Hsn : (0 <= sn)%Z).
  { subst sn. destruct (Z.leb_spec 0 ulp); [lia|].
    apply Z.mul_nonneg_nonneg; [lia|]. apply Z.pow_nonneg. lia. }
  assert (Hsd : (0 < sd)%Z).
  { subst sd. destruct (Z.leb_spec 0 ulp); [|lia].
    apply Z.mul_pos_pos; [lia|]. apply Z.pow_pos_nonneg; lia. }
  assert (Hm : (0 <= sn / sd)%Z) by (apply Z.div_pos; lia).
  set (m' := match (2 * (sn mod sd) ?= sd)%Z with
             | Eq => if Z.even (sn / sd) then (sn / sd)%Z else (sn / sd + 1)%Z
             | Lt => (sn / sd)%Z
             | Gt => (sn / sd + 1)%Z
             end).
  assert (Hm' : (0 <= m')%Z).
  { subst m'. destruct (2 * (sn mod sd) ?= sd)%Z; [|lia|lia].
    destruct (Z.even (sn / sd)); lia. }
  destruct (Z.leb_spec 0 ulp).
  - change 0%Q with (inject_Z 0). rewrite <- Zle_Qle.
    apply Z.mul_nonneg_nonneg; [exact Hm'|]. apply Z.pow_nonneg. lia.
  - rewrite Qred_correct. unfold Qle. cbn. lia.
Qed.

Lemma round64_nonneg (q : Q) : (0 <= q)%Q -> (0 <= Binary64.round64 q)%Q.
Proof.
  intros H. unfold Binary64.round64. destruct q as [n d]. cbn [Qnum Qden].
  destruct n as [|n|n].
  - discriminate.
  - apply round_pos_nonneg; reflexivity.
  - exfalso. unfold Qle in H. cbn in H. lia.
Qed.

Lemma binary64_add_nonneg (x y : Q) :
  (0 <= x)%Q -> (0 <= y)%Q -> (0 <= Binary64.add x y)%Q.
Proof.
  intros Hx Hy. unfold Binary64.add. apply round64_nonneg.
  apply round64_nonneg in Hx. apply round64_nonneg in Hy. lra.
Qed.

Lemma binary64_mul_nonneg (x y : Q) :
  (0 <= x)%Q -> (0 <= y)%Q -> (0 <= Binary64.mul x y)%Q.
Proof.
  intros Hx Hy. unfold Binary64.mul. apply round64_nonneg.
  apply Qmult_le_0_compat; now apply round64_nonneg.
Qed.

Lemma clamp01_bounds (x : Q) : (0 <= clamp01 x)%Q /\ (clamp01 x <= 1)%Q.
Proof.
  unfold clamp01, py_max, py_min.
  destruct (Qltb x 1) eqn:E1.
  - destruct (Qltb 0 x) eqn:E0.
    + apply Qltb_lt in E1. apply Qltb_lt in E0.
      split; apply Qlt_le_weak; assumption.
    + split; [apply Qle_refl|discriminate].
  - destruct (Qltb 0 1) eqn:E0; split; try apply Qle_refl; discriminate.
Qed.

Lemma clamp01_Qeq (x y : Q) : (x == y)%Q -> (clamp01 x == clamp01 y)%Q.
Proof.
  intros H. unfold clamp01, py_max, py_min.
  assert (E1 : Qltb x 1 = Qltb y 1).
  { unfold Qltb. f_equal.
    destruct (Qle_bool 1 x) eqn:Ex, (Qle_bool 1 y) eqn:Ey; try reflexivity.
    - apply Qle_bool_iff in Ex. rewrite H in Ex. apply Qle_bool_iff in Ex. congruence.
    - apply Qle_bool_iff in Ey. rewrite <- H in Ey. apply Qle_bool_iff in Ey. congruence. }
  rewrite E1. destruct (Qltb y 1); [|reflexivity].
  assert (E0 : Qltb 0 x = Qltb 0 y).
  { unfold Qltb. f_equal.
    destruct (Qle_bool x 0) eqn:Ex, (Qle_bool y 0) eqn:Ey; try reflexivity.
    - apply Qle_bool_iff in Ex. rewrite H in Ex. apply Qle_bool_iff in Ex. congruence.
    - apply Qle_bool_iff in Ey. rewrite <- H in Ey. apply Qle_bool_iff in Ey. congruence. }
  rewrite E0. destruct (Qltb 0 y); [exact H|reflexivity].
Qed.

Lemma _calculate_confidence_bounds
    (original fixed : string) (fixes : list string)
    (ast_analysis : option ASTAnalysis) (manual_review : bool)
    (errors : list string) :
  (0 <= _calculate_confidence original fixed fixes ast_analysis manual_review errors)%Q
  /\ (_calculate_confidence original fixed fixes ast_analysis manual_review errors <= 1)%Q.
Proof.
  destruct fixes as [|f fixes].
  - unfold _calculate_confidence.
    destruct (String.eqb original fixed); split; discriminate.
  - apply clamp01_bounds.
Qed.

(** C2, as stated, fails: with eleven edits and nothing else to deduct the
    code returns 0.8, where the cumulative penalties of the claim give
    0.75. *)
Lemma _calculate_confidence_counterexample :
  (_calculate_confidence "a" "b" eleven_fixes None false [] == 8 # 10)%Q
  /\ (cumulative_confidence (List.length eleven_fixes) (validity None) false 0
      == 75 # 100)%Q
  /\ ~ (_calculate_confidence "a" "b" eleven_fixes None false []
        == cumulative_confidence (List.length eleven_fixes) (validity None) false
             (List.length (@nil string)))%Q.
Proof.
  split; [reflexivity|]. split; [reflexivity|]. intros H. vm_compute in H.
  discriminate.
Qed.

(** C2, amended: for a non-empty fix list the aggregate confidence is the
    clamp to [0,1] of 0.9, minus 0.2 if manual review was flagged, minus
    0.1 per remaining error, minus a single size penalty (0.1 when there
    are more than ten edits, otherwise 0.05 when there are more than
    five), plus 0.1 if the analysis passed in reports validity; and for
    every input the result lies in [0,1]. *)
Theorem _calculate_confidence_spec
    (original fixed : string) (fixes : list string)
    (ast_analysis : option ASTAnalysis) (manual_review : bool)
    (errors : list string) :
  (fixes <> [] ->
   (_calculate_confidence original fixed fixes ast_analysis manual_review errors
    == exclusive_confidence (List.length fixes) (validity ast_analysis)
         manual_review (List.length errors))%Q)
  /\ (0 <= _calculate_confidence original fixed fixes ast_analysis manual_review errors)%Q
  /\ (_calculate_confidence original fixed fixes ast_analysis manual_review errors <= 1)%Q.
Proof.
  split.
  - intros Hne. destruct fixes as [|f fixes]; [congruence|].
    unfold _calculate_confidence, exclusive_confidence, size_penalty.
    fold (clamp01). apply clamp01_Qeq.
    set (n := List.length (f :: fixes)).
    destruct (10 <? n)%nat, (5 <? n)%nat, manual_review, errors as [|e errors],
      ast_analysis as [[[] ? ? ? ?]|];
      unfold flag, validity, Py.len; cbn [is_valid List.length];
      try (set (k := inject_Z (Z.of_nat (S (List.length errors))))); ring.
  - apply _calculate_confidence_bounds.
Qed.

Lemma _calculate_confidence_spec_witness :
  eleven_fixes <> []
  /\ (_calculate_confidence "a" "b" eleven_fixes None true ["e1"; "e2"]
      == exclusive_confidence 11 false true 2)%Q
  /\ (exclusive_confidence 11 false true 2 == 4 # 10)%Q.
Proof.
  assert (H : eleven_fixes <> []) by discriminate.
  split; [exact H|]. split; [|reflexivity].
  exact (proj1 (_calculate_confidence_spec "a" "b" eleven_fixes None true
                  ["e1"; "e2"]) H).
Defined.

(* ================================================================== *)
(** ** Scenario B: a missing member on a line that holds a cast *)
(* ================================================================== *)

(** C6, as stated, fails: the line holds [as any] and the diagnostic is a
    missing member, yet the handler emits an edit, of type [import_fix]. *)
Lemma _fix_property_not_exist_counterexample :
  Py.contains "as any" cast_line = true
  /\ TypeFixGenerator.code missing_getByText = 2339%Z
  /\ TypeFixGenerator._fix_property_not_exist missing_getByText cast_line
     = Some (TypeFixGenerator.mkTypeFix 3 8 "import_fix"
               "screen.getByText(label as any);"
               "screen.getByText(label as any);"
               "Valid screen query 'getByText' - ensure proper imports"
               (9 # 10)%Q (Some "screen_query")).
Proof.
  split; [reflexivity|]. split; reflexivity.
Qed.

(** C6, amended: for a missing-member diagnostic whose line already holds
    [as any], the generator never emits a cast.  On a line that mentions
    [mockReturnValue] or [mockImplementation] it emits nothing; otherwise
    the only edit it can emit is the [import_fix] of a valid screen query,
    which leaves the stripped line as it is. *)
Theorem _create_fix_for_diagnostic_no_double_cast
    (h : TypeFixGenerator.other_handlers)
    (diagnostic : TypeFixGenerator.TypeDiagnostic) (line0 : string) :
  TypeFixGenerator.code diagnostic = 2339%Z ->
  Py.contains "as any" line0 = true ->
  (Py.contains "mockReturnValue" line0 || Py.contains "mockImplementation" line0 = true ->
   TypeFixGenerator._create_fix_for_diagnostic h diagnostic line0 = None)
  /\ (forall fx,
        TypeFixGenerator._create_fix_for_diagnostic h diagnostic line0 = Some fx ->
        TypeFixGenerator.fix_type fx = "import_fix"
        /\ TypeFixGenerator.fix_type fx <> "type_assertion"
        /\ TypeFixGenerator.old_text fx = Py.strip line0
        /\ TypeFixGenerator.new_text fx = Py.strip line0
        /\ Py.contains "screen." line0 = true).
Proof.
  intros Hcode Hcast.
  unfold TypeFixGenerator._create_fix_for_diagnostic. rewrite Hcode.
  cbn [Z.eqb Pos.eqb]. unfold TypeFixGenerator._fix_property_not_exist.
  rewrite Hcast. cbn [negb].
  destruct (TypeFixGenerator.search_property
              (TypeFixGenerator.diag_message diagnostic)) as [property_name|].
  - destruct (Py.contains "mockReturnValue" line0
              || Py.contains "mockImplementation" line0).
    + split; [reflexivity|]. intros fx H. discriminate.
    + split; [discriminate|]. intros fx H.
      destruct (Py.contains "screen." line0); [|discriminate]. cbn [andb] in H.
      destruct (Py.startswith "getBy" property_name); [|discriminate].
      destruct (existsb (String.eqb property_name) TypeFixGenerator.valid_queries);
        [|discriminate].
      inversion H; subst. cbn.
      repeat split; try reflexivity. discriminate.
  - split; [reflexivity|]. intros fx H. discriminate.
Qed.

Lemma _create_fix_for_diagnostic_no_double_cast_witness :
  TypeFixGenerator.code missing_mockReturnValue = 2339%Z
  /\ Py.contains "as any" "  fn.mockReturnValue(1 as any);" = true
  /\ TypeFixGenerator._create_fix_for_diagnostic no_other_handler
       missing_mockReturnValue "  fn.mockReturnValue(1 as any);" = None.
Proof.
  assert (H1 : TypeFixGenerator.code missing_mockReturnValue = 2339%Z) by reflexivity.
  assert (H2 : Py.contains "as any" "  fn.mockReturnValue(1 as any);" = true)
    by reflexivity.
  split; [exact H1|]. split; [exact H2|].
  apply (proj1 (_create_fix_for_diagnostic_no_double_cast no_other_handler
                  missing_mockReturnValue "  fn.mockReturnValue(1 as any);" H1 H2)).
  reflexivity.
Defined.

(* ================================================================== *)
(** ** The ranking of candidate fixes *)
(* ================================================================== *)

Lemma insert_desc_permutation {A : Type} (lt : A -> A -> bool) (x : A) (l : list A) :
  Permutation (insert_desc lt x l) (x :: l).
Proof.
  induction l as [|y l IH]; simpl; [apply Permutation_refl|].
  destruct (lt x y); [|apply Permutation_refl].
  eapply Permutation_trans; [apply perm_skip; exact IH|apply perm_swap].
Qed.

Lemma sort_desc_permutation {A : Type} (lt : A -> A -> bool) (l : list A) :
  Permutation (sort_desc lt l) l.
Proof.
  induction l as [|x l IH]; simpl; [constructor|].
  eapply Permutation_trans; [apply insert_desc_permutation|].
  now apply perm_skip.
Qed.

Section SortByKey.
Context {A : Type}.
Variable key : A -> Q.

Lemma insert_desc_sorted (x : A) (l : list A) :
  StronglySorted (ranks_before key) l ->
  StronglySorted (ranks_before key) (insert_desc (key_lt key) x l).
Proof.
  induction l as [|y l IH]; simpl; intros Hs.
  - constructor; constructor.
  - inversion Hs as [|? ? Hl Hy]; subst.
    destruct (key_lt key x y) eqn:E.
    + constructor; [now apply IH|].
      apply Qltb_lt in E.
      eapply Permutation_Forall; [apply Permutation_sym, insert_desc_permutation|].
      constructor; [|exact Hy]. now apply Qlt_le_weak.
    + apply Qltb_ge in E. constructor; [exact Hs|].
      constructor; [exact E|].
      eapply Forall_impl; [|exact Hy]. intros z Hz. unfold ranks_before in *.
      eapply Qle_trans; eassumption.
Qed.

Lemma sort_desc_sorted (l : list A) :
  StronglySorted (ranks_before key) (sort_desc (key_lt key) l).
Proof.
  induction l as [|x l IH]; simpl; [constructor|].
  now apply insert_desc_sorted.
Qed.

Lemma insert_desc_stable (k : Q) (x : A) (l : list A) :
  filter (with_key key k) (insert_desc (key_lt key) x l) = filter (with_key key k) (x :: l).
Proof.
  induction l as [|y l IH]; [reflexivity|].
  cbn [insert_desc]. destruct (key_lt key x y) eqn:E; [|reflexivity].
  cbn [filter] in *. rewrite IH.
  destruct (with_key key k x) eqn:Ex; [|reflexivity].
  destruct (with_key key k y) eqn:Ey; [|reflexivity].
  exfalso. unfold with_key in *.
  apply Qeq_bool_iff in Ex. apply Qeq_bool_iff in Ey. apply Qltb_lt in E.
  rewrite Ex, Ey in E. exact (Qlt_irrefl _ E).
Qed.

Lemma sort_desc_stable (k : Q) (l : list A) :
  filter (with_key key k) (sort_desc (key_lt key) l) = filter (with_key key k) l.
Proof.
  induction l as [|x l IH]; [reflexivity|].
  cbn [sort_desc]. rewrite insert_desc_stable. cbn [filter]. now rewrite IH.
Qed.

End SortByKey.

Lemma map_outcome_returns {A B : Type} (f : A -> outcome B) (l : list A) :
  Forall (fun a => exists b, f a = Return b) l ->
  exists bs, map_outcome f l = Return bs.
Proof.
  induction 1 as [|a l [b Hb] _ [bs Hbs]]; simpl; [eauto|].
  rewrite Hb, Hbs. simpl. eauto.
Qed.

Lemma map_outcome_Forall2 {A B : Type} (f : A -> outcome B) (l : list A) :
  forall bs, map_outcome f l = Return bs ->
  Forall2 (fun a b => f a = Return b) l bs.
Proof.
  induction l as [|a l IH]; cbn [map_outcome]; intros bs H.
  - inversion H. constructor.
  - destruct (f a) as [b|] eqn:E; [|discriminate]. cbn [bind] in H.
    destruct (map_outcome f l) as [bs'|]; [|discriminate]. cbn [bind] in H.
    inversion H; subst. constructor; auto.
Qed.

(** C7: the engine returns one candidate for each available fix, built
    from that fix, and it returns them sorted in descending order of the
    float [confidence * 0.7 + context_match * 0.3]; candidates for which
    this float is the same keep their discovery order.  It returns
    whenever every available fix has a [fix_type]. *)
Theorem suggest_contextual_fixes_ranked
    (e : MLContextEngine.engine) (code file_path : string)
    (available_fixes : list MLContextEngine.FixDict) :
  let context := MLContextEngine.analyze_context e code file_path in
  let key := fun x =>
    Binary64.add (Binary64.mul (MLContextEngine.confidence x) (7 # 10))
                 (Binary64.mul (MLContextEngine.context_match x) (3 # 10)) in
  (Forall has_fix_type available_fixes ->
   exists ranked,
     MLContextEngine.suggest_contextual_fixes e code file_path available_fixes
     = Return ranked)
  /\ (forall ranked,
        MLContextEngine.suggest_contextual_fixes e code file_path available_fixes
        = Return ranked ->
        exists candidates,
          Forall2
            (fun fx c =>
               MLContextEngine.fd_fix_type fx = Some (MLContextEngine.fix_type c)
               /\ MLContextEngine.line c = get (MLContextEngine.fd_line fx) 1%Z
               /\ MLContextEngine.column c = get (MLContextEngine.fd_column fx) 1%Z
               /\ MLContextEngine.old_text c
                  = get (MLContextEngine.fd_old_text fx) EmptyString
               /\ MLContextEngine.new_text c
                  = get (MLContextEngine.fd_new_text fx) EmptyString
               /\ MLContextEngine.description c
                  = get (MLContextEngine.fd_description fx) EmptyString
               /\ MLContextEngine.confidence c
                  = MLContextEngine._get_ml_confidence e fx context code
               /\ MLContextEngine.context_match c
                  = MLContextEngine._calculate_context_match fx context
               /\ MLContextEngine.similar_patterns c
                  = MLContextEngine._find_similar_patterns e code
                      (MLContextEngine.fix_type c))
            available_fixes candidates
          /\ Permutation ranked candidates
          /\ StronglySorted (fun x y => (key y <= key x)%Q) ranked
          /\ (forall k : Q,
                filter (fun x => Qeq_bool (key x) k) ranked
                = filter (fun x => Qeq_bool (key x) k) candidates)).
Proof.
  intros context key. unfold MLContextEngine.suggest_contextual_fixes.
  fold context. split.
  - intros Hall.
    destruct (map_outcome_returns
                (MLContextEngine.contextual_fix e context code)
                available_fixes) as [cs Hcs].
    + eapply Forall_impl; [|exact Hall]. intros fx Hfx.
      unfold MLContextEngine.contextual_fix, has_fix_type in *.
      destruct (MLContextEngine.fd_fix_type fx); [|congruence]. simpl. eauto.
    + rewrite Hcs. simpl. eauto.
  - intros ranked H.
    destruct (map_outcome _ available_fixes) as [cs|] eqn:Hcs; [|discriminate].
    cbn [bind] in H. inversion H; subst. exists cs. split.
    { apply map_outcome_Forall2 in Hcs.
      eapply Forall2_impl; [|exact Hcs]. intros fx c Hc.
      unfold MLContextEngine.contextual_fix in Hc.
      destruct (MLContextEngine.fd_fix_type fx) as [t|]; [|discriminate].
      cbn [item bind] in Hc. inversion Hc; subst c. cbn.
      repeat split; reflexivity. }
    split; [apply sort_desc_permutation|].
    split; [apply (sort_desc_sorted key)|].
    intros k. apply (sort_desc_stable key).
Qed.

(* ================================================================== *)
(** ** The success flag and the batch statistics *)
(* ================================================================== *)

Lemma tally_same_counts (env : fixer_env) (dry_run : bool) (files : list string) :
  forall t t', same_counts t t' ->
  same_counts (fold_left (tally_step env dry_run) files t)
              (fold_left (tally_step env dry_run) files t').
Proof.
  induction files as [|f files IH]; intros t t' H; [exact H|].
  cbn [fold_left]. apply IH.
  destruct H as [H1 [H2 [H3 H4]]]. unfold tally_step, same_counts.
  destruct (ng_success (process_file env f dry_run)); cbn;
    rewrite ?H1, ?H2, ?H3, ?H4; repeat split; reflexivity.
Qed.

Lemma tally_skip_unfixed (env : fixer_env) (dry_run : bool)
    (l1 l2 : list string) (f : string) (t : tally) :
  ng_success (process_file env f dry_run) = false ->
  same_counts (fold_left (tally_step env dry_run) (l1 ++ f :: l2)%list t)
              (fold_left (tally_step env dry_run) (l1 ++ l2)%list t).
Proof.
  intros Hf. rewrite !fold_left_app. cbn [fold_left].
  apply tally_same_counts. unfold tally_step at 1. rewrite Hf.
  repeat split; reflexivity.
Qed.

Lemma process_file_confidence_nonneg (env : fixer_env) (f : string) (dry_run : bool) :
  (0 <= confidence_score (process_file env f dry_run))%Q.
Proof.
  unfold process_file.
  destruct (read_file env f); [|discriminate].
  match goal with |- context [match ?w with Return _ => _ | Raise _ => _ end] =>
    destruct w end; [|discriminate].
  cbn [confidence_score]. apply _calculate_confidence_bounds.
Qed.

Lemma tally_confidence_nonneg (env : fixer_env) (dry_run : bool) (files : list string) :
  forall t, (0 <= t_total_confidence t)%Q ->
  (0 <= t_total_confidence (fold_left (tally_step env dry_run) files t))%Q.
Proof.
  induction files as [|f files IH]; intros t H; [exact H|].
  cbn [fold_left]. apply IH. unfold tally_step.
  destruct (ng_success (process_file env f dry_run)); cbn; [|exact H].
  pose proof (process_file_confidence_nonneg env f dry_run) as Hc.
  rewrite <- (Qplus_0_r 0). now apply Qplus_le_compat.
Qed.

Lemma tally_empty (env : fixer_env) (dry_run : bool) (t : tally) :
  fold_left (tally_step env dry_run) [] t = t.
Proof. reflexivity. Qed.

Lemma inject_nat_pos (n : nat) : (0 < inject_Z (Z.of_nat (S n)))%Q.
Proof.
  change 0%Q with (inject_Z 0). rewrite <- Zlt_Qlt. lia.
Qed.

(** One more file in the denominator lowers an average. *)
Lemma per_file_more_files (x : Q) (l1 l2 : list string) (f : string) :
  (0 <= x)%Q ->
  ((l1 ++ l2)%list = [] -> x = (0 # 1)%Q) ->
  (per_file x (l1 ++ f :: l2) <= per_file x (l1 ++ l2))%Q
  /\ ((0 < x)%Q -> (per_file x (l1 ++ f :: l2) < per_file x (l1 ++ l2))%Q).
Proof.
  intros Hx Hempty. unfold per_file, Py.len.
  destruct (l1 ++ f :: l2)%list as [|a l] eqn:E; [destruct l1; discriminate|].
  assert (Hlen : List.length (a :: l) = S (List.length (l1 ++ l2)%list)).
  { rewrite <- E, !length_app. simpl. lia. }
  rewrite Hlen.
  destruct (l1 ++ l2)%list as [|b l'] eqn:E'.
  - rewrite (Hempty eq_refl). split; [discriminate|]. intros H. discriminate.
  - set (n := List.length (b :: l')).
    assert (Hn : (0 < inject_Z (Z.of_nat n))%Q) by apply inject_nat_pos.
    assert (Hn1 : (0 < inject_Z (Z.of_nat (S n)))%Q) by apply inject_nat_pos.
    assert (Hinv : (/ inject_Z (Z.of_nat (S n)) < / inject_Z (Z.of_nat n))%Q).
    { apply -> Qinv_lt_contravar; try assumption. rewrite <- Zlt_Qlt. lia. }
    unfold Qdiv. split.
    + apply Qle_lt_or_eq in Hx. destruct Hx as [Hx|Hx].
      * apply Qlt_le_weak. now apply Qmult_lt_l.
      * rewrite <- Hx. rewrite !Qmult_0_l. apply Qle_refl.
    + intros Hpos. now apply Qmult_lt_l.
Qed.

Lemma per_file_pos (x : Q) (files : list string) :
  (0 < per_file x files)%Q -> (0 < x)%Q.
Proof.
  unfold per_file, Py.len. destruct files as [|f files]; [discriminate|].
  intros H. set (n := List.length (f :: files)) in *.
  assert (Hn : (0 < inject_Z (Z.of_nat n))%Q) by apply inject_nat_pos.
  assert (Hx : (x == inject_Z (Z.of_nat n) * (x / inject_Z (Z.of_nat n)))%Q).
  { symmetry. apply Qmult_div_r. intros E.
    apply (Qlt_not_eq _ _ Hn). symmetry. exact E. }
  rewrite Hx. rewrite <- (Qmult_0_r (inject_Z (Z.of_nat n))).
  now apply Qmult_lt_l.
Qed.

(** What [process_file] returns for a file that no engine changes. *)
Lemma process_file_clean
    (env : fixer_env) (dry_run : bool) (file_path content : string)
    (analysis : ASTAnalysis) (er : EnhancedFixResult) :
  read_file env file_path = Return content ->
  analyze_with_content (parser_for env content) file_path content = Return analysis ->
  generate_fixes analysis content = Return [] ->
  enhanced_fix_file env (file_path ++ ".temp") content = Return er ->
  changes_made er = [] ->
  process_file env file_path dry_run
  = {| ng_success := false;
       ng_file_path := file_path;
       original_content := content;
       ng_fixed_content := content;
       total_fixes := 0;
       confidence_score := (1 # 1)%Q;
       processing_time := file_time env file_path;
       fixes_by_engine := [];
       ast_analysis := Some analysis;
       manual_review_needed := false;
       ng_errors_remaining := [] |}.
Proof.
  intros Hread Han Hgen Henh Hch.
  unfold process_file. rewrite Hread.
  unfold phase1. cbn [current_content]. rewrite Han, Hgen. cbn [bind].
  unfold phase2. cbn [current_content]. rewrite Henh, Hch.
  unfold phase3. cbn [all_fixes List.length Nat.ltb Nat.leb andb current_content].
  rewrite String.eqb_refl. cbn [negb andb].
  unfold _calculate_confidence. cbn [all_fixes current_content].
  rewrite String.eqb_refl. rewrite andb_false_r. reflexivity.
Qed.

(** C9: the success flag of [process_file] is true exactly when at least
    one fix was applied.  A file that no engine changes gets
    [success = false] (with no fix and confidence 1); and in
    [process_directory] a file whose flag is false is left out of
    [files_fixed] while it counts in [total_files], so that [success_rate]
    and [average_confidence] are not higher with it than without it, and
    are strictly lower as soon as they were positive. *)
Theorem process_file_success_flag (env : fixer_env) (dry_run : bool) :
  (forall file_path,
     ng_success (process_file env file_path dry_run) = true
     <-> 0 < total_fixes (process_file env file_path dry_run))
  /\ (forall file_path content analysis er,
        read_file env file_path = Return content ->
        analyze_with_content (parser_for env content) file_path content
        = Return analysis ->
        generate_fixes analysis content = Return [] ->
        enhanced_fix_file env (file_path ++ ".temp") content = Return er ->
        changes_made er = [] ->
        ng_success (process_file env file_path dry_run) = false
        /\ total_fixes (process_file env file_path dry_run) = 0
        /\ ng_fixed_content (process_file env file_path dry_run) = content)
  /\ (forall l1 f l2,
        ng_success (process_file env f dry_run) = false ->
        let b := process_directory env (l1 ++ f :: l2) dry_run in
        let b0 := process_directory env (l1 ++ l2) dry_run in
        files_fixed b = files_fixed b0
        /\ total_files b = S (total_files b0)
        /\ files_processed b = total_files b
        /\ (success_rate b <= success_rate b0)%Q
        /\ (0 < files_fixed b0 -> (success_rate b < success_rate b0)%Q)
        /\ (average_confidence b <= average_confidence b0)%Q
        /\ ((0 < average_confidence b0)%Q ->
            (average_confidence b < average_confidence b0)%Q)).
Proof.
  split; [|split].
  - intros file_path. unfold process_file, critical_error.
    destruct (read_file env file_path);
      [|cbn [ng_success total_fixes]; split; [discriminate|lia]].
    match goal with |- context [match ?w with Return _ => _ | Raise _ => _ end] =>
      destruct w end; cbn [ng_success total_fixes];
      [apply Nat.ltb_lt|split; [discriminate|lia]].
  - intros file_path content analysis er H1 H2 H3 H4 H5.
    rewrite (process_file_clean env dry_run file_path content analysis er H1 H2 H3 H4 H5).
    repeat split; reflexivity.
  - intros l1 f l2 Hf b b0.
    set (t0 := mkTally [] [] 0 (0 # 1)%Q 0).
    pose proof (tally_skip_unfixed env dry_run l1 l2 f t0 Hf) as [_ [_ [Hc Hk]]].
    assert (Hempty : (l1 ++ l2)%list = [] ->
                     fold_left (tally_step env dry_run) (l1 ++ l2)%list t0 = t0)
      by (intros ->; reflexivity).
    assert (Hlen : forall files t,
               List.length (t_results (fold_left (tally_step env dry_run) files t))
               = List.length (t_results t) + List.length files).
    { induction files as [|x files IH]; intros t; cbn [fold_left List.length]; [lia|].
      rewrite IH. unfold tally_step.
      destruct (ng_success (process_file env x dry_run)); cbn [t_results];
        rewrite length_app; simpl; lia. }
    subst b b0. unfold process_directory.
    cbn [files_fixed total_files files_processed success_rate average_confidence].
    fold t0. rewrite Hc, Hk.
    split; [reflexivity|]. split; [rewrite !length_app; simpl; lia|].
    split; [rewrite Hlen; reflexivity|].
    set (t := fold_left (tally_step env dry_run) (l1 ++ l2)%list t0) in *.
    assert (Hkp : (0 <= inject_Z (Z.of_nat (t_files_fixed t)))%Q).
    { change 0%Q with (inject_Z 0). rewrite <- Zle_Qle. lia. }
    assert (Hcp : (0 <= t_total_confidence t)%Q)
      by (apply tally_confidence_nonneg; discriminate).
    destruct (per_file_more_files (inject_Z (Z.of_nat (t_files_fixed t))) l1 l2 f Hkp)
      as [Hs1 Hs2].
    { intros E. subst t. rewrite (Hempty E). reflexivity. }
    destruct (per_file_more_files (t_total_confidence t) l1 l2 f Hcp) as [Ha1 Ha2].
    { intros E. subst t. rewrite (Hempty E). reflexivity. }
    split; [exact Hs1|]. split.
    + intros Hpos. apply Hs2. change 0%Q with (inject_Z 0).
      rewrite <- Zlt_Qlt. lia.
    + split; [exact Ha1|]. intros Hpos. apply Ha2.
      eapply per_file_pos. exact Hpos.
Qed.

Example demo_fixed_file :
  ng_success (process_file demo_env "fixed.test.tsx" true) = true
  /\ ng_fixed_content (process_file demo_env "fixed.test.tsx" true) = "expect(render(x));"
  /\ total_fixes (process_file demo_env "fixed.test.tsx" true) = 1.
Proof. split; [|split]; vm_compute; reflexivity. Qed.

Lemma process_file_success_flag_witness :
  ng_success (process_file demo_env "clean.test.tsx" true) = false
  /\ (let b := process_directory demo_env
                 (["fixed.test.tsx"] ++ "clean.test.tsx" :: []) true in
      let b0 := process_directory demo_env (["fixed.test.tsx"] ++ []) true in
      files_fixed b = 1 /\ total_files b = 2
      /\ 0 < files_fixed b0
      /\ (success_rate b < success_rate b0)%Q
      /\ (average_confidence b <= average_confidence b0)%Q).
Proof.
  assert (Hclean : ng_success (process_file demo_env "clean.test.tsx" true) = false).
  { refine (proj1 (proj1 (proj2 (process_file_success_flag demo_env true))
                     "clean.test.tsx" "const a = 1;" _ _
                     eq_refl eq_refl eq_refl eq_refl eq_refl)). }
  split; [exact Hclean|].
  pose proof (proj2 (proj2 (process_file_success_flag demo_env true))
                ["fixed.test.tsx"] "clean.test.tsx" [] Hclean)
    as [H1 [H2 [_ [_ [H5 [H6 _]]]]]].
  assert (Hpos : 0 < files_fixed (process_directory demo_env
                                    (["fixed.test.tsx"] ++ []) true))
    by (vm_compute; lia).
  split; [rewrite H1; vm_compute; reflexivity|].
  split; [rewrite H2; vm_compute; reflexivity|].
  split; [exact Hpos|]. split; [exact (H5 Hpos)|exact H6].
Defined.

Example demo_ranking :
  exists ranked,
    MLContextEngine.suggest_contextual_fixes demo_engine "code" "a.test.tsx"
      demo_candidates = Return ranked
    /\ map MLContextEngine.description ranked = ["second"; "third"; "first"; "fourth"].
Proof. eexists. split; [vm_compute; reflexivity|reflexivity]. Qed.

(** With a classifier confidence of 0.5 the two candidates of
    [rounding_engine] have the same key, the float [0.41], and keep their
    discovery order. *)
Example rounding_tie :
  exists ranked,
    MLContextEngine.suggest_contextual_fixes (rounding_engine (1 # 2)) "code"
      "a.test.tsx" [by_patterns; by_test_type] = Return ranked
    /\ map MLContextEngine.description ranked = ["by patterns"; "by test type"]
    /\ Forall (fun x => (MLContextEngine.ranking_key x
                         == Binary64.round64 (41 # 100))%Q) ranked.
Proof.
  eexists. split; [vm_compute; reflexivity|]. split; [reflexivity|].
  repeat constructor; vm_compute; reflexivity.
Qed.

(** With a classifier confidence of 0.75 the context match of the first
    candidate is the float [0.3 * (2 / 3)], just below [0.2], and its key
    is just below that of the second: the second comes first. *)
Lemma suggest_contextual_fixes_ranked_witness :
  Forall has_fix_type [by_patterns; by_test_type]
  /\ exists ranked,
       MLContextEngine.suggest_contextual_fixes (rounding_engine (3 # 4)) "code"
         "a.test.tsx" [by_patterns; by_test_type] = Return ranked
       /\ map MLContextEngine.description ranked = ["by test type"; "by patterns"]
       /\ StronglySorted
            (fun x y =>
               (Binary64.add (Binary64.mul (MLContextEngine.confidence y) (7 # 10))
                             (Binary64.mul (MLContextEngine.context_match y) (3 # 10))
                <= Binary64.add (Binary64.mul (MLContextEngine.confidence x) (7 # 10))
                                (Binary64.mul (MLContextEngine.context_match x) (3 # 10)))%Q)
            ranked.
Proof.
  assert (Hall : Forall has_fix_type [by_patterns; by_test_type])
    by (repeat constructor; discriminate).
  split; [exact Hall|].
  destruct (MLContextEngine.suggest_contextual_fixes (rounding_engine (3 # 4))
              "code" "a.test.tsx" [by_patterns; by_test_type]) as [ranked|x] eqn:H;
    [|vm_compute in H; discriminate H].
  exists ranked. split; [reflexivity|].
  destruct (proj2 (suggest_contextual_fixes_ranked (rounding_engine (3 # 4)) "code"
                     "a.test.tsx" [by_patterns; by_test_type]) ranked H)
    as (cs & _ & _ & Hs & _).
  split; [|exact Hs].
  vm_compute in H. injection H as <-. reflexivity.
Defined.

(* ================================================================== *)
(** ** Every generated edit is a single line *)
(* ================================================================== *)

Lemma count_char_take_le (c : ascii) (n : nat) (s : string) :
  Py.count_char c (Py.take n s) <= Py.count_char c s.
Proof.
  rewrite <- (take_drop n s) at 2. rewrite count_char_app. lia.
Qed.

Lemma count_char_drop_le (c : ascii) (n : nat) (s : string) :
  Py.count_char c (Py.drop n s) <= Py.count_char c s.
Proof.
  rewrite <- (take_drop n s) at 2. rewrite count_char_app. lia.
Qed.

Lemma count_char_rstrip_le (c : ascii) (s : string) :
  Py.count_char c (Py.rstrip s) <= Py.count_char c s.
Proof.
  induction s as [|a s IH]; simpl; [lia|].
  destruct (Py.isspace a && Py.is_empty (Py.rstrip s)); simpl; lia.
Qed.

Lemma single_line_app (s1 s2 : string) :
  single_line s1 -> single_line s2 -> single_line (s1 ++ s2).
Proof.
  unfold single_line. intros H1 H2. rewrite count_char_app. lia.
Qed.

Lemma single_line_rstrip (s : string) : single_line s -> single_line (Py.rstrip s).
Proof.
  unfold single_line. pose proof (count_char_rstrip_le Py.nl s). lia.
Qed.

Lemma single_line_take (n : nat) (s : string) :
  single_line s -> single_line (Py.take n s).
Proof.
  unfold single_line. pose proof (count_char_take_le Py.nl n s). lia.
Qed.

Lemma single_line_drop (n : nat) (s : string) :
  single_line s -> single_line (Py.drop n s).
Proof.
  unfold single_line. pose proof (count_char_drop_le Py.nl n s). lia.
Qed.

Lemma single_line_repeat_paren (n : nat) : single_line (Py.repeat_char ")" n).
Proof. apply count_char_repeat_other. reflexivity. Qed.

Lemma single_line_remove_last_parens (n : nat) : forall s,
  single_line s -> single_line (remove_last_parens n s).
Proof.
  induction n as [|k IH]; intros s Hs; cbn [remove_last_parens]; [exact Hs|].
  apply IH. destruct (Py.rfind_char ")" s) as [i|]; [|exact Hs].
  apply single_line_app; [now apply single_line_take|now apply single_line_drop].
Qed.

Lemma single_line_replace_aux (old new : string) :
  single_line new ->
  forall s skip, single_line s -> single_line (Py.replace_aux old new s skip).
Proof.
  intros Hnew. unfold single_line in *.
  induction s as [|a s IH]; intros skip Hs; [reflexivity|].
  simpl in Hs. cbn [Py.replace_aux].
  destruct (Ascii.eqb a Py.nl) eqn:E; [discriminate|]. simpl in Hs.
  destruct skip as [|k]; [|now apply IH].
  destruct (Py.startswith old (String a s)).
  - rewrite count_char_app, Hnew. now apply IH.
  - simpl. rewrite E. now apply IH.
Qed.

Lemma single_line_split_aux (sep : string) : forall s skip,
  single_line s -> Forall single_line (Py.split_aux sep s skip).
Proof.
  unfold single_line.
  induction s as [|a s IH]; intros skip Hs; cbn [Py.split_aux].
  - constructor; [reflexivity|constructor].
  - simpl in Hs. destruct (Ascii.eqb a Py.nl) eqn:E; [discriminate|]. simpl in Hs.
    destruct skip as [|k]; [|now apply IH].
    destruct (Py.startswith sep (String a s)).
    + constructor; [reflexivity|now apply IH].
    + specialize (IH 0 Hs). destruct (Py.split_aux sep s 0) as [|h t].
      * constructor; [simpl; now rewrite E|constructor].
      * inversion IH as [|? ? Hh Ht]; subst.
        constructor; [simpl; now rewrite E|exact Ht].
Qed.

Lemma single_line_concat_empty (l : list string) :
  Forall single_line l -> single_line (String.concat EmptyString l).
Proof.
  induction 1 as [|x l Hx Hl IH]; [reflexivity|].
  destruct l as [|y l]; [exact Hx|].
  rewrite concat_cons_cons. apply single_line_app; [exact Hx|exact IH].
Qed.

Lemma Forall_skipn {A : Type} (P : A -> Prop) (n : nat) (l : list A) :
  Forall P l -> Forall P (skipn n l).
Proof.
  revert l; induction n as [|n IH]; intros l H; [exact H|].
  destruct H; [constructor|]. simpl. now apply IH.
Qed.

Ltac single_line_tac :=
  repeat first
    [ assumption
    | reflexivity
    | apply single_line_app
    | apply single_line_rstrip
    | apply single_line_take
    | apply single_line_drop
    | apply single_line_repeat_paren
    | apply single_line_remove_last_parens ].

Lemma _fix_unmatched_parentheses_single_line
    (error : SyntaxError) (line0 : string) (line_num : Z) (fx : SyntaxFix) :
  single_line line0 ->
  _fix_unmatched_parentheses error line0 line_num = Some fx ->
  single_line (new_text fx).
Proof.
  intros Hl. unfold _fix_unmatched_parentheses.
  destruct (_ <? _)%nat.
  - intros H; inversion H; subst; cbn [new_text].
    destruct (Py.endswith ";" (Py.rstrip line0)); unfold Py.drop_last;
      single_line_tac.
  - destruct (_ <? _)%nat; [|discriminate].
    intros H; inversion H; subst; cbn [new_text]. single_line_tac.
Qed.

Lemma incomplete_call_general_single_line
    (patterns : list string) (line0 : string) (line_num : Z) (fx : SyntaxFix) :
  single_line line0 ->
  incomplete_call_general patterns line0 line_num = Some fx ->
  single_line (new_text fx).
Proof.
  intros Hl. induction patterns as [|pattern rest IH]; cbn [incomplete_call_general];
    [discriminate|].
  destruct (Py.contains pattern line0); [|exact IH].
  destruct (_ <? _)%nat; [|exact IH].
  intros H; inversion H; subst; cbn [new_text]. single_line_tac.
Qed.

Lemma _fix_incomplete_call_single_line
    (error : SyntaxError) (line0 : string) (line_num : Z) (fx : SyntaxFix) :
  single_line line0 ->
  _fix_incomplete_call error line0 line_num = Some fx ->
  single_line (new_text fx).
Proof.
  intros Hl. unfold _fix_incomplete_call.
  destruct (_ && _).
  - intros H; inversion H; subst; cbn [new_text]. single_line_tac.
  - now apply incomplete_call_general_single_line.
Qed.

Lemma _fix_malformed_timeout_single_line
    (error : SyntaxError) (line0 : string) (line_num : Z) (fx : SyntaxFix) :
  single_line line0 ->
  _fix_malformed_timeout error line0 line_num = Some fx ->
  single_line (new_text fx).
Proof.
  intros Hl. unfold _fix_malformed_timeout.
  destruct (_ && _).
  - intros H; inversion H; subst; cbn [new_text].
    apply single_line_rstrip. unfold Py.replace. cbn [Py.is_empty].
    apply single_line_replace_aux; [reflexivity|exact Hl].
  - destruct (_ && _); [|discriminate].
    destruct (_ <? _)%nat; [|discriminate].
    intros H.
    assert (Hn : new_text fx
                 = Py.rstrip (hd EmptyString (Py.split "=>" line0) ++ "=>"
                              ++ String.concat EmptyString (skipn 2 (Py.split "=>" line0))))
      by (inversion H; reflexivity).
    rewrite Hn. clear H Hn.
    assert (Hparts : Forall single_line (Py.split "=>" line0))
      by (apply single_line_split_aux; exact Hl).
    apply single_line_rstrip. apply single_line_app.
    + destruct (Py.split "=>" line0); [reflexivity|now inversion Hparts].
    + apply single_line_app; [reflexivity|].
      apply single_line_concat_empty. now apply Forall_skipn.
Qed.

Lemma _fix_general_parse_error_single_line
    (error : SyntaxError) (line0 : string) (line_num : Z) (fx : SyntaxFix) :
  single_line line0 ->
  _fix_general_parse_error error line0 line_num = Some fx ->
  single_line (new_text fx).
Proof.
  intros Hl. unfold _fix_general_parse_error.
  destruct (_ && _); [|discriminate].
  destruct (existsb _ _); [|discriminate].
  intros H; inversion H; subst; cbn [new_text]. single_line_tac.
Qed.

Lemma getitem_Forall {A : Type} (P : A -> Prop) (l : list A) (i : Z) (a : A) :
  Forall P l -> getitem l i = Return a -> P a.
Proof.
  intros Hall. unfold getitem, Py.getitem.
  destruct (Py.subscript (List.length l) i) as [k|]; [|discriminate].
  destruct (nth_error l k) eqn:E; [|discriminate].
  intros H; inversion H; subst.
  eapply Forall_forall; [exact Hall|]. eapply nth_error_In; eauto.
Qed.

Lemma _generate_fix_for_error_single_line
    (error : SyntaxError) (lines : list string) (content : string) (fx : SyntaxFix) :
  Forall single_line lines ->
  _generate_fix_for_error error lines content = Return (Some fx) ->
  single_line (new_text fx).
Proof.
  intros Hall. unfold _generate_fix_for_error.
  destruct (_ <? _)%Z; [discriminate|].
  destruct (getitem lines (err_line error - 1)) as [line0|] eqn:E; [|discriminate].
  pose proof (getitem_Forall _ _ _ _ Hall E) as Hl. cbn [bind].
  repeat match goal with
         | |- context [if ?b then _ else _] => destruct b
         end; intros H; inversion H as [H'].
  - eapply _fix_unmatched_parentheses_single_line; eauto.
  - eapply _fix_incomplete_call_single_line; eauto.
  - eapply _fix_malformed_timeout_single_line; eauto.
  - eapply _fix_general_parse_error_single_line; eauto.
Qed.

Lemma collect_fixes_single_line
    (errors : list SyntaxError) (lines : list string) (content : string) :
  Forall single_line lines ->
  forall fixes, collect_fixes errors lines content = Return fixes ->
  Forall (fun f => single_line (new_text f)) fixes.
Proof.
  intros Hall. induction errors as [|error rest IH]; cbn [collect_fixes];
    intros fixes H.
  - inversion H. constructor.
  - destruct (String.eqb (source error) "ast"); [|now apply IH].
    destruct (_generate_fix_for_error error lines content) as [fx|] eqn:E;
      [|discriminate]. cbn [bind] in H.
    destruct (collect_fixes rest lines content) as [fs|]; [|discriminate].
    cbn [bind] in H. inversion H; subst.
    destruct fx as [f|]; [|now apply IH].
    constructor; [|now apply IH].
    eapply _generate_fix_for_error_single_line; eauto.
Qed.

(** The generator only emits single-line replacements. *)
Lemma generate_fixes_single_line
    (analysis : ASTAnalysis) (content : string) (fixes : list SyntaxFix) :
  generate_fixes analysis content = Return fixes ->
  Forall (fun f => single_line (new_text f)) fixes.
Proof.
  unfold generate_fixes.
  destruct (collect_fixes _ _ content) as [fs|] eqn:E; [|discriminate].
  cbn [bind]. intros H; inversion H; subst.
  eapply Permutation_Forall; [apply Permutation_sym, sort_desc_permutation|].
  eapply collect_fixes_single_line; [apply split_lines_single_line|exact E].
Qed.

Lemma apply_loop_single_line fixes : forall lines acc lines' acc',
  Forall (fun f => in_range (List.length lines) f = true ->
                   single_line (new_text f)) fixes ->
  Forall single_line lines ->
  apply_loop fixes lines acc = Return (lines', acc') ->
  Forall single_line lines'.
Proof.
  induction fixes as [|f rest IH]; simpl;
    intros lines acc lines' acc' Hall Hlines Hloop.
  - now inversion Hloop; subst.
  - inversion Hall as [|? ? Hf Hrest]; subst.
    unfold in_range in Hf. unfold Py.len in Hloop.
    destruct (line f <=? Z.of_nat (List.length lines))%Z.
    + destruct (getitem lines (line f - 1)); simpl in Hloop; [|discriminate].
      unfold setitem, Py.setitem in Hloop.
      destruct (Py.subscript (List.length lines) (line f - 1)) as [j|];
        simpl in Hloop; [|discriminate].
      eapply IH; [| |exact Hloop].
      * now rewrite set_nth_length.
      * apply Forall_set_nth; auto.
    + eapply IH; eauto.
Qed.

Lemma apply_fixes_keeps_line_count
    (content : string) (fixes : list SyntaxFix) (r : FixResult) :
  Forall (fun f => in_range (List.length (Py.split_lines content)) f = true ->
                   single_line (new_text f)) fixes ->
  apply_fixes content fixes = Return r ->
  List.length (Py.split_lines (fixed_content r))
  = List.length (Py.split_lines content).
Proof.
  intros Hall H.
  destruct (apply_fixes_loop _ _ _ H) as [lines' [Hloop Hjoin]].
  rewrite Hjoin.
  assert (Hlen : List.length lines' = List.length (Py.split_lines content))
    by (eapply apply_loop_length; eauto).
  rewrite split_join.
  - exact Hlen.
  - intros ->. pose proof (split_lines_nonempty content) as Hne.
    destruct (Py.split_lines content); [congruence|discriminate].
  - eapply apply_loop_single_line; [exact Hall| |exact Hloop].
    apply split_lines_single_line.
Qed.

(** The pipeline of the generator keeps the number of lines. *)
Lemma fix_content_line_count
    (analysis : ASTAnalysis) (content : string) (r : FixResult) :
  fix_content analysis content = Return r ->
  List.length (Py.split_lines (fixed_content r))
  = List.length (Py.split_lines content).
Proof.
  unfold fix_content.
  destruct (generate_fixes analysis content) as [fixes|] eqn:E; [|discriminate].
  cbn [bind]. apply apply_fixes_keeps_line_count.
  eapply Forall_impl; [|exact (generate_fixes_single_line _ _ _ E)].
  intros f Hf _. exact Hf.
Qed.

(** C10, amended: when the [new_text] of every edit that passes the range
    test is a single line (as is every edit of [generate_fixes], lemma
    [generate_fixes_single_line]), the output of [apply_fixes] has exactly
    as many lines as its input; and the applier returns whenever the line
    numbers are positive. *)
Theorem apply_fixes_line_count (content : string) (fixes : list SyntaxFix) :
  Forall (fun f => in_range (List.length (Py.split_lines content)) f = true ->
                   single_line (new_text f)) fixes ->
  (forall r, apply_fixes content fixes = Return r ->
             List.length (Py.split_lines (fixed_content r))
             = List.length (Py.split_lines content))
  /\ (Forall (fun f => (1 <= line f)%Z) fixes ->
      exists r, apply_fixes content fixes = Return r).
Proof.
  intros Hall. split; [|apply apply_fixes_returns].
  intros r H. eapply apply_fixes_keeps_line_count; eauto.
Qed.

Lemma apply_fixes_line_count_witness :
  Forall (fun f => in_range (List.length (Py.split_lines "foo(")) f = true ->
                   single_line (new_text f)) [hi_edit; stale_edit; lo_edit]
  /\ exists r,
       apply_fixes "foo(" [hi_edit; stale_edit; lo_edit] = Return r
       /\ List.length (Py.split_lines (fixed_content r))
          = List.length (Py.split_lines "foo(").
Proof.
  assert (Hall : Forall (fun f => in_range (List.length (Py.split_lines "foo(")) f = true ->
                                  single_line (new_text f))
                        [hi_edit; stale_edit; lo_edit])
    by (repeat constructor; intros _; reflexivity).
  split; [exact Hall|].
  eexists. split; [vm_compute; reflexivity|].
  exact (proj1 (apply_fixes_line_count "foo(" [hi_edit; stale_edit; lo_edit] Hall)
               _ eq_refl).
Defined.

(* ================================================================== *)
(** ** Further properties of the syntax fix generator *)
(* ================================================================== *)

Lemma _fix_unmatched_parentheses_line
    (error : SyntaxError) (line0 : string) (line_num : Z) (fx : SyntaxFix) :
  _fix_unmatched_parentheses error line0 line_num = Some fx ->
  line fx = line_num /\ old_text fx = Py.rstrip line0.
Proof.
  unfold _fix_unmatched_parentheses.
  destruct (_ <? _)%nat; [intros H; inversion H; split; reflexivity|].
  destruct (_ <? _)%nat; [intros H; inversion H; split; reflexivity|discriminate].
Qed.

Lemma incomplete_call_general_line
    (patterns : list string) (line0 : string) (line_num : Z) (fx : SyntaxFix) :
  incomplete_call_general patterns line0 line_num = Some fx ->
  line fx = line_num /\ old_text fx = Py.rstrip line0.
Proof.
  induction patterns as [|pattern rest IH]; cbn [incomplete_call_general];
    [discriminate|].
  destruct (Py.contains pattern line0); [|exact IH].
  destruct (_ <? _)%nat; [|exact IH].
  intros H; inversion H; split; reflexivity.
Qed.

Lemma _fix_incomplete_call_line
    (error : SyntaxError) (line0 : string) (line_num : Z) (fx : SyntaxFix) :
  _fix_incomplete_call error line0 line_num = Some fx ->
  line fx = line_num /\ old_text fx = Py.rstrip line0.
Proof.
  unfold _fix_incomplete_call.
  destruct (_ && _); [intros H; inversion H; split; reflexivity|].
  apply incomplete_call_general_line.
Qed.

Lemma _fix_malformed_timeout_line
    (error : SyntaxError) (line0 : string) (line_num : Z) (fx : SyntaxFix) :
  _fix_malformed_timeout error line0 line_num = Some fx ->
  line fx = line_num /\ old_text fx = Py.rstrip line0.
Proof.
  unfold _fix_malformed_timeout.
  destruct (_ && _); [intros H; inversion H; split; reflexivity|].
  destruct (_ && _); [|discriminate].
  destruct (_ <? _)%nat; [|discriminate].
  intros H; inversion H; split; reflexivity.
Qed.

Lemma _fix_general_parse_error_line
    (error : SyntaxError) (line0 : string) (line_num : Z) (fx : SyntaxFix) :
  _fix_general_parse_error error line0 line_num = Some fx ->
  line fx = line_num /\ old_text fx = Py.rstrip line0.
Proof.
  unfold _fix_general_parse_error.
  destruct (_ && _); [|discriminate].
  destruct (existsb _ _); [|discriminate].
  intros H; inversion H; split; reflexivity.
Qed.

(** What an emitted edit says about the diagnostic it comes from. *)
Lemma _generate_fix_for_error_inv
    (error : SyntaxError) (lines : list string) (content : string) (fx : SyntaxFix) :
  _generate_fix_for_error error lines content = Return (Some fx) ->
  exists line0,
    handled_code (error_code error) = true
    /\ line fx = err_line error
    /\ (err_line error <= Py.len lines)%Z
    /\ getitem lines (err_line error - 1) = Return line0
    /\ old_text fx = Py.rstrip line0.
Proof.
  unfold _generate_fix_for_error.
  destruct (Py.len lines <? err_line error)%Z eqn:E; [discriminate|].
  apply Z.ltb_ge in E.
  destruct (getitem lines (err_line error - 1)) as [line0|]; [|discriminate].
  cbn [bind]. unfold handled_code. cbn [existsb].
  destruct (String.eqb (error_code error) "UNMATCHED_PAREN").
  { intros H; inversion H as [H']. apply _fix_unmatched_parentheses_line in H'.
    exists line0. destruct H'. repeat split; auto. }
  destruct (String.eqb (error_code error) "INCOMPLETE_CALL").
  { intros H; inversion H as [H']. apply _fix_incomplete_call_line in H'.
    exists line0. destruct H'. repeat split; auto. }
  destruct (String.eqb (error_code error) "MALFORMED_TIMEOUT").
  { intros H; inversion H as [H']. apply _fix_malformed_timeout_line in H'.
    exists line0. destruct H'. repeat split; auto. }
  destruct (String.eqb (error_code error) "PARSE_ERROR"
            || String.eqb (error_code error) "PARSE_FAILED") eqn:Ep;
    [|discriminate].
  intros H; inversion H as [H']. apply _fix_general_parse_error_line in H'.
  exists line0. destruct H'. cbn [orb] in *. rewrite orb_false_r.
  repeat split; auto.
Qed.

Lemma collect_fixes_inv
    (errors : list SyntaxError) (lines : list string) (content : string) :
  forall fixes, collect_fixes errors lines content = Return fixes ->
  Forall (fun fx => exists error,
            In error errors /\ source error = "ast"
            /\ _generate_fix_for_error error lines content = Return (Some fx))
         fixes.
Proof.
  induction errors as [|error rest IH]; cbn [collect_fixes]; intros fixes H.
  - inversion H. constructor.
  - assert (Hrest : forall fs, collect_fixes rest lines content = Return fs ->
              Forall (fun fx => exists error0,
                        In error0 (error :: rest) /\ source error0 = "ast"
                        /\ _generate_fix_for_error error0 lines content
                           = Return (Some fx)) fs).
    { intros fs Hfs. eapply Forall_impl; [|exact (IH fs Hfs)].
      intros fx [e [Hin He]]. exists e. split; [now right|exact He]. }
    destruct (String.eqb (source error) "ast") eqn:Es; [|now apply Hrest].
    apply String.eqb_eq in Es.
    destruct (_generate_fix_for_error error lines content) as [fx|] eqn:E;
      [|discriminate]. cbn [bind] in H.
    destruct (collect_fixes rest lines content) as [fs|]; [|discriminate].
    cbn [bind] in H. inversion H; subst.
    destruct fx as [f|]; [|now apply Hrest].
    constructor; [|now apply Hrest].
    exists error. split; [now left|]. split; [exact Es|exact E].
Qed.

(** X1: every edit of [generate_fixes] comes from a diagnostic of source
    ['ast'] with one of the five handled codes; it carries that
    diagnostic's line number, which is a line of the text, and its
    [old_text] is that line without trailing white space. *)
Theorem generate_fixes_provenance
    (analysis : ASTAnalysis) (content : string) (fixes : list SyntaxFix) :
  generate_fixes analysis content = Return fixes ->
  Forall (fun fx => exists error line0,
            In error (syntax_errors analysis)
            /\ source error = "ast"
            /\ handled_code (error_code error) = true
            /\ line fx = err_line error
            /\ (line fx <= Py.len (Py.split_lines content))%Z
            /\ getitem (Py.split_lines content) (line fx - 1) = Return line0
            /\ old_text fx = Py.rstrip line0) fixes.
Proof.
  unfold generate_fixes.
  destruct (collect_fixes _ _ content) as [fs|] eqn:E; [|discriminate].
  cbn [bind]. intros H; inversion H; subst.
  eapply Permutation_Forall; [apply Permutation_sym, sort_desc_permutation|].
  eapply Forall_impl; [|exact (collect_fixes_inv _ _ _ _ E)].
  intros fx [error [Hin [Hs Hg]]].
  destruct (_generate_fix_for_error_inv _ _ _ _ Hg) as [line0 [H1 [H2 [H3 [H4 H5]]]]].
  exists error, line0. rewrite H2. repeat split; assumption.
Qed.

Lemma generate_fixes_provenance_witness :
  exists fx,
    generate_fixes (mkASTAnalysis false [parse_error_at_line_2] [] (0 # 1)%Q "tsx")
                   two_statements = Return [fx]
    /\ line fx = 2%Z /\ old_text fx = "  let b = 2" /\ new_text fx = "  let b = 2;".
Proof.
  eexists. split; [vm_compute; reflexivity|].
  pose proof (generate_fixes_provenance
                (mkASTAnalysis false [parse_error_at_line_2] [] (0 # 1)%Q "tsx")
                two_statements _ eq_refl) as H.
  inversion H as [|? ? [error [line0 [_ [_ [_ [Hl _]]]]]] _]; subst.
  split; [reflexivity|]. split; reflexivity.
Defined.

Lemma getitem_returns_bound {A : Type} (l : list A) (i : Z) (a : A) :
  getitem l i = Return a -> (- Py.len l <= i < Py.len l)%Z.
Proof.
  unfold getitem, Py.getitem, Py.subscript, Py.len.
  destruct (0 <=? i)%Z eqn:E0.
  - destruct (i <? Z.of_nat (List.length l))%Z eqn:E1; [|discriminate].
    intros _. apply Z.leb_le in E0. apply Z.ltb_lt in E1. lia.
  - destruct (- Z.of_nat (List.length l) <=? i)%Z eqn:E1; [|discriminate].
    intros _. apply Z.leb_gt in E0. apply Z.leb_le in E1. lia.
Qed.

Lemma getitem_in_bound {A : Type} (l : list A) (i : Z) :
  (0 <= i < Py.len l)%Z -> exists a, getitem l i = Return a.
Proof.
  intros [H0 H1]. unfold getitem, Py.getitem, Py.subscript, Py.len in *.
  assert (E0 : (0 <=? i)%Z = true) by (apply Z.leb_le; lia).
  assert (E1 : (i <? Z.of_nat (List.length l))%Z = true) by (apply Z.ltb_lt; lia).
  rewrite E0, E1.
  destruct (nth_error l (Z.to_nat i)) eqn:N; [eauto|].
  apply nth_error_None in N. lia.
Qed.

Lemma filter_all {A : Type} (p : A -> bool) (l : list A) :
  Forall (fun x => p x = true) l -> filter p l = l.
Proof.
  induction 1 as [|x l Hx _ IH]; [reflexivity|]. simpl. now rewrite Hx, IH.
Qed.

Lemma apply_fixes_success (content : string) (fixes : list SyntaxFix) (r : FixResult) :
  apply_fixes content fixes = Return r ->
  success r = match fixes with
              | [] => true
              | _ :: _ => (0 <? List.length (fixes_applied r))%nat
              end.
Proof.
  destruct fixes as [|f rest]; [intros H; now inversion H|].
  unfold apply_fixes.
  destruct (apply_loop (f :: rest) (Py.split_lines content) []) as [[l a]|];
    intros H; inversion H; reflexivity.
Qed.

Lemma _generate_fix_for_error_returns
    (error : SyntaxError) (lines : list string) (content : string) :
  (1 <= err_line error)%Z ->
  exists fx, _generate_fix_for_error error lines content = Return fx.
Proof.
  intros Hpos. unfold _generate_fix_for_error.
  destruct (Py.len lines <? err_line error)%Z eqn:E; [eauto|].
  apply Z.ltb_ge in E.
  destruct (getitem_in_bound lines (err_line error - 1)) as [line0 Hl]; [lia|].
  rewrite Hl. cbn [bind].
  repeat match goal with
         | |- context [if ?b then _ else _] => destruct b
         end; eauto.
Qed.

Lemma collect_fixes_returns
    (errors : list SyntaxError) (lines : list string) (content : string) :
  Forall (fun e => source e = "ast" -> (1 <= err_line e)%Z) errors ->
  exists fixes, collect_fixes errors lines content = Return fixes.
Proof.
  induction 1 as [|error rest Hpos _ [fs IH]]; cbn [collect_fixes]; [eauto|].
  destruct (String.eqb (source error) "ast") eqn:Es; [|eauto].
  apply String.eqb_eq in Es.
  destruct (_generate_fix_for_error_returns error lines content (Hpos Es))
    as [fx Hfx].
  rewrite Hfx, IH. cbn [bind]. eauto.
Qed.

Lemma generate_fixes_returns (analysis : ASTAnalysis) (content : string) :
  Forall (fun e => source e = "ast" -> (1 <= err_line e)%Z)
         (syntax_errors analysis) ->
  exists fixes, generate_fixes analysis content = Return fixes.
Proof.
  intros H. unfold generate_fixes.
  destruct (collect_fixes_returns _ (Py.split_lines content) content H) as [fs Hfs].
  rewrite Hfs. cbn [bind]. eauto.
Qed.

Lemma generated_fixes_all_applied
    (analysis : ASTAnalysis) (content : string) (fixes : list SyntaxFix) :
  generate_fixes analysis content = Return fixes ->
  exists r, apply_fixes content fixes = Return r
            /\ fixes_applied r = fixes /\ success r = true.
Proof.
  intros Hgen. pose proof (generate_fixes_provenance _ _ _ Hgen) as Hprov.
  assert (Hrange : Forall (fun f => in_range (List.length (Py.split_lines content)) f
                                    = true) fixes).
  { eapply Forall_impl; [|exact Hprov].
    intros fx [e [l0 [_ [_ [_ [_ [Hle _]]]]]]].
    unfold in_range. apply Z.leb_le. exact Hle. }
  assert (Hlow : Forall (fun f => (1 - Py.len (Py.split_lines content) <= line f)%Z)
                        fixes).
  { eapply Forall_impl; [|exact Hprov].
    intros fx [e [l0 [_ [_ [_ [_ [_ [Hget _]]]]]]]].
    apply getitem_returns_bound in Hget. lia. }
  destruct (apply_loop_returns fixes (Py.split_lines content) [] Hlow)
    as [[lines' applied] Hloop].
  pose proof (apply_loop_applied _ _ _ _ _ Hloop) as Happ. cbn [app] in Happ.
  rewrite (filter_all _ _ Hrange) in Happ. subst applied.
  destruct (apply_fixes_of_loop _ _ _ _ Hloop) as [r [Hr [Ha _]]].
  exists r. split; [exact Hr|]. split; [exact Ha|].
  rewrite (apply_fixes_success _ _ _ Hr), Ha.
  destruct fixes; reflexivity.
Qed.

(** X2: [fix_content] applies every edit that [generate_fixes] emits: none
    is stale, the applier does not raise, and the result always reports
    success, also when there was nothing to fix.  With diagnostics at
    positive line numbers the whole of [fix_content] returns. *)
Theorem fix_content_applies_every_edit (analysis : ASTAnalysis) (content : string) :
  (forall fixes,
     generate_fixes analysis content = Return fixes ->
     exists r, fix_content analysis content = Return r
               /\ fixes_applied r = fixes /\ success r = true)
  /\ (Forall (fun e => source e = "ast" -> (1 <= err_line e)%Z)
             (syntax_errors analysis) ->
      exists r, fix_content analysis content = Return r /\ success r = true).
Proof.
  split.
  - intros fixes Hgen. unfold fix_content. rewrite Hgen. cbn [bind].
    exact (generated_fixes_all_applied _ _ _ Hgen).
  - intros Hpos. destruct (generate_fixes_returns _ content Hpos) as [fixes Hgen].
    destruct (generated_fixes_all_applied _ _ _ Hgen) as [r [Hr [_ Hs]]].
    exists r. unfold fix_content. rewrite Hgen. cbn [bind]. split; assumption.
Qed.

Lemma fix_content_applies_every_edit_witness :
  Forall (fun e => source e = "ast" -> (1 <= err_line e)%Z) [parse_error_at_line_2]
  /\ exists r,
       fix_content (mkASTAnalysis false [parse_error_at_line_2] [] (0 # 1)%Q "tsx")
                   two_statements = Return r
       /\ success r = true.
Proof.
  assert (H : Forall (fun e => source e = "ast" -> (1 <= err_line e)%Z)
                     [parse_error_at_line_2])
    by (repeat constructor; intros _; vm_compute; discriminate).
  split; [exact H|].
  exact (proj2 (fix_content_applies_every_edit
                  (mkASTAnalysis false [parse_error_at_line_2] [] (0 # 1)%Q "tsx")
                  two_statements) H).
Defined.

(** A diagnostic that points before the first line by more than the length
    of the text makes the generator raise. *)
Example generate_fixes_index_error :
  generate_fixes
    (mkASTAnalysis false [mkSyntaxError (-5) 1 "m" "error" "PARSE_ERROR" "ast"]
                   [] (0 # 1)%Q "tsx")
    two_statements = Raise IndexError.
Proof. reflexivity. Qed.

Section SortDescOrder.
Context {A : Type}.
Variable lt : A -> A -> bool.
Hypothesis lt_asym : forall x y, lt x y = true -> lt y x = false.
Hypothesis ge_trans : forall x y z, lt x y = false -> lt y z = false -> lt x z = false.

Lemma insert_desc_sorted_gen (x : A) (l : list A) :
  StronglySorted (fun a b => lt a b = false) l ->
  StronglySorted (fun a b => lt a b = false) (insert_desc lt x l).
Proof.
  induction l as [|y l IH]; simpl; intros Hs.
  - constructor; constructor.
  - inversion Hs as [|? ? Hl Hy]; subst.
    destruct (lt x y) eqn:E.
    + constructor; [now apply IH|].
      eapply Permutation_Forall; [apply Permutation_sym, insert_desc_permutation|].
      constructor; [now apply lt_asym|exact Hy].
    + constructor; [exact Hs|]. constructor; [exact E|].
      eapply Forall_impl; [|exact Hy]. intros z Hz. now apply ge_trans with y.
Qed.

Lemma sort_desc_sorted_gen (l : list A) :
  StronglySorted (fun a b => lt a b = false) (sort_desc lt l).
Proof.
  induction l as [|x l IH]; simpl; [constructor|].
  now apply insert_desc_sorted_gen.
Qed.

End SortDescOrder.

Lemma position_lt_false (x y : SyntaxFix) :
  position_lt x y = false <-> position_ge x y.
Proof.
  unfold position_lt, position_ge.
  destruct (Z.ltb_spec (line x) (line y)), (Z.eqb_spec (line x) (line y)),
    (Z.ltb_spec (column x) (column y)); cbn; split; intros Hxy;
    try discriminate; try reflexivity; lia.
Qed.

Lemma position_lt_true (x y : SyntaxFix) :
  position_lt x y = true ->
  (line x < line y)%Z \/ (line x = line y /\ column x < column y)%Z.
Proof.
  unfold position_lt.
  destruct (Z.ltb_spec (line x) (line y)), (Z.eqb_spec (line x) (line y)),
    (Z.ltb_spec (column x) (column y)); cbn; intros Hxy; try discriminate; lia.
Qed.

(** X3: [generate_fixes] returns its edits from the bottom of the text up:
    the list is sorted by [(line, column)] in descending order. *)
Theorem generate_fixes_sorted
    (analysis : ASTAnalysis) (content : string) (fixes : list SyntaxFix) :
  generate_fixes analysis content = Return fixes ->
  StronglySorted position_ge fixes.
Proof.
  unfold generate_fixes.
  destruct (collect_fixes _ _ content) as [fs|]; [|discriminate].
  cbn [bind]. intros H; inversion H; subst.
  assert (Hs : StronglySorted (fun a b => position_lt a b = false)
                              (sort_desc position_lt fs)).
  { apply sort_desc_sorted_gen.
    - intros x y Hxy. apply position_lt_false. apply position_lt_true in Hxy.
      unfold position_ge. lia.
    - intros x y z Hxy Hyz. apply position_lt_false.
      apply position_lt_false in Hxy. apply position_lt_false in Hyz.
      unfold position_ge in *. lia. }
  clear H. induction Hs as [|a l Hl IH Ha]; constructor; [exact IH|].
  eapply Forall_impl; [|exact Ha]. intros b Hb. now apply position_lt_false.
Qed.

Lemma generate_fixes_sorted_witness :
  exists fixes,
    generate_fixes (mkASTAnalysis false three_diagnostics [] (0 # 1)%Q "tsx")
                   three_lines = Return fixes
    /\ map line fixes = [3; 2; 1]%Z
    /\ StronglySorted position_ge fixes.
Proof.
  eexists. split; [vm_compute; reflexivity|]. split; [reflexivity|].
  exact (generate_fixes_sorted
           (mkASTAnalysis false three_diagnostics [] (0 # 1)%Q "tsx")
           three_lines _ eq_refl).
Defined.

(* ================================================================== *)
(** ** Further properties of the pattern detector *)
(* ================================================================== *)

Lemma detect_line_wellformed (line_num : Z) (line0 : string) :
  Forall (fun e => err_line e = line_num /\ source e = "ast"
                   /\ severity e = "error"
                   /\ detected_code (error_code e) = true)
         (detect_line line_num line0).
Proof.
  unfold detect_line.
  repeat match goal with
         | |- context [if ?b then _ else _] => destruct b
         end; cbn [app]; repeat constructor.
Qed.

Lemma detect_from_wellformed (lines : list string) : forall i,
  Forall (fun e => (Z.of_nat i + 1 <= err_line e
                    <= Z.of_nat i + Z.of_nat (List.length lines))%Z
                   /\ source e = "ast" /\ severity e = "error"
                   /\ detected_code (error_code e) = true)
         (detect_from i lines).
Proof.
  induction lines as [|l ls IH]; intros i; cbn [detect_from]; [constructor|].
  apply Forall_app. split.
  - eapply Forall_impl; [|apply detect_line_wellformed].
    intros e [H1 H2]. cbn [List.length]. split; [lia|exact H2].
  - eapply Forall_impl; [|apply (IH (S i))].
    intros e [H1 H2]. cbn [List.length]. split; [lia|exact H2].
Qed.

(** X4: every diagnostic of [detect_specific_errors] has source ['ast'],
    severity ['error'], one of the three detector codes, and a line number
    between 1 and the number of lines of the text; so [fix_content] on the
    detector's findings never raises. *)
Theorem detect_specific_errors_wellformed (analysis : ASTAnalysis) (content : string) :
  Forall (fun e => (1 <= err_line e <= Py.len (Py.split_lines content))%Z
                   /\ source e = "ast" /\ severity e = "error"
                   /\ detected_code (error_code e) = true)
         (detect_specific_errors analysis content)
  /\ forall valid nodes t ft,
       exists r,
         fix_content
           (mkASTAnalysis valid (detect_specific_errors analysis content) nodes t ft)
           content = Return r.
Proof.
  assert (H : Forall (fun e => (1 <= err_line e <= Py.len (Py.split_lines content))%Z
                               /\ source e = "ast" /\ severity e = "error"
                               /\ detected_code (error_code e) = true)
                     (detect_specific_errors analysis content)).
  { unfold detect_specific_errors, Py.len.
    eapply Forall_impl; [|apply (detect_from_wellformed _ 0)].
    intros e [H1 H2]. split; [lia|exact H2]. }
  split; [exact H|].
  intros valid nodes t ft.
  destruct (generate_fixes_returns
              (mkASTAnalysis valid (detect_specific_errors analysis content) nodes t ft)
              content) as [fixes Hgen].
  { cbn [syntax_errors]. eapply Forall_impl; [|exact H].
    intros e [[H1 _] _] _. exact H1. }
  destruct (generated_fixes_all_applied _ _ _ Hgen) as [r [Hr _]].
  exists r. unfold fix_content. rewrite Hgen. exact Hr.
Qed.

(* ================================================================== *)
(** ** Further properties of the patch applier *)
(* ================================================================== *)

Lemma find_unique_permutation {A : Type} (p : A -> bool) (l l' : list A) :
  (forall x y, In x l -> In y l -> p x = true -> p y = true -> x = y) ->
  Permutation l l' ->
  List.find p l = List.find p l'.
Proof.
  intros Huniq Hperm.
  destruct (List.find p l) as [x|] eqn:E.
  - apply find_some in E. destruct E as [Hin Hp].
    destruct (List.find p l') as [y|] eqn:E'.
    + apply find_some in E'. destruct E' as [Hin' Hp'].
      f_equal. apply Huniq; auto.
      eapply Permutation_in; [apply Permutation_sym; exact Hperm|exact Hin'].
    + exfalso. pose proof (find_none _ _ E' x) as Hn.
      rewrite Hn in Hp; [discriminate|].
      eapply Permutation_in; eauto.
  - destruct (List.find p l') as [y|] eqn:E'; [|reflexivity].
    apply find_some in E'. destruct E' as [Hin' Hp'].
    pose proof (find_none _ _ E y) as Hn. rewrite Hn in Hp'; [discriminate|].
    eapply Permutation_in; [apply Permutation_sym; exact Hperm|exact Hin'].
Qed.

Lemma filter_permutation {A : Type} (p : A -> bool) (l l' : list A) :
  Permutation l l' -> Permutation (filter p l) (filter p l').
Proof.
  induction 1 as [|x l l' _ IH|x y l|l l' l'' _ IH1 _ IH2]; simpl.
  - constructor.
  - destruct (p x); [now constructor|exact IH].
  - destruct (p x), (p y); try apply Permutation_refl. apply perm_swap.
  - eapply Permutation_trans; eauto.
Qed.

Lemma NoDup_map_injective {A B : Type} (f : A -> B) (l : list A) (x y : A) :
  NoDup (map f l) -> In x l -> In y l -> f x = f y -> x = y.
Proof.
  induction l as [|a l IH]; simpl; intros Hnd Hx Hy Hf; [contradiction|].
  inversion Hnd as [|? ? Hnotin Hnd']; subst.
  destruct Hx as [->|Hx], Hy as [->|Hy]; auto.
  - exfalso. apply Hnotin. rewrite Hf. now apply in_map.
  - exfalso. apply Hnotin. rewrite <- Hf. now apply in_map.
Qed.

Lemma writes_to_position (n k : nat) (f : SyntaxFix) :
  (1 <= line f)%Z -> writes_to n k f = true -> line f = (Z.of_nat k + 1)%Z.
Proof.
  intros Hpos. unfold writes_to, Py.subscript.
  destruct (in_range n f); [|discriminate]. cbn [andb].
  assert (E0 : (0 <=? line f - 1)%Z = true) by (apply Z.leb_le; lia).
  rewrite E0. destruct (line f - 1 <? Z.of_nat n)%Z; [|discriminate].
  intros H. apply Nat.eqb_eq in H. lia.
Qed.

(** X5: patch-apply safety.  When the edits have positive, pairwise
    distinct line numbers, the order of the fix list does not matter: the
    applier returns for every ordering, with the same text and the same
    applied edits up to order. *)
Theorem apply_fixes_order_independent
    (content : string) (fixes fixes' : list SyntaxFix) :
  Permutation fixes fixes' ->
  NoDup (map line fixes) ->
  Forall (fun f => (1 <= line f)%Z) fixes ->
  exists r r',
    apply_fixes content fixes = Return r
    /\ apply_fixes content fixes' = Return r'
    /\ fixed_content r = fixed_content r'
    /\ Permutation (fixes_applied r) (fixes_applied r').
Proof.
  intros Hperm Hnd Hpos.
  assert (Hpos' : Forall (fun f => (1 <= line f)%Z) fixes')
    by (eapply Permutation_Forall; eauto).
  destruct (apply_fixes_returns content fixes Hpos) as [r Hr].
  destruct (apply_fixes_returns content fixes' Hpos') as [r' Hr'].
  exists r, r'. split; [exact Hr|]. split; [exact Hr'|].
  destruct (apply_fixes_loop _ _ _ Hr) as [l1 [Hloop1 Hj1]].
  destruct (apply_fixes_loop _ _ _ Hr') as [l2 [Hloop2 Hj2]].
  split.
  - rewrite Hj1, Hj2. f_equal. apply nth_error_ext. intros k.
    rewrite (apply_loop_last_write _ _ _ _ _ k Hloop1).
    rewrite (apply_loop_last_write _ _ _ _ _ k Hloop2).
    rewrite (find_unique_permutation _ (rev fixes) (rev fixes')); [reflexivity| |].
    + intros x y Hx Hy Hwx Hwy.
      apply in_rev in Hx. apply in_rev in Hy.
      apply (NoDup_map_injective line fixes x y Hnd Hx Hy).
      rewrite Forall_forall in Hpos.
      rewrite (writes_to_position _ _ _ (Hpos x Hx) Hwx).
      rewrite (writes_to_position _ _ _ (Hpos y Hy) Hwy). reflexivity.
    + eapply Permutation_trans; [apply Permutation_sym, Permutation_rev|].
      eapply Permutation_trans; [exact Hperm|apply Permutation_rev].
  - pose proof (apply_loop_applied _ _ _ _ _ Hloop1) as Ha1.
    pose proof (apply_loop_applied _ _ _ _ _ Hloop2) as Ha2.
    cbn [app] in Ha1, Ha2. rewrite Ha1, Ha2. now apply filter_permutation.
Qed.

Lemma apply_fixes_order_independent_witness :
  Permutation [edit_line_1; edit_line_3] [edit_line_3; edit_line_1]
  /\ NoDup (map line [edit_line_1; edit_line_3])
  /\ Forall (fun f => (1 <= line f)%Z) [edit_line_1; edit_line_3]
  /\ exists r r',
       apply_fixes three_lines [edit_line_1; edit_line_3] = Return r
       /\ apply_fixes three_lines [edit_line_3; edit_line_1] = Return r'
       /\ fixed_content r = fixed_content r'
       /\ Permutation (fixes_applied r) (fixes_applied r').
Proof.
  assert (H1 : Permutation [edit_line_1; edit_line_3] [edit_line_3; edit_line_1])
    by apply perm_swap.
  assert (H2 : NoDup (map line [edit_line_1; edit_line_3])).
  { repeat constructor; cbn; intuition discriminate. }
  assert (H3 : Forall (fun f => (1 <= line f)%Z) [edit_line_1; edit_line_3])
    by (repeat constructor; vm_compute; discriminate).
  split; [exact H1|]. split; [exact H2|]. split; [exact H3|].
  exact (apply_fixes_order_independent three_lines _ _ H1 H2 H3).
Defined.

(** Without distinct lines the order matters: the later edit wins. *)
Example apply_fixes_order_matters :
  exists r r',
    apply_fixes "foo(" [hi_edit; lo_edit] = Return r
    /\ apply_fixes "foo(" [lo_edit; hi_edit] = Return r'
    /\ fixed_content r = "foo() as any" /\ fixed_content r' = "foo()".
Proof.
  eexists. eexists. split; [vm_compute; reflexivity|].
  split; [vm_compute; reflexivity|]. split; reflexivity.
Qed.

Lemma inject_nat_succ (n : nat) :
  (inject_Z (Z.of_nat (S n)) == inject_Z (Z.of_nat n) + 1)%Q.
Proof.
  rewrite Nat2Z.inj_succ. unfold Z.succ. rewrite inject_Z_plus. reflexivity.
Qed.

Lemma sum_confidence_map (fixes : list SyntaxFix) : forall acc,
  fold_left (fun a fx => Binary64.add a (confidence fx)) fixes acc
  = fold_left Binary64.add (map confidence fixes) acc.
Proof.
  induction fixes as [|f rest IH]; intros acc; cbn [fold_left map]; auto.
Qed.

(** X6: the confidence of an [apply_fixes] result is the binary64 mean
    of the confidences of the edits whose line passes the range test:
    their sum, taken from the left, divided by their number.  It is
    exactly 1 when there is no such edit. *)
Theorem apply_fixes_confidence_mean
    (content : string) (fixes : list SyntaxFix) (r : FixResult) :
  apply_fixes content fixes = Return r ->
  let applied := filter (in_range (List.length (Py.split_lines content))) fixes in
  fixes_applied r = applied
  /\ fr_confidence r
     = match applied with
       | [] => (1 # 1)%Q
       | _ :: _ =>
           Binary64.div
             (fold_left Binary64.add (map confidence applied) (0 # 1)%Q)
             (inject_Z (Z.of_nat (List.length applied)))
       end.
Proof.
  destruct fixes as [|f rest].
  - intros H; inversion H; subst. split; reflexivity.
  - unfold apply_fixes.
    destruct (apply_loop (f :: rest) (Py.split_lines content) []) as [[l a]|] eqn:E;
      intros H; inversion H; subst; clear H.
    apply apply_loop_applied in E. cbn [app] in E.
    cbv zeta. cbn [fixes_applied fr_confidence]. rewrite <- E.
    split; [reflexivity|].
    destruct a as [|g a]; [reflexivity|].
    unfold sum_confidence, Py.len. now rewrite sum_confidence_map.
Qed.

Lemma apply_fixes_confidence_mean_witness :
  exists r,
    apply_fixes "foo(" [hi_edit; stale_edit; lo_edit] = Return r
    /\ fixes_applied r = [hi_edit; lo_edit]
    /\ (fr_confidence r == Binary64.round64 (8 # 10))%Q.
Proof.
  destruct (apply_fixes "foo(" [hi_edit; stale_edit; lo_edit]) as [r|e] eqn:E;
    [|vm_compute in E; discriminate E].
  exists r. split; [reflexivity|].
  destruct (apply_fixes_confidence_mean "foo(" [hi_edit; stale_edit; lo_edit] r E)
    as [Ha Hc].
  split; [exact Ha|]. rewrite Hc. vm_compute. reflexivity.
Defined.

(** The mean need not lie between the confidences: three edits of
    confidence 0.7 give the float [0.6999999999999998]. *)
Example apply_fixes_mean_below_confidences :
  exists r,
    apply_fixes three_lines
      [mkSyntaxFix 1 1 "a" "a;" "d" (7 # 10)%Q "semicolon";
       mkSyntaxFix 2 1 "b" "b;" "d" (7 # 10)%Q "semicolon";
       mkSyntaxFix 3 1 "c" "c;" "d" (7 # 10)%Q "semicolon"] = Return r
    /\ List.length (fixes_applied r) = 3
    /\ (fr_confidence r < Binary64.round64 (7 # 10))%Q
    /\ (fr_confidence r
        == Binary64.round64 (6999999999999998 # 10000000000000000))%Q.
Proof.
  eexists. split; [vm_compute; reflexivity|]. split; [reflexivity|].
  split; vm_compute; reflexivity.
Qed.

Lemma apply_loop_all_stale (fixes : list SyntaxFix) (lines : list string)
    (acc : list SyntaxFix) :
  Forall (fun f => in_range (List.length lines) f = false) fixes ->
  apply_loop fixes lines acc = Return (lines, acc).
Proof.
  induction 1 as [|f rest Hf _ IH]; cbn [apply_loop]; [reflexivity|].
  unfold in_range in Hf. unfold Py.len. now rewrite Hf.
Qed.

(** X7: a non-empty fix list whose edits all point past the end of the
    text leaves the text as it is, applies nothing and reports
    [success = False] with confidence 1, whereas the empty list reports
    [success = True]. *)
Theorem apply_fixes_all_stale (content : string) (fixes : list SyntaxFix) :
  fixes <> [] ->
  Forall (fun f => (Py.len (Py.split_lines content) < line f)%Z) fixes ->
  apply_fixes content fixes
  = Return {| success := false; fixed_content := content; fixes_applied := [];
              errors_remaining := []; fr_confidence := (1 # 1)%Q |}
  /\ apply_fixes content []
     = Return {| success := true; fixed_content := content; fixes_applied := [];
                 errors_remaining := []; fr_confidence := (1 # 1)%Q |}.
Proof.
  intros Hne Hall. split; [|reflexivity].
  destruct fixes as [|f rest]; [now elim Hne|].
  unfold apply_fixes. rewrite apply_loop_all_stale.
  - cbn. now rewrite join_split.
  - eapply Forall_impl; [|exact Hall]. intros g Hg.
    unfold in_range. apply Z.leb_gt. exact Hg.
Qed.

Lemma apply_fixes_all_stale_witness :
  [stale_edit] <> []
  /\ Forall (fun f => (Py.len (Py.split_lines "foo(") < line f)%Z) [stale_edit]
  /\ apply_fixes "foo(" [stale_edit]
     = Return {| success := false; fixed_content := "foo("; fixes_applied := [];
                 errors_remaining := []; fr_confidence := (1 # 1)%Q |}.
Proof.
  assert (H1 : [stale_edit] <> []) by discriminate.
  assert (H2 : Forall (fun f => (Py.len (Py.split_lines "foo(") < line f)%Z)
                      [stale_edit])
    by (repeat constructor).
  split; [exact H1|]. split; [exact H2|].
  exact (proj1 (apply_fixes_all_stale "foo(" [stale_edit] H1 H2)).
Defined.

(* ================================================================== *)
(** ** Further properties of the handlers *)
(* ================================================================== *)

Lemma _fix_unmatched_parentheses_balanced
    (error : SyntaxError) (line0 : string) (line_num : Z) (fx : SyntaxFix) :
  _fix_unmatched_parentheses error line0 line_num = Some fx ->
  Py.count_char ")" (new_text fx) = Py.count_char "(" (new_text fx).
Proof.
  unfold _fix_unmatched_parentheses.
  set (o := Py.count_char "(" line0). set (c := Py.count_char ")" line0).
  assert (Hc : Py.count_char ")" (Py.rstrip line0) = c)
    by (apply count_char_rstrip; reflexivity).
  assert (Ho : Py.count_char "(" (Py.rstrip line0) = o)
    by (apply count_char_rstrip; reflexivity).
  destruct (c <? o)%nat eqn:E1.
  - apply Nat.ltb_lt in E1. intros H; inversion H; subst; cbn [new_text]; clear H.
    destruct (Py.endswith ";" (Py.rstrip line0)) eqn:E.
    + apply endswith_drop_last in E; [|reflexivity].
      rewrite E in Hc, Ho. rewrite count_char_app in Hc, Ho. simpl in Hc, Ho.
      rewrite !count_char_app, count_char_repeat_same,
        count_char_repeat_other by reflexivity.
      simpl. lia.
    + rewrite !count_char_app, count_char_repeat_same,
        count_char_repeat_other by reflexivity.
      lia.
  - destruct (o <? c)%nat eqn:E2; [|discriminate].
    apply Nat.ltb_lt in E2. intros H; inversion H; subst; cbn [new_text]; clear H.
    destruct (remove_last_parens_count (c - o) line0) as [H1 H2].
    rewrite !count_char_rstrip by reflexivity. rewrite H1, H2.
    fold o c. lia.
Qed.

(** X8: the parenthesis handler is idempotent: on the text of an edit it
    has produced it produces no further edit, and the detector no longer
    reports an unmatched parenthesis on that text. *)
Theorem _fix_unmatched_parentheses_idempotent
    (error : SyntaxError) (line0 : string) (line_num : Z) (fx : SyntaxFix) :
  _fix_unmatched_parentheses error line0 line_num = Some fx ->
  (forall error' line_num',
     _fix_unmatched_parentheses error' (new_text fx) line_num' = None)
  /\ (forall line_num',
        filter is_unmatched_paren (detect_line line_num' (new_text fx)) = []).
Proof.
  intros H. apply _fix_unmatched_parentheses_balanced in H.
  split.
  - intros error' line_num'. unfold _fix_unmatched_parentheses.
    rewrite H, Nat.ltb_irrefl. reflexivity.
  - intros line_num'. unfold detect_line. rewrite H, Nat.ltb_irrefl.
    repeat match goal with
           | |- context [if ?b then _ else _] => destruct b
           end; reflexivity.
Qed.

Lemma _fix_unmatched_parentheses_idempotent_witness :
  exists fx,
    _fix_unmatched_parentheses
      (mkSyntaxError 1 1 "m" "error" "UNMATCHED_PAREN" "ast")
      "expect(render(x);" 1 = Some fx
    /\ new_text fx = "expect(render(x));"
    /\ _fix_unmatched_parentheses
         (mkSyntaxError 1 1 "m" "error" "UNMATCHED_PAREN" "ast")
         (new_text fx) 1 = None.
Proof.
  eexists. split; [vm_compute; reflexivity|]. split; [reflexivity|].
  exact (proj1 (_fix_unmatched_parentheses_idempotent
                  (mkSyntaxError 1 1 "m" "error" "UNMATCHED_PAREN" "ast")
                  "expect(render(x);" 1 _ eq_refl) _ _).
Defined.

Lemma find_from_char_split (c : ascii) (s : string) : forall n j,
  Py.find_from (String c EmptyString) s n = Some j ->
  exists before rest,
    s = before ++ String c rest
    /\ Py.count_char c before = 0
    /\ j = n + String.length before.
Proof.
  induction s as [|a s IH]; intros n j; cbn [Py.find_from Py.startswith].
  - discriminate.
  - destruct (Ascii.eqb c a) eqn:E; cbn [andb].
    + intros H; inversion H; subst. apply Ascii.eqb_eq in E; subst a.
      exists EmptyString, s. split; [reflexivity|]. split; [reflexivity|simpl; lia].
    + intros H. destruct (IH _ _ H) as [before [rest [Hs [Hc Hj]]]].
      exists (String a before), rest. cbn [append Py.count_char String.length].
      split; [f_equal; exact Hs|]. rewrite Ascii.eqb_sym, E.
      split; [exact Hc|lia].
Qed.

Lemma find_char_split (c : ascii) (s : string) (i : nat) :
  Py.find (String c EmptyString) s = Some i ->
  exists before rest,
    s = before ++ String c rest
    /\ Py.count_char c before = 0
    /\ i = String.length before.
Proof.
  unfold Py.find. intros H.
  destruct (find_from_char_split c s 0 i H) as [b [r [H1 [H2 H3]]]]. eauto.
Qed.

Lemma take_app_length (a b : string) : Py.take (String.length a) (a ++ b) = a.
Proof. induction a as [|x a IH]; simpl; [now destruct b|now rewrite IH]. Qed.

Lemma drop_app_length (a b : string) : Py.drop (String.length a) (a ++ b) = b.
Proof. induction a as [|x a IH]; simpl; [now destruct b|exact IH]. Qed.

Lemma append_nonempty (a b : string) :
  Py.is_empty b = false -> Py.is_empty (a ++ b) = false.
Proof. intros H. destruct a; [exact H|reflexivity]. Qed.

Lemma rstrip_cons_nonspace (c : ascii) (b : string) :
  Py.isspace c = false -> Py.rstrip (String c b) = String c (Py.rstrip b).
Proof. intros H. cbn [Py.rstrip]. now rewrite H. Qed.

Lemma rstrip_app_nonspace (a b : string) (c : ascii) :
  Py.isspace c = false ->
  Py.rstrip (a ++ String c b) = a ++ String c (Py.rstrip b).
Proof.
  intros Hc. induction a as [|x a IH]; cbn [append].
  - now apply rstrip_cons_nonspace.
  - cbn [Py.rstrip]. rewrite IH.
    rewrite (append_nonempty a (String c (Py.rstrip b)) eq_refl).
    now rewrite andb_false_r.
Qed.

Lemma lstrip_app_nonspace (a b : string) (c : ascii) :
  Py.isspace c = false ->
  Py.lstrip (a ++ String c b) = Py.lstrip a ++ String c b.
Proof.
  intros Hc. induction a as [|x a IH]; cbn [append Py.lstrip].
  - now rewrite Hc.
  - destruct (Py.isspace x); [exact IH|reflexivity].
Qed.

Lemma string_length_app (a b : string) :
  String.length (a ++ b) = String.length a + String.length b.
Proof. induction a as [|x a IH]; simpl; [reflexivity|now rewrite IH]. Qed.

Lemma endswith_app (a p : string) : Py.endswith p (a ++ p) = true.
Proof.
  unfold Py.endswith. rewrite string_length_app.
  replace (String.length a + String.length p - String.length p)
    with (String.length a) by lia.
  rewrite drop_app_length, String.eqb_refl.
  apply andb_true_iff. split; [apply Nat.leb_le; lia|reflexivity].
Qed.

(** X9: on a line that mentions [setSystemTime(], holds a semicolon and
    does not end with [");"], the incomplete-call handler inserts exactly
    one closing parenthesis immediately before the first semicolon, with
    confidence 0.95 and type [call_completion]; nothing else changes but
    the trailing white space, which is dropped. *)
Theorem _fix_incomplete_call_setSystemTime
    (error : SyntaxError) (line0 : string) (line_num : Z) :
  Py.contains "setSystemTime(" line0 = true ->
  Py.contains ";" line0 = true ->
  Py.endswith ");" (Py.strip line0) = false ->
  exists fx before rest,
    _fix_incomplete_call error line0 line_num = Some fx
    /\ Py.count_char ";" before = 0
    /\ old_text fx = before ++ ";" ++ rest
    /\ new_text fx = before ++ ");" ++ rest
    /\ column fx = (Z.of_nat (String.length before) + 1)%Z
    /\ confidence fx = (95 # 100)%Q
    /\ fix_type fx = "call_completion".
Proof.
  intros H1 H2 H3. unfold _fix_incomplete_call. rewrite H1, H2, H3. cbn [andb negb].
  unfold Py.contains in H2. unfold index.
  destruct (Py.find ";" line0) as [i|] eqn:E; [|discriminate].
  destruct (find_char_split _ _ _ E) as [before [rest [Hs [Hc Hi]]]].
  subst i line0. rewrite take_app_length, drop_app_length.
  eexists. exists before, (Py.rstrip rest).
  split; [reflexivity|]. cbn [old_text new_text column confidence fix_type].
  split; [exact Hc|]. split; [now rewrite rstrip_app_nonspace|].
  split.
  { change (before ++ ")" ++ String ";" rest)
      with (before ++ String ")" (String ";" rest)).
    rewrite (rstrip_app_nonspace before _ ")" eq_refl).
    now rewrite rstrip_cons_nonspace. }
  split; [reflexivity|]. split; reflexivity.
Qed.

Lemma _fix_incomplete_call_setSystemTime_witness :
  exists fx,
    _fix_incomplete_call incomplete_call_diagnostic
      "  setSystemTime(new Date(2023, 0, 1);  // later" 4 = Some fx
    /\ new_text fx = "  setSystemTime(new Date(2023, 0, 1));  // later".
Proof.
  destruct (_fix_incomplete_call_setSystemTime incomplete_call_diagnostic
              "  setSystemTime(new Date(2023, 0, 1);  // later" 4
              eq_refl eq_refl eq_refl)
    as [fx [before [rest [H _]]]].
  exists fx. split; [exact H|].
  vm_compute in H. inversion H. reflexivity.
Defined.

(** X10: the general parse-error handler only appends a semicolon to the
    line (trailing white space dropped), with confidence 0.7, and it is
    idempotent: on the text of its own edit it emits nothing. *)
Theorem _fix_general_parse_error_idempotent
    (error : SyntaxError) (line0 : string) (line_num : Z) (fx : SyntaxFix) :
  _fix_general_parse_error error line0 line_num = Some fx ->
  new_text fx = old_text fx ++ ";"
  /\ confidence fx = (7 # 10)%Q
  /\ fix_type fx = "semicolon"
  /\ forall error' line_num',
       _fix_general_parse_error error' (new_text fx) line_num' = None.
Proof.
  unfold _fix_general_parse_error at 1.
  destruct (_ && _); [|discriminate].
  destruct (existsb _ _); [|discriminate].
  intros H; inversion H; subst; clear H.
  cbn [new_text old_text confidence fix_type].
  split; [reflexivity|]. split; [reflexivity|]. split; [reflexivity|].
  intros error' line_num'. unfold _fix_general_parse_error.
  assert (E : Py.endswith ";" (Py.strip (Py.rstrip line0 ++ ";")) = true).
  { unfold Py.strip. rewrite (lstrip_app_nonspace _ EmptyString ";" eq_refl).
    rewrite (rstrip_app_nonspace _ EmptyString ";" eq_refl).
    apply endswith_app. }
  unfold statement_enders. cbn [existsb]. rewrite E. reflexivity.
Qed.

Lemma _fix_general_parse_error_idempotent_witness :
  exists fx,
    _fix_general_parse_error parse_error_at_line_2 "  let b = 2  " 2 = Some fx
    /\ new_text fx = "  let b = 2;"
    /\ _fix_general_parse_error parse_error_at_line_2 (new_text fx) 2 = None.
Proof.
  eexists. split; [vm_compute; reflexivity|]. split; [reflexivity|].
  exact (proj2 (proj2 (proj2 (_fix_general_parse_error_idempotent
                                parse_error_at_line_2 "  let b = 2  " 2 _ eq_refl)))
               _ _).
Defined.

(* ================================================================== *)
(** ** Further properties of the parser adapter *)
(* ================================================================== *)

Lemma endswith_iff (p s : string) :
  Py.endswith p s = true <-> exists u, s = u ++ p.
Proof.
  split.
  - unfold Py.endswith. intros H. apply andb_true_iff in H. destruct H as [_ H].
    apply String.eqb_eq in H.
    exists (Py.take (String.length s - String.length p) s).
    rewrite <- H at 2. symmetry. apply take_drop.
  - intros [u ->]. apply endswith_app.
Qed.

Lemma endswith_suffix (a b s : string) :
  Py.endswith (a ++ b) s = true -> Py.endswith b s = true.
Proof.
  intros H. apply endswith_iff in H. destruct H as [u ->].
  apply endswith_iff. exists (u ++ a).
  clear. induction u as [|x u IH]; simpl; [reflexivity|now rewrite IH].
Qed.

(** X11: a file is supported exactly when its path ends with [.ts],
    [.tsx], [.js] or [.jsx] (the two [.test] entries of the set add
    nothing); for any other path [analyze_file] returns, without
    consulting the parser, an invalid analysis of type ['unsupported']
    whose only diagnostic has code [UNSUPPORTED_TYPE]. *)
Theorem analyze_file_unsupported (env : parser_env) (file_path : string) :
  is_supported file_path
  = (Py.endswith ".ts" file_path || Py.endswith ".tsx" file_path
     || Py.endswith ".js" file_path || Py.endswith ".jsx" file_path)
  /\ (is_supported file_path = false ->
      forall env',
        elapsed env' = elapsed env ->
        path_suffix env' file_path = path_suffix env file_path ->
        analyze_file env' file_path
        = Return {| is_valid := false;
                    syntax_errors :=
                      [ {| err_line := 1; err_column := 1;
                           message := "Unsupported file type: "
                                      ++ path_suffix env file_path;
                           severity := "error";
                           error_code := "UNSUPPORTED_TYPE";
                           source := "ast" |} ];
                    ast_nodes := [];
                    parse_time := elapsed env;
                    file_type := "unsupported" |}).
Proof.
  split.
  - unfold is_supported, supported_extensions. cbn [existsb].
    destruct (Py.endswith ".ts" file_path) eqn:E1; [reflexivity|].
    destruct (Py.endswith ".tsx" file_path) eqn:E2; [reflexivity|].
    destruct (Py.endswith ".js" file_path); [reflexivity|].
    destruct (Py.endswith ".jsx" file_path); [reflexivity|].
    destruct (Py.endswith ".test.ts" file_path) eqn:E5.
    { apply (endswith_suffix ".test" ".ts") in E5. congruence. }
    destruct (Py.endswith ".test.tsx" file_path) eqn:E6.
    { apply (endswith_suffix ".test" ".tsx") in E6. congruence. }
    reflexivity.
  - intros Hs env' He Hp. unfold analyze_file. fold (is_supported file_path).
    rewrite Hs, He, Hp. reflexivity.
Qed.

Lemma analyze_file_unsupported_witness :
  is_supported "notes.md" = false
  /\ analyze_file (markdown_env (fun _ => Completed 0 "{}" EmptyString)) "notes.md"
     = Return {| is_valid := false;
                 syntax_errors :=
                   [mkSyntaxError 1 1 "Unsupported file type: .md" "error"
                      "UNSUPPORTED_TYPE" "ast"];
                 ast_nodes := [];
                 parse_time := (1 # 100)%Q;
                 file_type := "unsupported" |}.
Proof.
  assert (H : is_supported "notes.md" = false) by reflexivity.
  split; [exact H|].
  exact (proj2 (analyze_file_unsupported (markdown_env (fun _ => TimeoutExpired))
                  "notes.md") H _ eq_refl eq_refl).
Defined.

Lemma item_returns {A : Type} (key : string) (v : option A) :
  (exists a, item key v = Return a) <-> v <> None.
Proof.
  destruct v; simpl; split; intros H; eauto; try discriminate.
  - destruct H; discriminate.
  - now elim H.
Qed.

Lemma convert_error_returns (e : error_dict) :
  (exists r, convert_error e = Return r) <-> error_complete e.
Proof.
  unfold convert_error, error_complete.
  destruct (e_line e), (e_column e), (e_message e), (e_severity e), (e_source e);
    simpl; split; intros H; try (destruct H as [? H]; discriminate);
    try (repeat split; discriminate); eauto;
    try (exfalso; intuition congruence).
Qed.

Lemma convert_node_returns (n : node_dict) :
  (exists r, convert_node n = Return r) <-> node_complete n.
Proof.
  unfold convert_node, node_complete.
  destruct (n_type n), (n_start n), (n_end n), (n_line n), (n_column n), (n_raw n);
    simpl; split; intros H; try (destruct H as [? H]; discriminate);
    try (repeat split; discriminate); eauto;
    try (exfalso; intuition congruence).
Qed.

Lemma map_outcome_returns_iff {A B : Type} (f : A -> outcome B) (l : list A) :
  (exists bs, map_outcome f l = Return bs)
  <-> Forall (fun a => exists b, f a = Return b) l.
Proof.
  split; [|apply map_outcome_returns].
  induction l as [|a l IH]; simpl; intros [bs H]; [constructor|].
  destruct (f a) as [b|] eqn:E; [|discriminate]. simpl in H.
  destruct (map_outcome f l) as [bs'|] eqn:E'; [|discriminate].
  constructor; eauto.
Qed.

Lemma map_outcome_length {A B : Type} (f : A -> outcome B) (l : list A) (bs : list B) :
  map_outcome f l = Return bs -> List.length bs = List.length l.
Proof.
  revert bs; induction l as [|a l IH]; simpl; intros bs H.
  - now inversion H.
  - destruct (f a); [|discriminate]. simpl in H.
    destruct (map_outcome f l); [|discriminate]. simpl in H.
    inversion H; subst. simpl. f_equal. now apply IH.
Qed.

(** X12: after a parse that reports success, [analyze_file] returns
    exactly when every key it subscripts is present ([errorCode] alone is
    optional); otherwise it raises [KeyError].  When it returns, the
    analysis has one diagnostic per reported error and one node per
    reported node, and the validity flag that the parser reported. *)
Theorem analyze_file_success_keys (env : parser_env) (file_path : string) :
  is_supported file_path = true ->
  d_success (parse env file_path) = Some true ->
  ((exists analysis, analyze_file env file_path = Return analysis)
   <-> dict_complete (parse env file_path))
  /\ (forall analysis raw nodes,
        analyze_file env file_path = Return analysis ->
        d_syntaxErrors (parse env file_path) = Some raw ->
        d_astNodes (parse env file_path) = Some nodes ->
        List.length (syntax_errors analysis) = List.length raw
        /\ List.length (ast_nodes analysis) = List.length nodes
        /\ d_isValid (parse env file_path) = Some (is_valid analysis)).
Proof.
  intros Hsup Hok. unfold analyze_file. fold (is_supported file_path).
  rewrite Hsup. cbn [negb]. rewrite Hok. cbn [item bind negb].
  set (d := parse env file_path). unfold dict_complete.
  split.
  - split.
    + intros [analysis H].
      destruct (d_syntaxErrors d) as [raw|]; [|discriminate]. cbn [item bind] in H.
      destruct (map_outcome convert_error raw) as [errs|] eqn:Ee; [|discriminate].
      cbn [bind] in H.
      destruct (d_astNodes d) as [nodes|]; [|discriminate]. cbn [item bind] in H.
      destruct (map_outcome convert_node nodes) as [ns|] eqn:En; [|discriminate].
      cbn [bind] in H.
      destruct (d_isValid d); [|discriminate]. cbn [item bind] in H.
      destruct (d_fileType d); [|discriminate].
      split; [|split; [|split; discriminate]].
      * exists raw. split; [reflexivity|].
        assert (He : exists bs, map_outcome convert_error raw = Return bs) by eauto.
        apply map_outcome_returns_iff in He.
        eapply Forall_impl; [|exact He]. intros e. apply convert_error_returns.
      * exists nodes. split; [reflexivity|].
        assert (Hn : exists bs, map_outcome convert_node nodes = Return bs) by eauto.
        apply map_outcome_returns_iff in Hn.
        eapply Forall_impl; [|exact Hn]. intros n. apply convert_node_returns.
    + intros [[raw [Hraw Hr]] [[nodes [Hnodes Hn]] [Hv Hf]]].
      rewrite Hraw, Hnodes. cbn [item bind].
      destruct (map_outcome_returns convert_error raw) as [errs He].
      { eapply Forall_impl; [|exact Hr]. intros e. apply convert_error_returns. }
      destruct (map_outcome_returns convert_node nodes) as [ns Hns].
      { eapply Forall_impl; [|exact Hn]. intros n. apply convert_node_returns. }
      rewrite He, Hns. cbn [bind].
      destruct (d_isValid d); [|congruence].
      destruct (d_fileType d); [|congruence].
      cbn [item bind]. eauto.
  - intros analysis raw nodes H Hraw Hnodes. rewrite Hraw, Hnodes in H.
    cbn [item bind] in H.
    destruct (map_outcome convert_error raw) as [errs|] eqn:Ee; [|discriminate].
    destruct (map_outcome convert_node nodes) as [ns|] eqn:En; [|discriminate].
    cbn [bind] in H.
    destruct (d_isValid d); [|discriminate].
    destruct (d_fileType d); [|discriminate].
    cbn [item bind] in H. inversion H; subst. cbn [syntax_errors ast_nodes is_valid].
    split; [eapply map_outcome_length; eauto|].
    split; [eapply map_outcome_length; eauto|reflexivity].
Qed.

Lemma analyze_file_success_keys_witness :
  is_supported "/tmp/tmpab12.tsx" = true
  /\ d_success (parse reporting_parser "/tmp/tmpab12.tsx") = Some true
  /\ exists analysis,
       analyze_file reporting_parser "/tmp/tmpab12.tsx" = Return analysis
       /\ map error_code (syntax_errors analysis) = ["UNKNOWN"].
Proof.
  assert (H1 : is_supported "/tmp/tmpab12.tsx" = true) by reflexivity.
  assert (H2 : d_success (parse reporting_parser "/tmp/tmpab12.tsx") = Some true)
    by reflexivity.
  split; [exact H1|]. split; [exact H2|].
  assert (Hc : dict_complete (parse reporting_parser "/tmp/tmpab12.tsx")).
  { split; [|split; [|split; discriminate]].
    - eexists. split; [reflexivity|].
      repeat constructor; discriminate.
    - eexists. split; [reflexivity|constructor]. }
  destruct (proj2 (proj1 (analyze_file_success_keys reporting_parser
                            "/tmp/tmpab12.tsx" H1 H2)) Hc) as [analysis Ha].
  exists analysis. split; [exact Ha|].
  vm_compute in Ha. inversion Ha. reflexivity.
Defined.

(** A reported diagnostic without a [line] makes [analyze_file] raise. *)
Example analyze_file_key_error :
  analyze_file
    {| ensure_typescript_raises := None;
       node_script_path := Some "/tmp/script.js";
       run_node := fun _ => Completed 0 "{...}" EmptyString;
       json_loads := fun _ =>
         inl (mkParseDict (Some true) None (Some false)
                (Some [mkErrorDict None (Some 7%Z) (Some "m") (Some "error")
                         (Some "1005") (Some "typescript")])
                (Some []) (Some "tsx"));
       elapsed := (2 # 10)%Q;
       path_suffix := fun _ => ".tsx";
       temp_prefix := "/tmp/tmpab12" |} "/tmp/tmpab12.tsx"
  = Raise (KeyError "line").
Proof. reflexivity. Qed.

(* ================================================================== *)
(** ** The handlers of the type diagnostics *)
(* ================================================================== *)

Section TypeFixProperties.

Import TypeFixGenerator TypeFixHandlers.

Ltac handler_cases H :=
  repeat match type of H with
         | (if ?c then _ else _) = Some _ => destruct c eqn:?; try discriminate H
         | match ?c with Some _ => _ | None => _ end = Some _ =>
             destruct c eqn:?; try discriminate H
         end.

(** X13: Whatever edit the dispatch on a type diagnostic emits, the
    diagnostic has one of the six handled codes, the edit carries the
    position of the diagnostic and the stripped line as its old text, it
    is a cast, an annotation or an [import_fix], an [import_fix] changes
    no text, and its confidence lies between 0.7 and 0.9. *)
Theorem _create_fix_for_diagnostic_shape
    (d : TypeDiagnostic) (line0 : string) (f : TypeFix) :
  _create_fix_for_diagnostic source_handlers d line0 = Some f ->
  In (code d) diagnostic_codes
  /\ line f = diag_line d
  /\ column f = diag_column d
  /\ old_text f = Py.strip line0
  /\ In (fix_type f) ["type_assertion"; "import_fix"; "type_annotation"]
  /\ (fix_type f = "import_fix" -> new_text f = old_text f)
  /\ (7 # 10 <= confidence f <= 9 # 10)%Q.
Proof.
  unfold _create_fix_for_diagnostic, diagnostic_codes. intros H.
  destruct (Z.eqb_spec (code d) 2339) as [E|_].
  { unfold _fix_property_not_exist in H. handler_cases H;
      inversion H; subst; cbn; rewrite E;
      repeat split; auto; try discriminate. }
  destruct (Z.eqb_spec (code d) 2345) as [E|_].
  { cbn [TypeFixGenerator._fix_argument_type_mismatch source_handlers] in H.
    unfold _fix_argument_type_mismatch in H. handler_cases H;
      inversion H; subst; cbn; rewrite E;
      repeat split; auto; try discriminate. }
  destruct (Z.eqb_spec (code d) 2322) as [E|_].
  { cbn [TypeFixGenerator._fix_type_assignment_error source_handlers] in H.
    unfold _fix_type_assignment_error in H. handler_cases H;
      inversion H; subst; cbn; rewrite E;
      repeat split; auto; try discriminate. }
  destruct (Z.eqb_spec (code d) 2304) as [E|_].
  { cbn [TypeFixGenerator._fix_cannot_find_name source_handlers] in H.
    unfold _fix_cannot_find_name in H. handler_cases H;
      inversion H; subst; cbn; rewrite E;
      repeat split; auto 10; try discriminate. }
  destruct (Z.eqb_spec (code d) 2571) as [E|_].
  { cbn [TypeFixGenerator._fix_unknown_type source_handlers] in H.
    unfold _fix_unknown_type in H. handler_cases H;
      inversion H; subst; cbn; rewrite E;
      repeat split; auto 10; try discriminate. }
  destruct (Z.eqb_spec (code d) 7006) as [E|_]; [|discriminate].
  cbn [TypeFixGenerator._fix_implicit_any_parameter source_handlers] in H.
  unfold _fix_implicit_any_parameter in H. handler_cases H;
    inversion H; subst; cbn; rewrite E;
    repeat split; auto 10; try discriminate.
Qed.

Lemma _create_fix_for_diagnostic_shape_witness :
  exists f,
    _create_fix_for_diagnostic source_handlers argument_mismatch expect_line = Some f
    /\ line f = 4%Z /\ column f = 3%Z
    /\ old_text f = "expect(value).toEqual(other as any);".
Proof.
  eexists. split; [vm_compute; reflexivity|].
  pose proof (_create_fix_for_diagnostic_shape argument_mismatch expect_line _ eq_refl)
    as (_ & Hl & Hc & Ho & _).
  split; [exact Hl|]. split; [exact Hc | exact Ho].
Defined.

(** X14: On a line that already holds [as any], the only diagnostic for
    which the dispatch can still emit a cast is the argument mismatch
    (2345), whose guard looks at the argument of [expect] alone; that
    argument then holds no cast. *)
Theorem _create_fix_for_diagnostic_cast_guard
    (d : TypeDiagnostic) (line0 : string) (f : TypeFix) :
  Py.contains "as any" line0 = true ->
  _create_fix_for_diagnostic source_handlers d line0 = Some f ->
  fix_type f = "type_assertion" ->
  code d = 2345%Z
  /\ exists arg,
       Re.search_delimited "expect(" ")" ")" line0 = Some arg
       /\ Py.contains "as any" arg = false
       /\ new_text f = Py.strip (Py.replace arg (arg ++ " as any") line0).
Proof.
  unfold _create_fix_for_diagnostic. intros Hcast H Hty.
  destruct (Z.eqb_spec (code d) 2339) as [E|_].
  { unfold _fix_property_not_exist in H. rewrite Hcast in H.
    handler_cases H; inversion H; subst; discriminate Hty. }
  destruct (Z.eqb_spec (code d) 2345) as [E|_].
  { split; [exact E|].
    cbn [TypeFixGenerator._fix_argument_type_mismatch source_handlers] in H.
    unfold _fix_argument_type_mismatch in H. handler_cases H.
    inversion H; subst. cbn. eexists. split; [reflexivity|]. split; [|reflexivity].
    now apply negb_true_iff. }
  destruct (Z.eqb_spec (code d) 2322) as [E|_].
  { cbn [TypeFixGenerator._fix_type_assignment_error source_handlers] in H.
    unfold _fix_type_assignment_error in H. rewrite Hcast in H.
    handler_cases H. }
  destruct (Z.eqb_spec (code d) 2304) as [E|_].
  { cbn [TypeFixGenerator._fix_cannot_find_name source_handlers] in H.
    unfold _fix_cannot_find_name in H.
    handler_cases H; inversion H; subst; discriminate Hty. }
  destruct (Z.eqb_spec (code d) 2571) as [E|_].
  { cbn [TypeFixGenerator._fix_unknown_type source_handlers] in H.
    unfold _fix_unknown_type in H. rewrite Hcast in H. discriminate H. }
  destruct (Z.eqb_spec (code d) 7006) as [E|_]; [|discriminate].
  cbn [TypeFixGenerator._fix_implicit_any_parameter source_handlers] in H.
  unfold _fix_implicit_any_parameter in H.
  handler_cases H; inversion H; subst; discriminate Hty.
Qed.

(** The case that the guard leaves open does occur: a second cast is
    added to a line that holds one. *)
Lemma _create_fix_for_diagnostic_cast_guard_witness :
  exists f,
    _create_fix_for_diagnostic source_handlers argument_mismatch expect_line = Some f
    /\ new_text f = "expect(value as any).toEqual(other as any);"
    /\ code argument_mismatch = 2345%Z.
Proof.
  eexists. split; [vm_compute; reflexivity|]. split; [reflexivity|].
  exact (proj1 (_create_fix_for_diagnostic_cast_guard argument_mismatch expect_line _
                  eq_refl eq_refl eq_refl)).
Defined.

Lemma _create_fix_for_diagnostic_inv (d : TypeDiagnostic) (line0 : string) (f : TypeFix) :
  _create_fix_for_diagnostic source_handlers d line0 = Some f ->
  _fix_property_not_exist d line0 = Some f
  \/ _fix_argument_type_mismatch d line0 = Some f
  \/ _fix_type_assignment_error d line0 = Some f
  \/ _fix_cannot_find_name d line0 = Some f
  \/ _fix_unknown_type d line0 = Some f
  \/ _fix_implicit_any_parameter d line0 = Some f.
Proof.
  unfold _create_fix_for_diagnostic. intros H.
  cbn [source_handlers TypeFixGenerator._fix_argument_type_mismatch
       TypeFixGenerator._fix_type_assignment_error
       TypeFixGenerator._fix_cannot_find_name
       TypeFixGenerator._fix_unknown_type
       TypeFixGenerator._fix_implicit_any_parameter] in H.
  repeat match type of H with
         | (if ?c then _ else _) = Some _ => destruct c; [tauto|]
         end.
  discriminate.
Qed.

Lemma source_handlers_position (d : TypeDiagnostic) (line0 : string) (f : TypeFix) :
  _create_fix_for_diagnostic source_handlers d line0 = Some f ->
  line f = diag_line d /\ old_text f = Py.strip line0.
Proof.
  intros H. apply _create_fix_for_diagnostic_inv in H.
  destruct H as [H|[H|[H|[H|[H|H]]]]].
  - unfold _fix_property_not_exist in H. handler_cases H; inversion H; now subst.
  - unfold _fix_argument_type_mismatch in H. handler_cases H; inversion H; now subst.
  - unfold _fix_type_assignment_error in H. handler_cases H; inversion H; now subst.
  - unfold _fix_cannot_find_name in H. handler_cases H; inversion H; now subst.
  - unfold _fix_unknown_type in H. handler_cases H; inversion H; now subst.
  - unfold _fix_implicit_any_parameter in H. handler_cases H; inversion H; now subst.
Qed.

Lemma getitem_positive {A : Type} (l : list A) (i : Z) :
  (1 <= i <= Py.len l)%Z ->
  exists a, getitem l (i - 1) = Return a /\ nth_error l (Z.to_nat (i - 1)) = Some a.
Proof.
  intros [H0 H1]. unfold getitem, Py.getitem, Py.subscript, Py.len in *.
  assert (E0 : (0 <=? i - 1)%Z = true) by (apply Z.leb_le; lia).
  assert (E1 : (i - 1 <? Z.of_nat (List.length l))%Z = true) by (apply Z.ltb_lt; lia).
  rewrite E0, E1.
  destruct (nth_error l (Z.to_nat (i - 1))) eqn:N; [eauto|].
  apply nth_error_None in N. lia.
Qed.

Lemma fix_diagnostics_loop_in_range (h : other_handlers) (lines : list string) :
  forall diagnostics,
  Forall (fun d => (1 <= diag_line d)%Z) diagnostics ->
  exists fixes,
    fix_diagnostics_loop h diagnostics lines = Return fixes
    /\ List.length fixes <= List.length diagnostics
    /\ forall f, In f fixes ->
         exists d line0,
           In d diagnostics
           /\ (1 <= diag_line d <= Py.len lines)%Z
           /\ nth_error lines (Z.to_nat (diag_line d - 1)) = Some line0
           /\ _create_fix_for_diagnostic h d line0 = Some f.
Proof.
  induction diagnostics as [|d rest IH]; intros Hall; cbn [fix_diagnostics_loop].
  - exists []. split; [reflexivity|]. split; [auto|]. intros f [].
  - inversion Hall as [|? ? Hd Hrest]; subst.
    destruct (IH Hrest) as (fixes & Hret & Hlen & Hin).
    destruct (diag_line d <=? Py.len lines)%Z eqn:E.
    + apply Z.leb_le in E.
      destruct (getitem_positive lines (diag_line d) (conj Hd E)) as (line0 & Hg & Hn).
      rewrite Hg. cbn [bind]. rewrite Hret. cbn [bind].
      eexists. split; [reflexivity|].
      destruct (_create_fix_for_diagnostic h d line0) as [f0|] eqn:Ef.
      * split; [cbn [List.length]; lia|].
        intros f [<-|Hf].
        -- exists d, line0. repeat split; auto. now left.
        -- destruct (Hin f Hf) as (d' & l' & H1 & H2 & H3 & H4).
           exists d', l'. repeat split; auto; [now right | lia | lia].
      * split; [cbn [List.length]; lia|].
        intros f Hf. destruct (Hin f Hf) as (d' & l' & H1 & H2 & H3 & H4).
        exists d', l'. repeat split; auto; [now right | lia | lia].
    + exists fixes. split; [exact Hret|]. split; [cbn [List.length]; lia|].
      intros f Hf. destruct (Hin f Hf) as (d' & l' & H1 & H2 & H3 & H4).
      exists d', l'. repeat split; auto; [now right | lia | lia].
Qed.

(** X15: When every diagnostic names a line from 1 on,
    [_fix_type_diagnostics] returns; it emits at most one edit for each
    diagnostic, none for a diagnostic past the last line, and each edit
    names a line of the text whose stripped content is its old text. *)
Theorem _fix_type_diagnostics_in_range
    (diagnostics : list TypeDiagnostic) (content : string) :
  Forall (fun d => (1 <= diag_line d)%Z) diagnostics ->
  exists fixes,
    _fix_type_diagnostics source_handlers diagnostics content = Return fixes
    /\ List.length fixes <= List.length diagnostics
    /\ forall f, In f fixes ->
         (1 <= line f <= Py.len (Py.split_lines content))%Z
         /\ (exists d, In d diagnostics /\ diag_line d = line f)
         /\ exists line0,
              nth_error (Py.split_lines content) (Z.to_nat (line f - 1)) = Some line0
              /\ old_text f = Py.strip line0.
Proof.
  intros Hall. unfold _fix_type_diagnostics.
  destruct (fix_diagnostics_loop_in_range source_handlers (Py.split_lines content)
              diagnostics Hall) as (fixes & Hret & Hlen & Hin).
  exists fixes. split; [exact Hret|]. split; [exact Hlen|].
  intros f Hf. destruct (Hin f Hf) as (d & line0 & Hd & Hr & Hn & Hc).
  apply source_handlers_position in Hc. destruct Hc as [Hl Ho].
  rewrite Hl. split; [exact Hr|]. split; [eauto|]. eauto.
Qed.

Lemma _fix_type_diagnostics_in_range_witness :
  exists fixes,
    _fix_type_diagnostics source_handlers
      [argument_mismatch; missing_getByText]
      ("a" ++ String Py.nl "b" ++ String Py.nl cast_line ++ String Py.nl expect_line)
    = Return fixes
    /\ List.length fixes <= 2.
Proof.
  assert (Hall : Forall (fun d => (1 <= diag_line d)%Z)
                   [argument_mismatch; missing_getByText]).
  { repeat constructor; cbn; lia. }
  destruct (_fix_type_diagnostics_in_range [argument_mismatch; missing_getByText]
              ("a" ++ String Py.nl "b" ++ String Py.nl cast_line
               ++ String Py.nl expect_line) Hall)
    as (fixes & Hret & Hlen & _).
  exists fixes. split; [exact Hret | exact Hlen].
Defined.

(** A diagnostic that names line 0 reads the last line, as a negative
    subscript does. *)
Example _fix_type_diagnostics_line_zero :
  exists f,
    _fix_type_diagnostics source_handlers
      [mkTypeDiagnostic 0 3 "Argument" "error" 2345 "type_mismatch" "a.test.tsx"]
      ("a" ++ String Py.nl expect_line)
    = Return [f]
    /\ line f = 0%Z
    /\ old_text f = "expect(value).toEqual(other as any);".
Proof.
  eexists. split; [vm_compute; reflexivity|]. split; reflexivity.
Qed.

(* ------------------------------------------------------------------ *)
(** *** The passes over the text *)
(* ------------------------------------------------------------------ *)

Lemma find_from_none_offset (sub s : string) : forall n m,
  Py.find_from sub s n = None -> Py.find_from sub s m = None.
Proof.
  induction s as [|a s IH]; intros n m; cbn [Py.find_from].
  - destruct (Py.startswith sub EmptyString); [discriminate|reflexivity].
  - destruct (Py.startswith sub (String a s)); [discriminate|]. apply IH.
Qed.

Lemma contains_cons_eq (sub : string) (a : ascii) (s : string) :
  Py.contains sub (String a s)
  = Py.startswith sub (String a s) || Py.contains sub s.
Proof.
  unfold Py.contains, Py.find. cbn [Py.find_from].
  destruct (Py.startswith sub (String a s)); [reflexivity|]. cbn [orb].
  destruct (Py.find_from sub s 1) eqn:E1, (Py.find_from sub s 0) eqn:E0;
    try reflexivity.
  - apply find_from_none_offset with (m := 1) in E0. congruence.
  - apply find_from_none_offset with (m := 0) in E1. congruence.
Qed.

Lemma contains_prefix (sub x s : string) :
  Py.contains (sub ++ x) s = true -> Py.contains sub s = true.
Proof.
  intros H. destruct (contains_index sub x s H) as [i Hi].
  unfold Py.contains. now rewrite Hi.
Qed.

(** A prefix without a line break lies in the first line. *)
Lemma startswith_first_line (sub : string) : forall s,
  single_line sub ->
  Py.startswith sub s = true ->
  Py.startswith sub (hd EmptyString (Py.split_lines s)) = true.
Proof.
  unfold single_line.
  induction sub as [|a sub IH]; intros s Hsub H; [reflexivity|].
  destruct s as [|b s]; [discriminate|].
  cbn [Py.startswith] in H. apply andb_true_iff in H. destruct H as [Hab H].
  cbn [Py.count_char] in Hsub.
  destruct (Ascii.eqb a Py.nl) eqn:Ea; [cbn in Hsub; lia|]. cbn [plus] in Hsub.
  apply Ascii.eqb_eq in Hab. subst b.
  cbn [Py.split_lines]. rewrite Ea.
  specialize (IH s Hsub H).
  destruct (Py.split_lines s) as [|h t] eqn:Es.
  - now apply split_lines_nonempty in Es.
  - cbn [hd] in *. cbn [Py.startswith]. now rewrite Ascii.eqb_refl, IH.
Qed.

(** A text that holds a string without a line break holds it in one of
    its lines. *)
Lemma contains_some_line (sub : string) : forall s,
  single_line sub ->
  Py.contains sub s = true ->
  existsb (Py.contains sub) (Py.split_lines s) = true.
Proof.
  intros s Hsub. induction s as [|a s IH]; intros H.
  - exact (eq_trans (orb_false_r _) H).
  - rewrite contains_cons_eq in H. apply orb_true_iff in H.
    destruct H as [H|H].
    + apply (startswith_first_line sub _ Hsub) in H.
      destruct (Py.split_lines (String a s)) as [|h t] eqn:Es.
      * now apply split_lines_nonempty in Es.
      * cbn [hd] in H. cbn [existsb]. apply orb_true_iff. left.
        destruct h as [|c h].
        -- unfold Py.contains, Py.find. cbn [Py.find_from]. now rewrite H.
        -- rewrite contains_cons_eq. now rewrite H.
    + specialize (IH H). cbn [Py.split_lines].
      destruct (Ascii.eqb a Py.nl).
      * cbn [existsb]. rewrite IH. apply orb_true_r.
      * destruct (Py.split_lines s) as [|h t] eqn:Es; [discriminate IH|].
        cbn [existsb] in *. apply orb_true_iff in IH. apply orb_true_iff.
        destruct IH as [IH|IH]; [left|now right].
        rewrite contains_cons_eq. rewrite IH. apply orb_true_r.
Qed.

Lemma existsb_impl {A : Type} (p q : A -> bool) (l : list A) :
  (forall x, p x = true -> q x = true) ->
  existsb p l = true -> existsb q l = true.
Proof.
  intros Hpq. induction l as [|x l IH]; cbn [existsb]; [auto|].
  intros H. apply orb_true_iff in H. apply orb_true_iff.
  destruct H as [H|H]; [left; auto | right; auto].
Qed.

(** X16: [_optimize_type_imports] never emits the Jest type import: a
    text that holds [jest.Mock] has a line that holds [jest].  It emits
    the React import, alone, exactly when no line holds [from 'react']
    and some line holds [React.]; otherwise it emits nothing. *)
Theorem _optimize_type_imports_never_jest (content : string) :
  ~ In jest_import (_optimize_type_imports content)
  /\ _optimize_type_imports content
     = if negb (existsb (Py.contains "from 'react'") (Py.split_lines content))
          && existsb (Py.contains "React.") (Py.split_lines content)
       then [react_import] else [].
Proof.
  assert (Hjest :
    Py.contains "jest.Mock" content
    && negb (existsb (Py.contains "jest") (Py.split_lines content)) = false).
  { destruct (Py.contains "jest.Mock" content) eqn:E; [|reflexivity].
    apply (contains_some_line "jest.Mock" content eq_refl) in E.
    apply (existsb_impl _ (Py.contains "jest")) in E.
    - now rewrite E.
    - intros x. apply (contains_prefix "jest" ".Mock"). }
  unfold _optimize_type_imports. rewrite Hjest.
  destruct (negb _ && _); cbn [app].
  - split; [|reflexivity]. intros [H|[]]. discriminate H.
  - split; [|reflexivity]. intros [].
Qed.

Lemma per_line_In (body : Z -> string -> list TypeFix) : forall lines n f,
  In f (per_line body n lines) ->
  exists k line0,
    nth_error lines k = Some line0 /\ In f (body (n + Z.of_nat k)%Z line0).
Proof.
  induction lines as [|l lines IH]; intros n f; cbn [per_line]; [intros []|].
  intros H. apply in_app_or in H. destruct H as [H|H].
  - exists 0, l. split; [reflexivity|]. now rewrite Z.add_0_r.
  - destruct (IH _ _ H) as (k & line0 & Hk & Hf).
    exists (S k), line0. split; [exact Hk|].
    replace (n + Z.of_nat (S k))%Z with (n + 1 + Z.of_nat k)%Z by lia. exact Hf.
Qed.

Lemma improve_line_In (n : Z) (line0 : string) (f : TypeFix) :
  In f (improve_line n line0) ->
  line f = n /\ Py.contains "as any" line0 = true
  /\ old_text f = Py.strip line0
  /\ fix_type f = "type_assertion_improvement".
Proof.
  unfold improve_line. destruct (Py.contains "as any" line0); [|intros []].
  destruct (Py.contains "mock" (lower line0)).
  { intros [<-|[]]. now cbn. }
  destruct (Py.contains "render(" line0 || Py.contains "component" (lower line0)).
  { intros [<-|[]]. now cbn. }
  destruct (Py.contains "event" (lower line0) || Py.contains "handler" (lower line0)).
  { intros [<-|[]]. now cbn. }
  intros [].
Qed.

Lemma mock_data_line_In (n : Z) (line0 : string) (f : TypeFix) :
  In f (mock_data_line n line0) ->
  line f = n /\ Py.contains "as any" line0 = false
  /\ old_text f = Py.strip line0
  /\ fix_type f = "type_assertion".
Proof.
  unfold mock_data_line.
  destruct (Py.contains "mockReturnValue({" line0); [|intros []].
  destruct (Py.contains "as any" line0); [intros []|]. cbn [negb andb].
  destruct (Py.contains "})" line0); [|intros []].
  intros [<-|[]]. now cbn.
Qed.

(** X17: The pass that refines casts and the pass that adds casts to
    mock data never touch the same line: the first emits only on lines
    that hold [as any], the second only on lines that do not.  Each of
    their edits names a line of the text and carries that line, stripped,
    as its old text. *)
Theorem type_assertion_passes_disjoint (content : string) (f g : TypeFix) :
  In f (_improve_type_assertions content) ->
  In g (_fix_mock_data_types content) ->
  line f <> line g
  /\ (1 <= line f <= Py.len (Py.split_lines content))%Z
  /\ (1 <= line g <= Py.len (Py.split_lines content))%Z
  /\ nth_error (map Py.strip (Py.split_lines content)) (Z.to_nat (line f - 1))
     = Some (old_text f)
  /\ nth_error (map Py.strip (Py.split_lines content)) (Z.to_nat (line g - 1))
     = Some (old_text g).
Proof.
  unfold _improve_type_assertions, _fix_mock_data_types. intros Hf Hg.
  apply per_line_In in Hf. destruct Hf as (k & l & Hk & Hf).
  apply per_line_In in Hg. destruct Hg as (k' & l' & Hk' & Hg).
  apply improve_line_In in Hf. destruct Hf as (Hlf & Hcf & Hof & _).
  apply mock_data_line_In in Hg. destruct Hg as (Hlg & Hcg & Hog & _).
  assert (Hlt : k < List.length (Py.split_lines content))
    by (apply nth_error_Some; congruence).
  assert (Hlt' : k' < List.length (Py.split_lines content))
    by (apply nth_error_Some; congruence).
  unfold Py.len. rewrite Hlf, Hlg.
  replace (Z.to_nat (1 + Z.of_nat k - 1)) with k by lia.
  replace (Z.to_nat (1 + Z.of_nat k' - 1)) with k' by lia.
  split.
  { intros E. assert (k = k') by lia. subst k'. congruence. }
  split; [lia|]. split; [lia|].
  split; rewrite nth_error_map; [rewrite Hk, Hof | rewrite Hk', Hog]; reflexivity.
Qed.

Lemma type_assertion_passes_disjoint_witness :
  exists f g,
    _improve_type_assertions mock_text = [f]
    /\ _fix_mock_data_types mock_text = [g]
    /\ line f <> line g
    /\ new_text f = "const fn = jest.fn() as jest.Mock; // mock"
    /\ new_text g = "fn.mockReturnValue({ id: 1 } as any);".
Proof.
  eexists. eexists. split; [vm_compute; reflexivity|].
  split; [vm_compute; reflexivity|].
  split; [|split; reflexivity].
  apply (type_assertion_passes_disjoint mock_text); vm_compute; now left.
Defined.

(* ------------------------------------------------------------------ *)
(** *** The applier of the type edits *)
(* ------------------------------------------------------------------ *)

Lemma filter_andb {A : Type} (p q : A -> bool) (l : list A) :
  filter (fun x => p x && q x) l = filter q (filter p l).
Proof.
  induction l as [|x l IH]; cbn [filter]; [reflexivity|].
  destruct (p x); cbn [andb filter]; [|exact IH].
  destruct (q x); now rewrite IH.
Qed.

Lemma insert_imports_spec (import_fixes : list TypeFix) : forall lines acc,
  insert_imports import_fixes lines acc
  = ((rev (map new_text
             (filter (fun f => negb (Py.is_empty (new_text f))) import_fixes))
      ++ lines)%list,
     (acc ++ filter (fun f => negb (Py.is_empty (new_text f))) import_fixes)%list).
Proof.
  induction import_fixes as [|f rest IH]; intros lines acc; cbn [insert_imports filter].
  - cbn. now rewrite app_nil_r.
  - destruct (negb (Py.is_empty (new_text f))).
    + rewrite IH. cbn [map rev]. now rewrite <- !app_assoc.
    + apply IH.
Qed.

Lemma replace_loop_spec (fixes : list TypeFix) : forall lines acc lines' acc',
  replace_loop fixes lines acc = Return (lines', acc') ->
  List.length lines' = List.length lines
  /\ acc' = (acc ++ filter (type_in_range (List.length lines)) fixes)%list
  /\ forall k,
       nth_error lines' k =
         match List.find (type_writes_to (List.length lines) k) (rev fixes) with
         | Some g => Some (new_text g)
         | None => nth_error lines k
         end.
Proof.
  induction fixes as [|f rest IH]; intros lines acc lines' acc' H;
    cbn [replace_loop] in H.
  - inversion H; subst. cbn. now rewrite app_nil_r.
  - cbn [filter rev]. unfold type_in_range at 1. unfold Py.len in H.
    destruct (line f <=? Z.of_nat (List.length lines))%Z eqn:E.
    + unfold setitem, Py.setitem in H.
      destruct (Py.subscript (List.length lines) (line f - 1)) as [j|] eqn:Ej;
        cbn [bind] in H; [|discriminate].
      apply IH in H. rewrite set_nth_length in H.
      destruct H as (Hlen & Hacc & Hnth).
      split; [exact Hlen|]. split; [now rewrite Hacc, <- app_assoc|].
      intros k. rewrite Hnth, find_append.
      destruct (List.find _ (rev rest)); [reflexivity|].
      cbn [List.find]. unfold type_writes_to, type_in_range. rewrite E, Ej.
      cbn [andb].
      pose proof (subscript_bound _ _ _ Ej) as Hj.
      destruct (Nat.eqb_spec j k) as [->|Hne].
      * now apply nth_error_set_nth_eq.
      * apply nth_error_set_nth_neq. congruence.
    + apply IH in H. destruct H as (Hlen & Hacc & Hnth).
      split; [exact Hlen|]. split; [exact Hacc|].
      intros k. rewrite Hnth, find_append.
      destruct (List.find _ (rev rest)); [reflexivity|].
      cbn [List.find]. unfold type_writes_to, type_in_range. now rewrite E.
Qed.

(** X18: [apply_type_fixes] first puts every non-empty [import_addition]
    text on top of the text, the last one first, and only then applies
    the other edits, by line number, to the text so grown: after [m]
    imports an edit for line [k] overwrites what was line [k - m].  Each
    position of the result holds the text of the last edit, in descending
    line order, that wrote to it, and otherwise the line of the grown
    text; the edits past the end of the grown text are not applied. *)
Theorem apply_type_fixes_imports_shift
    (content : string) (fixes : list TypeFix) (r : TypeFixResult) :
  fixes <> [] ->
  apply_type_fixes content fixes = Return r ->
  let imports := filter adds_import fixes in
  let others :=
    sort_desc line_lt (filter (fun f => negb (is_import_addition f)) fixes) in
  let grown := (rev (map new_text imports) ++ Py.split_lines content)%list in
  exists lines',
    tr_fixed_content r = Py.join_lines lines'
    /\ List.length lines'
       = List.length imports + List.length (Py.split_lines content)
    /\ tr_fixes_applied r
       = (imports ++ filter (type_in_range (List.length grown)) others)%list
    /\ forall k,
         nth_error lines' k =
           match List.find (type_writes_to (List.length grown) k) (rev others) with
           | Some g => Some (new_text g)
           | None => nth_error grown k
           end.
Proof.
  intros Hne H imports others grown.
  destruct fixes as [|f0 rest]; [congruence|].
  unfold apply_type_fixes in H.
  rewrite insert_imports_spec in H.
  assert (Himp : filter (fun f => negb (Py.is_empty (new_text f)))
                   (filter is_import_addition (f0 :: rest)) = imports).
  { unfold imports, adds_import. symmetry. apply filter_andb. }
  rewrite Himp in H. cbn [app] in H. fold grown in H. fold others in H.
  destruct (replace_loop others grown imports) as [[lines' applied]|e] eqn:El;
    cbn [bind] in H; [|discriminate].
  apply replace_loop_spec in El. destruct El as (Hlen & Hacc & Hnth).
  inversion H; subst r. cbn [tr_fixed_content tr_fixes_applied].
  exists lines'. split; [reflexivity|]. split.
  { rewrite Hlen. unfold grown.
    now rewrite length_app, length_rev, length_map. }
  split; [exact Hacc | exact Hnth].
Qed.

(** On [react_text] the pass over the imports asks for the React import
    and the pass over the casts refines the cast of line 2; applied
    together, the import goes on top and the refined line overwrites line
    1 of the input, while the line with the cast stays as it was. *)
Lemma apply_type_fixes_imports_shift_witness :
  exists fixes r lines',
    generate_type_fixes [] react_text = Return fixes
    /\ apply_type_fixes react_text fixes = Return r
    /\ tr_fixed_content r = Py.join_lines lines'
    /\ List.length lines' = 3
    /\ tr_fixed_content r
       = "import React from 'react';" ++ String Py.nl
         "React.render(x as React.ComponentType);" ++ String Py.nl
         "React.render(x as any);".
Proof.
  eexists. eexists.
  assert (Hg : generate_type_fixes [] react_text
               = Return [react_import;
                         {| line := 2; column := 16;
                            fix_type := "type_assertion_improvement";
                            old_text := "React.render(x as any);";
                            new_text := "React.render(x as React.ComponentType);";
                            description :=
                              "Improve type assertion from 'any' to more specific type";
                            confidence := (8 # 10)%Q;
                            type_info := None |}])
    by (vm_compute; reflexivity).
  match type of Hg with _ = Return ?l => assert (Hne : l <> []) by discriminate end.
  match type of Hne with ?l <> [] =>
    destruct (apply_type_fixes_imports_shift react_text l _ Hne eq_refl)
      as (lines' & Hfc & Hlen & _) end.
  exists lines'.
  split; [exact Hg|]. split; [vm_compute; reflexivity|].
  split; [exact Hfc|]. split; [exact Hlen|]. vm_compute. reflexivity.
Defined.

(* ------------------------------------------------------------------ *)
(** *** The generator as a whole *)
(* ------------------------------------------------------------------ *)

Lemma position_gt_false (x y : TypeFix) :
  position_gt x y = false <-> type_position_le x y.
Proof.
  unfold position_gt, type_position_le.
  destruct (Z.ltb_spec (line y) (line x)) as [H1|H1]; cbn [orb].
  - split; [discriminate|]. lia.
  - destruct (Z.eqb_spec (line y) (line x)) as [H2|H2]; cbn [andb].
    + destruct (Z.ltb_spec (column y) (column x)); split; try lia; discriminate.
    + split; [lia|reflexivity].
Qed.

(** X27: when every diagnostic names a line from 1 on,
    [generate_type_fixes] returns the edits of its five passes, all of
    them, in ascending order of [(line, column)]. *)
Theorem generate_type_fixes_sorted
    (diagnostics : list TypeDiagnostic) (content : string) :
  Forall (fun d => (1 <= diag_line d)%Z) diagnostics ->
  exists fixes diagnostic_fixes,
    generate_type_fixes diagnostics content = Return fixes
    /\ _fix_type_diagnostics source_handlers diagnostics content
       = Return diagnostic_fixes
    /\ Permutation fixes
         (diagnostic_fixes ++ _improve_type_assertions content
          ++ _add_missing_type_annotations content
          ++ _optimize_type_imports content
          ++ _fix_mock_data_types content)
    /\ StronglySorted type_position_le fixes.
Proof.
  intros Hall. unfold generate_type_fixes, _fix_type_diagnostics.
  destruct (fix_diagnostics_loop_in_range source_handlers (Py.split_lines content)
              diagnostics Hall) as (dfs & Hret & _).
  rewrite Hret. cbn [bind].
  eexists. exists dfs. split; [reflexivity|]. split; [reflexivity|].
  split; [apply sort_desc_permutation|].
  match goal with |- StronglySorted _ (sort_desc _ ?l) => generalize l end.
  intros l.
  assert (Hs : StronglySorted (fun a b => position_gt a b = false)
                              (sort_desc position_gt l)).
  { apply sort_desc_sorted_gen.
    - intros x y Hxy. apply position_gt_false.
      destruct (position_gt y x) eqn:E; [|now apply position_gt_false in E].
      unfold position_gt in *.
      apply orb_true_iff in Hxy. apply orb_true_iff in E.
      rewrite !andb_true_iff, !Z.ltb_lt, !Z.eqb_eq in *. lia.
    - intros x y z Hxy Hyz. apply position_gt_false.
      apply position_gt_false in Hxy. apply position_gt_false in Hyz.
      unfold type_position_le in *. lia. }
  induction Hs as [|a l' Hl IH Ha]; constructor; [exact IH|].
  eapply Forall_impl; [|exact Ha]. intros b Hb. now apply position_gt_false.
Qed.

Lemma generate_type_fixes_sorted_witness :
  exists fixes,
    generate_type_fixes [argument_mismatch]
      (mock_text ++ String Py.nl "b" ++ String Py.nl expect_line)
    = Return fixes
    /\ map line fixes = [1; 2; 4]%Z
    /\ StronglySorted type_position_le fixes.
Proof.
  assert (Hall : Forall (fun d => (1 <= diag_line d)%Z) [argument_mismatch]).
  { repeat constructor; cbn; lia. }
  destruct (generate_type_fixes_sorted [argument_mismatch]
              (mock_text ++ String Py.nl "b" ++ String Py.nl expect_line) Hall)
    as (fixes & dfs & Hret & _ & _ & Hs).
  exists fixes. split; [exact Hret|]. split; [|exact Hs].
  assert (E : Return fixes
              = generate_type_fixes [argument_mismatch]
                  (mock_text ++ String Py.nl "b" ++ String Py.nl expect_line))
    by (symmetry; exact Hret).
  vm_compute in E. injection E as ->. reflexivity.
Defined.

End TypeFixProperties.

(* ================================================================== *)
(** ** The context engine: ranges of the scores *)
(* ================================================================== *)

Section MLProperties.

Import MLContextEngine.

Lemma nodup_length_le {A : Type} (dec : forall x y : A, {x = y} + {x <> y})
    (l : list A) :
  List.length (nodup dec l) <= List.length l.
Proof.
  induction l as [|x l IH]; cbn [nodup List.length]; [lia|].
  destruct (in_dec dec x l); cbn [List.length]; lia.
Qed.

Lemma overlap_le (a b : list string) : overlap a b <= List.length a.
Proof.
  unfold overlap. etransitivity; [apply nodup_length_le|apply filter_length_le].
Qed.

Lemma ratio_bounds (n d : nat) :
  n <= S d -> (0 <= ratio n (S d))%Q /\ (ratio n (S d) <= 1)%Q.
Proof.
  intros Hle. unfold ratio.
  pose proof (inject_nat_pos d) as Hd.
  split.
  - apply Qle_shift_div_l; [exact Hd|]. rewrite Qmult_0_l.
    change 0%Q with (inject_Z 0). rewrite <- Zle_Qle. lia.
  - apply Qle_shift_div_r; [exact Hd|]. rewrite Qmult_1_l.
    rewrite <- Zle_Qle. lia.
Qed.

Lemma py_min_le_r (a b : Q) : (0 <= a)%Q -> (0 <= b)%Q ->
  (0 <= py_min a b)%Q /\ (py_min a b <= b)%Q.
Proof.
  intros Ha Hb. unfold py_min. destruct (Qltb b a) eqn:E.
  - split; [exact Hb|apply Qle_refl].
  - apply Qltb_ge in E. split; assumption.
Qed.

Lemma ratio_overlap_nonneg (a b : list string) :
  a <> [] -> (0 <= ratio (overlap a b) (List.length a))%Q.
Proof.
  intros Hne. pose proof (overlap_le a b) as Ho.
  destruct a as [|x a]; [congruence|]. cbn [List.length] in *.
  apply (ratio_bounds _ _ Ho).
Qed.

Lemma _calculate_context_match_bounds (fx : FixDict) (context : CodeContext) :
  (0 <= _calculate_context_match fx context)%Q
  /\ (_calculate_context_match fx context <= 1)%Q.
Proof.
  unfold _calculate_context_match. cbv zeta.
  apply py_min_le_r; [|discriminate].
  repeat match goal with
         | |- (0 <= match ?l with [] => _ | _ :: _ => _ end)%Q => destruct l eqn:?
         | |- (0 <= match ?o with Some _ => _ | None => _ end)%Q => destruct o
         | |- (0 <= if ?b then _ else _)%Q => destruct b
         | |- (0 <= Binary64.add _ _)%Q => apply binary64_add_nonneg
         | |- (0 <= Binary64.mul _ _)%Q => apply binary64_mul_nonneg
         | |- (0 <= ratio (overlap _ _) _)%Q =>
             apply ratio_overlap_nonneg; discriminate
         | |- (0 <= _ # _)%Q => discriminate
         end.
Qed.

Lemma _get_ml_confidence_bounds
    (e : engine) (fx : FixDict) (context : CodeContext) (code : string) :
  (1 # 10 <= _get_ml_confidence e fx context code)%Q
  /\ (_get_ml_confidence e fx context code <= 1)%Q.
Proof.
  unfold _get_ml_confidence.
  destruct (predict_fix_type e code) as [predicted_fix base_confidence].
  cbv zeta.
  match goal with |- context [py_min ?c _] => generalize c end.
  intros c.
  assert (H0 : (1 # 10 <= Binary64.round64 (1 # 10))%Q)
    by (vm_compute; discriminate).
  assert (H1 : (Binary64.round64 (1 # 10) <= 1)%Q) by (vm_compute; discriminate).
  set (t := Binary64.round64 (1 # 10)) in *.
  unfold py_max, py_min.
  destruct (Qltb 1 c) eqn:E1.
  - destruct (Qltb t 1) eqn:E2; split; try lra; discriminate.
  - apply Qltb_ge in E1. destruct (Qltb t c) eqn:E2.
    + apply Qltb_lt in E2. split; lra.
    + split; lra.
Qed.

Lemma map_outcome_Forall {A B : Type} (f : A -> outcome B) (P : B -> Prop)
    (l : list A) : forall bs,
  (forall a b, f a = Return b -> P b) ->
  map_outcome f l = Return bs -> Forall P bs.
Proof.
  induction l as [|a l IH]; cbn [map_outcome]; intros bs HP H.
  - inversion H. constructor.
  - destruct (f a) as [b|] eqn:E; [|discriminate]. cbn [bind] in H.
    destruct (map_outcome f l) as [bs'|]; [|discriminate]. cbn [bind] in H.
    inversion H; subst. constructor; eauto.
Qed.

(** X19: Every suggestion that [suggest_contextual_fixes] returns has a
    confidence between 0.1 and 1, whatever the classifier answers, a
    context match between 0 and 1, hence a ranking score between 0.07
    and 1 in exact arithmetic, and at most five similar patterns. *)
Theorem suggest_contextual_fixes_bounds
    (e : engine) (code file_path : string) (available_fixes : list FixDict)
    (ranked : list ContextualFix) :
  suggest_contextual_fixes e code file_path available_fixes = Return ranked ->
  Forall (fun x =>
            (1 # 10 <= confidence x <= 1)%Q
            /\ (0 <= context_match x <= 1)%Q
            /\ (7 # 100 <= score x <= 1)%Q
            /\ List.length (similar_patterns x) <= 5) ranked.
Proof.
  unfold suggest_contextual_fixes. intros H.
  destruct (map_outcome _ available_fixes) as [cs|] eqn:Hcs; [|discriminate].
  cbn [bind] in H. inversion H; subst ranked.
  eapply Permutation_Forall; [apply Permutation_sym, sort_desc_permutation|].
  eapply map_outcome_Forall; [|exact Hcs].
  intros fx x Hx. unfold contextual_fix in Hx.
  destruct (fd_fix_type fx) as [t|]; [|discriminate]. cbn [item bind] in Hx.
  inversion Hx; subst x. unfold score. cbn [confidence context_match similar_patterns].
  pose proof (_calculate_context_match_bounds fx
                (analyze_context e code file_path)) as [Hm0 Hm1].
  pose proof (_get_ml_confidence_bounds e fx
                (analyze_context e code file_path) code) as [Hc0 Hc1].
  repeat split; try assumption; try lra.
  unfold _find_similar_patterns. apply firstn_le_length.
Qed.

Lemma suggest_contextual_fixes_bounds_witness :
  exists ranked,
    suggest_contextual_fixes overconfident_engine "expect(x)" "a.test.tsx"
      [candidate "import_fix" "first"] = Return ranked
    /\ Forall (fun x => (confidence x <= 1)%Q) ranked.
Proof.
  eexists. split; [vm_compute; reflexivity|].
  eapply Forall_impl;
    [|exact (suggest_contextual_fixes_bounds overconfident_engine "expect(x)"
               "a.test.tsx" [candidate "import_fix" "first"] _ eq_refl)].
  intros x (Hc & _). exact (proj2 Hc).
Defined.

(** X20: [suggest_contextual_fixes] raises [KeyError('fix_type')] as
    soon as one of the available fixes has no [fix_type], although the
    record it builds would take the default [unknown] for it. *)
Theorem suggest_contextual_fixes_key_error
    (e : engine) (code file_path : string) (available_fixes : list FixDict) :
  Exists (fun fx => fd_fix_type fx = None) available_fixes ->
  suggest_contextual_fixes e code file_path available_fixes
  = Raise (KeyError "fix_type").
Proof.
  unfold suggest_contextual_fixes. intros Hex.
  assert (Hm : map_outcome
                 (contextual_fix e (analyze_context e code file_path) code)
                 available_fixes = Raise (KeyError "fix_type")).
  { induction available_fixes as [|fx l IH]; [inversion Hex|].
    cbn [map_outcome]. unfold contextual_fix at 1.
    destruct (fd_fix_type fx) as [t|] eqn:Et; cbn [item bind]; [|reflexivity].
    rewrite IH; [reflexivity|].
    inversion Hex as [? ? Hhd|? ? Htl]; subst; [congruence|exact Htl]. }
  rewrite Hm. reflexivity.
Qed.

Lemma suggest_contextual_fixes_key_error_witness :
  suggest_contextual_fixes demo_engine "expect(x)" "a.test.tsx"
    [candidate "import_fix" "first"; untyped_candidate]
  = Raise (KeyError "fix_type").
Proof.
  apply suggest_contextual_fixes_key_error.
  apply Exists_cons_tl. apply Exists_cons_hd. reflexivity.
Defined.

Lemma last_n_app_one {A : Type} (n : nat) (l : list A) (x : A) :
  last_n (S n) (l ++ [x]) = (last_n n l ++ [x])%list.
Proof.
  unfold last_n. rewrite length_app. cbn [List.length].
  replace (List.length l + 1 - S n) with (List.length l - n) by lia.
  rewrite skipn_app.
  replace (List.length l - n - List.length l) with 0 by lia. reflexivity.
Qed.

Lemma last_n_incl {A : Type} (n : nat) (l : list A) (x : A) :
  In x (last_n n l) -> In x l.
Proof.
  unfold last_n. intros H. rewrite <- (firstn_skipn (List.length l - n) l).
  apply in_or_app. now right.
Qed.

Lemma firstn_In {A : Type} (n : nat) (l : list A) (x : A) :
  In x (firstn n l) -> In x l.
Proof.
  intros H. rewrite <- (firstn_skipn n l). apply in_or_app. now left.
Qed.

(** X21: [_find_similar_patterns] does not look at the code: it returns
    the hashes of the first five successful entries of the given fix
    type among the last fifty of the history, oldest first.  So the
    newest entry, when it is such an entry, is reported exactly when
    fewer than five of the forty-nine before it are. *)
Theorem _find_similar_patterns_oldest_first
    (e : engine) (code fix_type : string) :
  (forall code', _find_similar_patterns e code' fix_type
                 = _find_similar_patterns e code fix_type)
  /\ List.length (_find_similar_patterns e code fix_type) <= 5
  /\ (forall h, In h (_find_similar_patterns e code fix_type) ->
        exists entry,
          In entry (fix_history e)
          /\ code_hash entry = h
          /\ h_fix_type entry = fix_type
          /\ h_success entry = true)
  /\ (forall history entry,
        fix_history e = (history ++ [entry])%list ->
        successful_entry fix_type entry = true ->
        let earlier := filter (successful_entry fix_type) (last_n 49 history) in
        _find_similar_patterns e code fix_type
        = if (List.length earlier <? 5)%nat
          then (map code_hash earlier ++ [code_hash entry])%list
          else firstn 5 (map code_hash earlier)).
Proof.
  split; [reflexivity|]. split; [apply firstn_le_length|]. split.
  - unfold _find_similar_patterns. intros h Hh.
    apply firstn_In in Hh.
    apply in_map_iff in Hh. destruct Hh as (entry & Hhash & Hin).
    apply filter_In in Hin. destruct Hin as [Hin Hp].
    apply andb_true_iff in Hp. destruct Hp as [Ht Hs].
    exists entry. split; [now apply last_n_incl in Hin|].
    split; [exact Hhash|]. split; [now apply String.eqb_eq|exact Hs].
  - intros history entry Hh Hentry earlier.
    unfold _find_similar_patterns. rewrite Hh.
    change 50 with (S 49). rewrite last_n_app_one, filter_app.
    change (fun entry0 => String.eqb (h_fix_type entry0) fix_type && h_success entry0)
      with (successful_entry fix_type).
    cbn [filter]. rewrite Hentry. fold earlier. rewrite map_app. cbn [map].
    destruct (Nat.ltb_spec (List.length earlier) 5) as [Hlt|Hge].
    + apply firstn_all2. rewrite length_app, length_map. cbn [List.length]. lia.
    + rewrite firstn_app, length_map.
      replace (5 - List.length earlier) with 0 by lia.
      cbn [firstn]. apply app_nil_r.
Qed.

End MLProperties.

(* ================================================================== *)
(** ** The pattern classifier *)
(* ================================================================== *)

Section ClassifierProperties.

Import PatternClassifier.

Variable hash : string -> string.

Lemma lookup_update {A : Type} (key : string) (f : A -> A) (d : list (string * A))
    (k : string) :
  lookup k (update key f d)
  = if String.eqb key k then option_map f (lookup key d) else lookup k d.
Proof.
  induction d as [|[k0 v] d IH]; cbn [update lookup].
  - now destruct (String.eqb key k).
  - destruct (String.eqb_spec k0 key) as [->|Hne]; cbn [lookup].
    + destruct (String.eqb_spec key k) as [->|Hk]; [reflexivity|reflexivity].
    + rewrite IH. destruct (String.eqb_spec key k) as [->|Hk].
      * destruct (String.eqb_spec k0 k); [congruence|reflexivity].
      * reflexivity.
Qed.

Lemma lookup_app_one {A : Type} (d : list (string * A)) (key : string) (v : A)
    (k : string) :
  lookup k (d ++ [(key, v)])
  = match lookup k d with
    | Some x => Some x
    | None => if String.eqb key k then Some v else None
    end.
Proof.
  induction d as [|[k0 v0] d IH]; cbn [app lookup]; [reflexivity|].
  destruct (String.eqb k0 k); [reflexivity|exact IH].
Qed.

(** What a call of [learn_pattern] does to the entry of each pattern. *)
Lemma lookup_learn_pattern (c : list (string * pattern)) (code fix_type : string)
    (success : bool) (k : string) :
  lookup k (learn_pattern hash c code fix_type success)
  = if String.eqb (hash code) k
    then Some (record_attempt code fix_type success
                 (match lookup (hash code) c with
                  | Some p => p
                  | None => new_pattern
                  end))
    else lookup k c.
Proof.
  unfold learn_pattern. rewrite lookup_update.
  destruct (lookup (hash code) c) as [p|] eqn:E.
  - rewrite E. reflexivity.
  - rewrite !lookup_app_one, E, String.eqb_refl. cbn [option_map].
    destruct (String.eqb_spec (hash code) k) as [<-|Hne]; [reflexivity|].
    now destruct (lookup k c).
Qed.

Lemma count_of_increment (key k : string) (d : list (string * Z)) :
  count_of k (increment key d)
  = (count_of k d + if String.eqb key k then 1 else 0)%Z.
Proof.
  unfold count_of.
  induction d as [|[k0 v] d IH]; cbn [increment lookup].
  - destruct (String.eqb key k); reflexivity.
  - destruct (String.eqb_spec k0 key) as [->|Hne]; cbn [lookup].
    + destruct (String.eqb key k); lia.
    + destruct (String.eqb_spec k0 k) as [->|Hk].
      * destruct (String.eqb_spec key k); [congruence|lia].
      * exact IH.
Qed.

Lemma increment_keys (key : string) (d : list (string * Z)) :
  map fst (increment key d)
  = if existsb (String.eqb key) (map fst d) then map fst d
    else (map fst d ++ [key])%list.
Proof.
  induction d as [|[k0 v] d IH]; cbn [increment map existsb fst app]; [reflexivity|].
  rewrite (String.eqb_sym key k0).
  destruct (String.eqb k0 key); cbn [map fst orb]; [reflexivity|].
  rewrite IH. now destruct (existsb (String.eqb key) (map fst d)).
Qed.

Lemma increment_NoDup (key : string) (d : list (string * Z)) :
  NoDup (map fst d) -> NoDup (map fst (increment key d)).
Proof.
  intros H. rewrite increment_keys.
  destruct (existsb (String.eqb key) (map fst d)) eqn:E; [exact H|].
  apply NoDup_app; [exact H | repeat constructor; intros [] |].
  intros x Hx [<-|[]].
  assert (existsb (String.eqb key) (map fst d) = true); [|congruence].
  apply existsb_exists. exists key. split; [exact Hx|apply String.eqb_refl].
Qed.

Lemma increment_nonempty (key : string) (d : list (string * Z)) :
  increment key d <> [].
Proof.
  destruct d as [|[k v] d]; cbn [increment]; [discriminate|].
  destruct (String.eqb k key); discriminate.
Qed.

Lemma lookup_In_NoDup (k : string) (v : Z) (d : list (string * Z)) :
  NoDup (map fst d) -> In (k, v) d -> lookup k d = Some v.
Proof.
  induction d as [|[k0 v0] d IH]; cbn [map fst lookup]; intros Hnd Hin; [destruct Hin|].
  inversion Hnd as [|? ? Hnot Hnd']; subst.
  destruct Hin as [Heq|Hin].
  - inversion Heq; subst. now rewrite String.eqb_refl.
  - destruct (String.eqb_spec k0 k) as [->|Hne]; [|auto].
    exfalso. apply Hnot. apply in_map_iff. exists (k, v). auto.
Qed.

Lemma lookup_Some_In {A : Type} (k : string) (v : A) (d : list (string * A)) :
  lookup k d = Some v -> In (k, v) d.
Proof.
  induction d as [|[k0 v0] d IH]; cbn [lookup]; [discriminate|].
  destruct (String.eqb_spec k0 k) as [->|Hne].
  - intros H. inversion H. now left.
  - intros H. right. auto.
Qed.

Lemma max_by_count_spec (items : list (string * Z)) : forall best,
  In (max_by_count best items) (best :: items)
  /\ forall x, In x (best :: items) -> (snd x <= snd (max_by_count best items))%Z.
Proof.
  induction items as [|y items IH]; intros best; cbn [max_by_count].
  - split; [now left|]. intros x [<-|[]]. lia.
  - destruct (IH (if (snd best <? snd y)%Z then y else best)) as [Hin Hmax].
    split.
    + destruct Hin as [Hin|Hin]; [|right; now right].
      rewrite <- Hin. destruct (snd best <? snd y)%Z; [right; now left|now left].
    + intros x Hx.
      assert (Hb : (snd best <= snd (max_by_count
                                       (if (snd best <? snd y)%Z then y else best)
                                       items))%Z
                   /\ (snd y <= snd (max_by_count
                                       (if (snd best <? snd y)%Z then y else best)
                                       items))%Z).
      { pose proof (Hmax _ (or_introl eq_refl)) as H0.
        destruct (Z.ltb_spec (snd best) (snd y)); split; lia. }
      destruct Hx as [<-|[<-|Hx]]; [apply Hb|apply Hb|].
      apply Hmax. now right.
Qed.

Lemma summarises_new_pattern : summarises new_pattern [].
Proof.
  unfold summarises. cbn. repeat split; auto. constructor.
Qed.

Lemma summarises_record_attempt (p : pattern) (attempts : list attempt) (a : attempt) :
  summarises p attempts ->
  summarises (record_attempt (a_code a) (a_fix_type a) (a_success a) p)
             (attempts ++ [a]).
Proof.
  intros (Ht & Hs & Hc & Hnd & He). unfold summarises, record_attempt.
  cbn [total_attempts successes fix_types examples].
  rewrite !filter_app, !length_app, map_app. cbn [filter map List.length].
  split; [lia|]. split.
  { destruct (a_success a); cbn [List.length]; lia. }
  split.
  { intros t. rewrite count_of_increment, Hc, filter_app, length_app.
    cbn [filter]. unfold has_type at 3.
    destruct (String.eqb (a_fix_type a) t); cbn [List.length]; lia. }
  split; [now apply increment_NoDup|]. now rewrite He.
Qed.

Lemma classifier_invariant_step (c : list (string * pattern))
    (attempts : list attempt) (a : attempt) :
  classifier_invariant hash c attempts ->
  classifier_invariant hash
    (learn_pattern hash c (a_code a) (a_fix_type a) (a_success a))
    (attempts ++ [a]).
Proof.
  intros Hinv k. rewrite lookup_learn_pattern, filter_app. cbn [filter].
  unfold same_pattern at 2 4 6.
  destruct (String.eqb_spec (hash (a_code a)) k) as [Hk|Hk].
  - split; [intros E; now apply app_eq_nil in E|].
    apply summarises_record_attempt.
    specialize (Hinv k). rewrite Hk.
    destruct (lookup k c) as [p|]; [apply Hinv|].
    rewrite Hinv. apply summarises_new_pattern.
  - rewrite app_nil_r. apply Hinv.
Qed.

Lemma classifier_invariant_learn_all (attempts : list attempt) : forall c before,
  classifier_invariant hash c before ->
  classifier_invariant hash (learn_all hash c attempts) (before ++ attempts).
Proof.
  induction attempts as [|a attempts IH]; intros c before Hinv; cbn [learn_all fold_left].
  - now rewrite app_nil_r.
  - replace (before ++ a :: attempts)%list with ((before ++ [a]) ++ attempts)%list
      by now rewrite <- app_assoc.
    apply IH. now apply classifier_invariant_step.
Qed.

Lemma _heuristic_prediction_bounds (code : string) :
  (5 # 10 <= snd (_heuristic_prediction code))%Q
  /\ (snd (_heuristic_prediction code) <= 9 # 10)%Q.
Proof.
  unfold _heuristic_prediction.
  repeat match goal with
         | |- context [if ?b then _ else _] => destruct b
         end; cbn [snd]; split; discriminate.
Qed.

(** X22: A classifier that starts empty and learns from a sequence of
    attempts never fails to predict.  For a code whose pattern it has
    seen, it answers a fix type tried most often on that pattern,
    with the fraction of the attempts on that pattern that succeeded; for any other code it answers the
    heuristic, whose confidence lies between 0.5 and 0.9. *)
Theorem predict_fix_type_learned (attempts : list attempt) (code : string) :
  let c := learn_all hash [] attempts in
  let seen := filter (same_pattern hash (hash code)) attempts in
  exists t r,
    predict_fix_type hash c code = Predicted t r
    /\ (0 <= r)%Q /\ (r <= 1)%Q
    /\ match seen with
       | [] => (t, r) = _heuristic_prediction code /\ (5 # 10 <= r)%Q /\ (r <= 9 # 10)%Q
       | _ :: _ =>
           r = MLContextEngine.ratio (List.length (filter a_success seen))
                                     (List.length seen)
           /\ In t (map a_fix_type seen)
           /\ forall t', List.length (filter (has_type t') seen)
                         <= List.length (filter (has_type t) seen)
       end.
Proof.
  intros c seen.
  pose proof (classifier_invariant_learn_all attempts [] []
                (fun k => eq_refl)) as Hinv.
  cbn [app] in Hinv. specialize (Hinv (hash code)). fold c in Hinv. fold seen in Hinv.
  unfold predict_fix_type.
  destruct (lookup (hash code) c) as [p|].
  - destruct Hinv as (Hne & Ht & Hs & Hc & Hnd & _).
    destruct seen as [|a0 seen'] eqn:Eseen; [congruence|].
    rewrite <- Eseen in *.
    assert (Hlen : List.length seen = S (List.length seen'))
      by (rewrite Eseen; reflexivity).
    destruct (Z.eqb_spec (total_attempts p) 0) as [E0|_]; [lia|].
    destruct (fix_types p) as [|x rest] eqn:Ef.
    { specialize (Hc (a_fix_type a0)). unfold count_of in Hc. cbn [lookup] in Hc.
      rewrite Eseen in Hc. cbn [filter] in Hc. unfold has_type at 1 in Hc.
      rewrite String.eqb_refl in Hc. cbn [List.length] in Hc. lia. }
    destruct (max_by_count_spec rest x) as [Hin Hmax].
    destruct (max_by_count x rest) as [t v] eqn:Em. cbn [fst snd] in *.
    assert (Hv : count_of t (x :: rest) = v).
    { unfold count_of. now rewrite (lookup_In_NoDup t v (x :: rest) Hnd Hin). }
    assert (Hbest : forall t',
               List.length (filter (has_type t') seen)
               <= List.length (filter (has_type t) seen)).
    { intros t'. pose proof (Hc t') as H1. pose proof (Hc t) as H2.
      rewrite Hv in H2. unfold count_of in H1.
      destruct (lookup t' (x :: rest)) as [v'|] eqn:El.
      - apply lookup_Some_In in El. apply Hmax in El. cbn [snd] in El. lia.
      - lia. }
    exists t, (inject_Z (successes p) / inject_Z (total_attempts p))%Q.
    rewrite Ht, Hs. fold (MLContextEngine.ratio
                            (List.length (filter a_success seen)) (List.length seen)).
    assert (Hle : List.length (filter a_success seen) <= List.length seen)
      by apply filter_length_le.
    rewrite Hlen in Hle |- *.
    destruct (ratio_bounds _ _ Hle) as [Hr0 Hr1].
    split; [reflexivity|]. split; [exact Hr0|]. split; [exact Hr1|].
    rewrite <- Hlen. split; [reflexivity|]. rewrite Eseen at 1. rewrite <- Eseen.
    split; [|exact Hbest].
    specialize (Hbest (a_fix_type a0)).
    assert (H1 : 1 <= List.length (filter (has_type (a_fix_type a0)) seen)).
    { rewrite Eseen. cbn [filter]. unfold has_type at 1.
      rewrite String.eqb_refl. cbn [List.length]. lia. }
    destruct (filter (has_type t) seen) as [|a1 l1] eqn:E1; [cbn in Hbest; lia|].
    assert (Ha1 : In a1 (filter (has_type t) seen)) by (rewrite E1; now left).
    apply filter_In in Ha1. destruct Ha1 as [Ha1 Hty].
    apply in_map_iff. exists a1. split; [|exact Ha1].
    now apply String.eqb_eq.
  - rewrite Hinv.
    pose proof (_heuristic_prediction_bounds code) as [H0 H1].
    destruct (_heuristic_prediction code) as [t r]. cbn [snd] in *.
    exists t, r. split; [reflexivity|].
    split; [lra|]. split; [lra|]. split; [reflexivity|]. split; assumption.
Qed.

End ClassifierProperties.

(* ================================================================== *)
(** ** The orchestrator: what every result satisfies *)
(* ================================================================== *)

Section OrchestratorProperties.

Variable env : fixer_env.

Lemma fix_count_dict_set_fresh (key : string) (v : list string)
    (d : list (string * list string)) :
  dict_get key d = None ->
  fix_count (dict_set key v d) = fix_count d + List.length v.
Proof.
  unfold fix_count.
  induction d as [|[k0 v0] d IH]; cbn [dict_get dict_set map snd List.concat].
  - intros _. now rewrite app_nil_r.
  - destruct (String.eqb k0 key); [discriminate|]. intros H.
    cbn [map snd List.concat]. rewrite !length_app, (IH H). lia.
Qed.

Lemma fix_count_dict_extend (key : string) (v : list string)
    (d : list (string * list string)) :
  fix_count (dict_set key (get (dict_get key d) [] ++ v)%list d)
  = fix_count d + List.length v.
Proof.
  unfold fix_count.
  induction d as [|[k0 v0] d IH]; cbn [dict_get dict_set map snd List.concat get].
  - cbn [app]. now rewrite app_nil_r.
  - destruct (String.eqb k0 key) eqn:E; cbn [map snd List.concat get].
    + rewrite !length_app. lia.
    + rewrite !length_app, IH. lia.
Qed.

Lemma dict_set_keys (key : string) (v : list string)
    (d : list (string * list string)) :
  incl (map fst (dict_set key v d)) (map fst d ++ [key]).
Proof.
  induction d as [|[k0 v0] d IH]; cbn [dict_set map fst app].
  - apply incl_refl.
  - destruct (String.eqb k0 key); cbn [map fst].
    + apply incl_cons; [now left|]. apply incl_tl, incl_appl, incl_refl.
    + apply incl_cons; [now left|]. now apply incl_tl.
Qed.

Lemma dict_get_not_in (key : string) (d : list (string * list string)) :
  ~ In key (map fst d) -> dict_get key d = None.
Proof.
  induction d as [|[k0 v0] d IH]; cbn [dict_get map fst]; [reflexivity|].
  intros H. destruct (String.eqb_spec k0 key) as [->|Hne].
  - exfalso. apply H. now left.
  - apply IH. intros Hin. apply H. now right.
Qed.

Lemma ast_pass_applied (file_path content : string) (a : ASTAnalysis) (r : FixResult) :
  ast_pass env file_path content = Return (a, Some r) ->
  success r = true -> fixes_applied r <> [].
Proof.
  unfold ast_pass.
  destruct (analyze_with_content _ file_path content) as [an|]; [|discriminate].
  cbn [bind].
  destruct (generate_fixes an content) as [[|f fixes]|]; cbn [bind]; try discriminate.
  destruct (apply_fixes content (f :: fixes)) as [r0|] eqn:E; cbn [bind];
    [|discriminate].
  intros H Hs. inversion H; subst r0.
  apply apply_fixes_success in E. rewrite Hs in E.
  intros Hnil. rewrite Hnil in E. discriminate.
Qed.

Lemma consistent_extend (original : string) (st : locals) (content : string)
    (d : list (string * list string)) (descriptions : list string)
    (a : option ASTAnalysis) (manual : bool) (errors : list string) :
  consistent original st ->
  fix_count d = fix_count (l_fixes_by_engine st) + List.length descriptions ->
  descriptions <> [] ->
  (manual = true -> errors <> []) ->
  consistent original
    (mkLocals content (all_fixes st ++ descriptions)%list d a manual errors).
Proof.
  intros [Hc _] Hd Hne Hm. unfold consistent.
  cbn [l_fixes_by_engine all_fixes current_content l_manual_review_needed
       l_errors_remaining].
  split; [rewrite Hd, Hc, length_app; reflexivity|].
  assert (Hall : (all_fixes st ++ descriptions)%list <> []).
  { intros E. apply app_eq_nil in E. now destruct E. }
  split; [intros E; contradiction|]. intros Ht. split; [exact Hall|auto].
Qed.

Lemma consistent_error (original : string) (st : locals) (a : option ASTAnalysis)
    (message : string) :
  consistent original st ->
  consistent original
    (mkLocals (current_content st) (all_fixes st) (l_fixes_by_engine st) a
       (l_manual_review_needed st) (list_append (l_errors_remaining st) message)).
Proof.
  intros (H1 & H2 & H3). unfold consistent, list_append.
  cbn [l_fixes_by_engine all_fixes current_content l_manual_review_needed
       l_errors_remaining].
  split; [exact H1|]. split; [exact H2|]. intros Hm. split; [now apply H3|].
  intros E. apply app_eq_nil in E. destruct E as [_ E]. discriminate.
Qed.

Lemma consistent_analysis (original : string) (st : locals) (a : option ASTAnalysis) :
  consistent original st ->
  consistent original
    (mkLocals (current_content st) (all_fixes st) (l_fixes_by_engine st) a
       (l_manual_review_needed st) (l_errors_remaining st)).
Proof.
  intros H. exact H.
Qed.

Lemma map_description_nonempty (fixes : list SyntaxFix) :
  fixes <> [] -> map description fixes <> [].
Proof.
  destruct fixes; [congruence|discriminate].
Qed.

Lemma phase1_consistent (file_path original : string) (st : locals) :
  consistent original st ->
  dict_get "ast" (l_fixes_by_engine st) = None ->
  consistent original (phase1 env file_path st)
  /\ incl (map fst (l_fixes_by_engine (phase1 env file_path st)))
          (map fst (l_fixes_by_engine st) ++ ["ast"]).
Proof.
  intros Hst Hfresh. unfold phase1.
  destruct (analyze_with_content _ file_path (current_content st)) as [analysis|e].
  2:{ split; [now apply consistent_error|]. cbn. apply incl_appl, incl_refl. }
  destruct (generate_fixes analysis (current_content st)) as [[|f fixes]|e];
    cbn [bind].
  - split; [now apply consistent_analysis|]. cbn. apply incl_appl, incl_refl.
  - destruct (apply_fixes (current_content st) (f :: fixes)) as [r|e] eqn:E;
      cbn [bind].
    + destruct (success r) eqn:Es.
      * split.
        -- apply consistent_extend;
             [exact Hst | now apply fix_count_dict_set_fresh | |].
           ++ apply map_description_nonempty.
              apply apply_fixes_success in E. rewrite Es in E.
              intros Hnil. rewrite Hnil in E. discriminate.
           ++ destruct Hst as (_ & _ & H3). intros Hm. apply (H3 Hm).
        -- cbn [l_fixes_by_engine]. apply dict_set_keys.
      * split; [now apply consistent_analysis|]. cbn. apply incl_appl, incl_refl.
    + split; [now apply consistent_error|]. cbn. apply incl_appl, incl_refl.
  - split; [now apply consistent_error|]. cbn. apply incl_appl, incl_refl.
Qed.

Lemma phase2_consistent (file_path original : string) (st : locals) :
  consistent original st ->
  dict_get "enhanced" (l_fixes_by_engine st) = None ->
  consistent original (phase2 env file_path st)
  /\ incl (map fst (l_fixes_by_engine (phase2 env file_path st)))
          (map fst (l_fixes_by_engine st) ++ ["enhanced"]).
Proof.
  intros Hst Hfresh. unfold phase2.
  destruct (enhanced_fix_file env (file_path ++ ".temp") (current_content st))
    as [er|e].
  2:{ split; [now apply consistent_error|]. cbn. apply incl_appl, incl_refl. }
  destruct (changes_made er) as [|c cs] eqn:Ec.
  { split; [exact Hst|]. apply incl_appl, incl_refl. }
  destruct (enh_success er).
  2:{ split; [exact Hst|]. apply incl_appl, incl_refl. }
  split.
  - apply consistent_extend;
      [exact Hst | now apply fix_count_dict_set_fresh | discriminate |].
    destruct (issues_found er) as [|i issues].
    + rewrite app_nil_r. destruct Hst as (_ & _ & H3). intros Hm. apply (H3 Hm).
    + intros _ E. apply app_eq_nil in E. destruct E as [_ E]. discriminate.
  - cbn [l_fixes_by_engine]. apply dict_set_keys.
Qed.

Lemma refine_consistent (file_path original : string) (rounds : nat) :
  forall iteration st,
  consistent original st ->
  consistent original (refine env file_path rounds iteration st).
Proof.
  induction rounds as [|rounds IH]; intros iteration st H; cbn [refine]; [exact H|].
  destruct (ast_pass env file_path (current_content st)) as [[a [r|]]|e] eqn:E;
    try exact H.
  apply IH. destruct (success r) eqn:Es; [|exact H].
  apply consistent_extend; [exact H | apply fix_count_dict_extend | |].
  - apply map_description_nonempty. eapply ast_pass_applied; eauto.
  - destruct H as (_ & _ & H3). intros Hm. apply (H3 Hm).
Qed.

Lemma refine_keys (file_path : string) (rounds : nat) : forall iteration st,
  incl (map fst (l_fixes_by_engine (refine env file_path rounds iteration st)))
       (map fst (l_fixes_by_engine st) ++ map iteration_key (seq iteration rounds)).
Proof.
  induction rounds as [|rounds IH]; intros iteration st; cbn [refine seq map].
  - rewrite app_nil_r. apply incl_refl.
  - destruct (ast_pass env file_path (current_content st)) as [[a [r|]]|e];
      try (apply incl_appl, incl_refl).
    eapply incl_tran; [apply IH|]. apply incl_app.
    + destruct (success r); cbn [l_fixes_by_engine].
      * eapply incl_tran; [apply dict_set_keys|].
        apply incl_app; [apply incl_appl, incl_refl|].
        apply incl_appr. intros x [<-|[]]. now left.
      * apply incl_appl, incl_refl.
    + apply incl_appr, incl_tl, incl_refl.
Qed.

Lemma phase3_consistent (file_path original : string) (st : locals) :
  consistent original st ->
  consistent original (phase3 env file_path st)
  /\ incl (map fst (l_fixes_by_engine (phase3 env file_path st)))
          (map fst (l_fixes_by_engine st)
           ++ map iteration_key (seq 1 (max_iterations - 1))).
Proof.
  intros H. unfold phase3.
  destruct ((0 <? List.length (all_fixes st))%nat && (1 <? max_iterations)%nat).
  - split; [now apply refine_consistent|apply refine_keys].
  - split; [exact H|apply incl_appl, incl_refl].
Qed.

Lemma incl_app_left {A : Type} (a b c : list A) :
  incl a b -> incl (a ++ c) (b ++ c).
Proof.
  intros H. apply incl_app; [now apply incl_appl|apply incl_appr, incl_refl].
Qed.

(** The two shapes of a result of [process_file]: the record of the
    [except] clause, or the record built from local variables that the
    three phases left consistent. *)
Lemma process_file_cases (file_path : string) (dry_run : bool) :
  (exists e, process_file env file_path dry_run = critical_error env file_path e)
  \/ (exists original st,
        read_file env file_path = Return original
        /\ consistent original st
        /\ incl (map fst (l_fixes_by_engine st)) engine_keys
        /\ process_file env file_path dry_run
           = {| ng_success := (0 <? List.length (all_fixes st))%nat;
                ng_file_path := file_path;
                original_content := original;
                ng_fixed_content := current_content st;
                total_fixes := List.length (all_fixes st);
                confidence_score :=
                  _calculate_confidence original (current_content st) (all_fixes st)
                    (l_ast_analysis st) (l_manual_review_needed st)
                    (l_errors_remaining st);
                processing_time := file_time env file_path;
                fixes_by_engine := l_fixes_by_engine st;
                ast_analysis := l_ast_analysis st;
                manual_review_needed := l_manual_review_needed st;
                ng_errors_remaining := l_errors_remaining st |}).
Proof.
  unfold process_file.
  destruct (read_file env file_path) as [original|e]; [|left; eauto].
  cbv zeta.
  assert (H0 : consistent original (mkLocals original [] [] None false [])).
  { unfold consistent. cbn. repeat split; auto; discriminate. }
  destruct (phase1_consistent file_path original _ H0 eq_refl) as [H1 K1].
  set (st1 := phase1 env file_path (mkLocals original [] [] None false [])) in *.
  cbn [l_fixes_by_engine map app] in K1.
  assert (F2 : dict_get "enhanced" (l_fixes_by_engine st1) = None).
  { apply dict_get_not_in. intros Hin. apply K1 in Hin.
    destruct Hin as [Hin|[]]. discriminate Hin. }
  destruct (phase2_consistent file_path original st1 H1 F2) as [H2 K2].
  set (st2 := phase2 env file_path st1) in *.
  destruct (phase3_consistent file_path original st2 H2) as [H3 K3].
  set (st3 := phase3 env file_path st2) in *.
  match goal with
  | |- context [match ?w with Return _ => _ | Raise _ => _ end] =>
      destruct w as [u|e]
  end; [|left; eauto].
  right. exists original, st3. split; [reflexivity|]. split; [exact H3|].
  split; [|reflexivity].
  eapply incl_tran; [exact K3|].
  eapply incl_tran; [apply incl_app_left; exact K2|].
  eapply incl_tran; [apply incl_app_left, incl_app_left; exact K1|].
  apply incl_refl.
Qed.

Lemma length_zero_ltb {A : Type} (l : list A) :
  (0 <? List.length l)%nat = false -> l = [].
Proof.
  destruct l; [reflexivity|discriminate].
Qed.

Lemma process_file_manual_review (file_path : string) (dry_run : bool) :
  manual_review_needed (process_file env file_path dry_run) = true ->
  ng_success (process_file env file_path dry_run) = true.
Proof.
  destruct (process_file_cases file_path dry_run)
    as [[e ->]|(o & st & _ & (_ & _ & H3) & _ & ->)]; cbn; [discriminate|].
  intros Hm. destruct (H3 Hm) as [Hne _].
  destruct (all_fixes st); [congruence|reflexivity].
Qed.

Lemma process_file_total_fixes (file_path : string) (dry_run : bool) :
  ng_success (process_file env file_path dry_run)
  = (0 <? total_fixes (process_file env file_path dry_run))%nat.
Proof.
  destruct (process_file_cases file_path dry_run)
    as [[e ->]|(o & st & _ & _ & _ & ->)]; reflexivity.
Qed.

Lemma process_file_confidence_le_1 (file_path : string) (dry_run : bool) :
  (confidence_score (process_file env file_path dry_run) <= 1)%Q.
Proof.
  destruct (process_file_cases file_path dry_run)
    as [[e ->]|(o & st & _ & _ & _ & ->)]; cbn [confidence_score critical_error].
  - discriminate.
  - apply _calculate_confidence_bounds.
Qed.

(** X23: A dry run and a real run of [process_file] differ only by the
    write: they return the same record when the text is unchanged or the
    write returns.  When the write raises, the real run returns the
    record of a critical error, without the fixes that were computed; so
    does either run when the file cannot be read. *)
Theorem process_file_dry_run_agrees (file_path : string) :
  let dry := process_file env file_path true in
  let wet := process_file env file_path false in
  match read_file env file_path with
  | Raise e => dry = critical_error env file_path e /\ wet = dry
  | Return original =>
      original_content dry = original
      /\ if String.eqb (ng_fixed_content dry) original then wet = dry
         else match write_file env file_path (ng_fixed_content dry) with
              | Return _ => wet = dry
              | Raise e => wet = critical_error env file_path e
              end
  end.
Proof.
  unfold process_file.
  destruct (read_file env file_path) as [original|e]; [|split; reflexivity].
  cbv zeta. cbn [negb andb original_content ng_fixed_content].
  set (st := phase3 env file_path
               (phase2 env file_path
                  (phase1 env file_path (mkLocals original [] [] None false [])))).
  split; [reflexivity|].
  destruct (String.eqb (current_content st) original); cbn [negb]; [reflexivity|].
  destruct (write_file env file_path (current_content st)); reflexivity.
Qed.

(** X24: In every result of [process_file] the number of fixes is the
    number of descriptions in [fixes_by_engine], whose keys are [ast],
    [enhanced], [ast_iteration_1] and [ast_iteration_2] at most; a result
    without success has the text unchanged and a confidence of 1, or of
    0 if it is a critical error; a result that asks for a manual review
    has succeeded and lists an error; the confidence lies in [0, 1]. *)
Theorem process_file_invariants (file_path : string) (dry_run : bool) :
  let r := process_file env file_path dry_run in
  total_fixes r = fix_count (fixes_by_engine r)
  /\ incl (map fst (fixes_by_engine r)) engine_keys
  /\ (ng_success r = false ->
      ng_fixed_content r = original_content r
      /\ (confidence_score r = (1 # 1)%Q
          \/ (confidence_score r = (0 # 1)%Q
              /\ exists e, r = critical_error env file_path e)))
  /\ (manual_review_needed r = true ->
      ng_success r = true /\ ng_errors_remaining r <> [])
  /\ (0 <= confidence_score r)%Q /\ (confidence_score r <= 1)%Q.
Proof.
  cbv zeta.
  destruct (process_file_cases file_path dry_run)
    as [[e ->]|(o & st & _ & (H1 & H2 & H3) & K & ->)].
  - cbn. split; [reflexivity|]. split; [intros x []|].
    split; [intros _; split; [reflexivity|right; eauto]|].
    split; [discriminate|]. split; discriminate.
  - cbn [total_fixes fixes_by_engine ng_success ng_fixed_content original_content
         confidence_score manual_review_needed ng_errors_remaining].
    split; [now symmetry|]. split; [exact K|]. split.
    { intros Hs. apply length_zero_ltb in Hs.
      rewrite (H2 Hs), Hs. split; [reflexivity|]. left.
      unfold _calculate_confidence. now rewrite String.eqb_refl. }
    split.
    { intros Hm. destruct (H3 Hm) as [Hne He]. split; [|exact He].
      destruct (all_fixes st); [congruence|reflexivity]. }
    apply _calculate_confidence_bounds.
Qed.

(* ------------------------------------------------------------------ *)
(** *** The batch *)
(* ------------------------------------------------------------------ *)

Lemma per_file_Qeq (x y : Q) (files : list string) :
  (x == y)%Q -> (per_file x files == per_file y files)%Q.
Proof.
  intros H. unfold per_file. destruct files; [reflexivity|]. now rewrite H.
Qed.

Lemma per_file_le (x y : Q) (files : list string) :
  (x <= y)%Q -> (per_file x files <= per_file y files)%Q.
Proof.
  intros H. unfold per_file, Py.len. destruct files as [|f files]; [discriminate|].
  unfold Qdiv. apply Qmult_le_compat_r; [exact H|].
  apply Qinv_le_0_compat, Qlt_le_weak, (inject_nat_pos (List.length files)).
Qed.

Lemma per_file_nonneg (x : Q) (files : list string) :
  (0 <= x)%Q -> (0 <= per_file x files)%Q.
Proof.
  intros H. unfold per_file, Py.len. destruct files as [|f files]; [discriminate|].
  apply Qle_shift_div_l; [apply (inject_nat_pos (List.length files))|].
  now rewrite Qmult_0_l.
Qed.

Lemma tally_closed_form (dry_run : bool) (files : list string) : forall t,
  let results := map (fun f => process_file env f dry_run) files in
  let t' := fold_left (tally_step env dry_run) files t in
  t_results t' = (t_results t ++ results)%list
  /\ t_manual_review_files t'
     = (t_manual_review_files t
        ++ filter (fun f => manual_review_needed (process_file env f dry_run)) files)%list
  /\ t_total_fixes t' = t_total_fixes t + sum_total_fixes results
  /\ t_files_fixed t' = t_files_fixed t + List.length (filter ng_success results)
  /\ (t_total_confidence t' == t_total_confidence t + sum_confidence_fixed results)%Q.
Proof.
  induction files as [|f files IH]; intros t; cbv zeta; cbn [fold_left map].
  - cbn. rewrite !app_nil_r. repeat split; try lia. now rewrite Qplus_0_r.
  - specialize (IH (tally_step env dry_run t f)). cbv zeta in IH.
    destruct IH as (R & M & F & N & C).
    rewrite R, M, F, N, C. clear R M F N C.
    cbn [filter sum_total_fixes sum_confidence_fixed fold_right].
    fold (sum_total_fixes (map (fun f => process_file env f dry_run) files)).
    fold (sum_confidence_fixed (map (fun f => process_file env f dry_run) files)).
    unfold tally_step.
    pose proof (process_file_manual_review f dry_run) as Hm.
    pose proof (process_file_total_fixes f dry_run) as Ht.
    destruct (ng_success (process_file env f dry_run)) eqn:Es;
      cbn [t_results t_manual_review_files t_total_fixes t_files_fixed
           t_total_confidence].
    + split; [now rewrite <- app_assoc|]. split.
      { destruct (manual_review_needed (process_file env f dry_run));
          [now rewrite <- app_assoc|reflexivity]. }
      split; [lia|]. split; [cbn [List.length]; lia|]. now rewrite Qplus_assoc.
    + split; [now rewrite <- app_assoc|]. split.
      { destruct (manual_review_needed (process_file env f dry_run));
          [now discriminate Hm|reflexivity]. }
      symmetry in Ht. apply Nat.ltb_ge in Ht.
      split; [lia|]. split; reflexivity.
Qed.

(** X25: The batch statistics in closed form: [process_directory]
    processes every file once, in order; [files_fixed] counts the results
    with success; [total_fixes_applied] is the sum of [total_fixes] over
    all results and [manual_review_files] lists every file whose result
    asks for a review, as the test on success excludes nothing there;
    [average_confidence] divides the confidence of the successful
    results alone by the number of all files. *)
Theorem process_directory_closed_form (test_files : list string) (dry_run : bool) :
  let b := process_directory env test_files dry_run in
  let results := map (fun f => process_file env f dry_run) test_files in
  detailed_results b = results
  /\ total_files b = List.length test_files
  /\ files_processed b = List.length test_files
  /\ files_fixed b = List.length (filter ng_success results)
  /\ total_fixes_applied b = sum_total_fixes results
  /\ manual_review_files b
     = filter (fun f => manual_review_needed (process_file env f dry_run)) test_files
  /\ (success_rate b
      == per_file (inject_Z (Z.of_nat (List.length (filter ng_success results))))
           test_files)%Q
  /\ (average_confidence b == per_file (sum_confidence_fixed results) test_files)%Q.
Proof.
  cbv zeta. unfold process_directory.
  destruct (tally_closed_form dry_run test_files (mkTally [] [] 0 (0 # 1)%Q 0))
    as (R & M & F & N & C).
  cbv zeta in *.
  cbn [t_results t_manual_review_files t_total_fixes t_files_fixed
       t_total_confidence app plus] in *.
  cbn [detailed_results total_files files_processed files_fixed total_fixes_applied
       manual_review_files success_rate average_confidence].
  rewrite R, M, F, N. rewrite length_map.
  repeat split; try reflexivity.
  apply per_file_Qeq. rewrite C. apply Qplus_0_l.
Qed.

Lemma sum_total_fixes_ge (dry_run : bool) (files : list string) :
  List.length (filter ng_success (map (fun f => process_file env f dry_run) files))
  <= sum_total_fixes (map (fun f => process_file env f dry_run) files).
Proof.
  induction files as [|f files IH]; cbn [map filter sum_total_fixes fold_right];
    [cbn; lia|].
  fold (sum_total_fixes (map (fun f => process_file env f dry_run) files)).
  pose proof (process_file_total_fixes f dry_run) as Ht.
  destruct (ng_success (process_file env f dry_run)); cbn [List.length]; [|lia].
  symmetry in Ht. apply Nat.ltb_lt in Ht. lia.
Qed.

Lemma sum_confidence_fixed_bounds (dry_run : bool) (files : list string) :
  (0 <= sum_confidence_fixed (map (fun f => process_file env f dry_run) files))%Q
  /\ (sum_confidence_fixed (map (fun f => process_file env f dry_run) files)
      <= inject_Z (Z.of_nat (List.length
                    (filter ng_success
                       (map (fun f => process_file env f dry_run) files)))))%Q.
Proof.
  induction files as [|f files [IH0 IH1]];
    cbn [map filter sum_confidence_fixed fold_right]; [split; discriminate|].
  fold (sum_confidence_fixed (map (fun f => process_file env f dry_run) files)).
  pose proof (process_file_confidence_nonneg env f dry_run) as H0.
  pose proof (process_file_confidence_le_1 f dry_run) as H1.
  destruct (ng_success (process_file env f dry_run)); [|split; assumption].
  cbn [List.length]. rewrite inject_nat_succ. split; lra.
Qed.

Lemma manual_review_le_fixed (dry_run : bool) (files : list string) :
  List.length (filter (fun f => manual_review_needed (process_file env f dry_run)) files)
  <= List.length (filter ng_success (map (fun f => process_file env f dry_run) files)).
Proof.
  induction files as [|f files IH]; cbn [map filter]; [cbn; lia|].
  pose proof (process_file_manual_review f dry_run) as Hm.
  destruct (manual_review_needed (process_file env f dry_run)).
  - rewrite (Hm eq_refl). cbn [List.length]. lia.
  - destruct (ng_success (process_file env f dry_run)); cbn [List.length]; lia.
Qed.

(** X26: In every batch result no more files are fixed than were
    found, every fixed file contributes at least one fix, the files for
    manual review are among the fixed ones, and
    0 <= average_confidence <= success_rate <= 1. *)
Theorem process_directory_bounds (test_files : list string) (dry_run : bool) :
  let b := process_directory env test_files dry_run in
  files_fixed b <= total_files b
  /\ files_fixed b <= total_fixes_applied b
  /\ List.length (manual_review_files b) <= files_fixed b
  /\ incl (manual_review_files b) test_files
  /\ (0 <= average_confidence b)%Q
  /\ (average_confidence b <= success_rate b)%Q
  /\ (success_rate b <= 1)%Q.
Proof.
  cbv zeta. unfold process_directory.
  destruct (tally_closed_form dry_run test_files (mkTally [] [] 0 (0 # 1)%Q 0))
    as (R & M & F & N & C).
  cbv zeta in *.
  cbn [t_results t_manual_review_files t_total_fixes t_files_fixed
       t_total_confidence app plus] in *.
  cbn [detailed_results total_files files_processed files_fixed total_fixes_applied
       manual_review_files success_rate average_confidence].
  rewrite M, F, N.
  pose proof (sum_confidence_fixed_bounds dry_run test_files) as [S0 S1].
  assert (Hlen : List.length (filter ng_success
                                (map (fun f => process_file env f dry_run) test_files))
                 <= List.length test_files).
  { etransitivity; [apply filter_length_le|]. now rewrite length_map. }
  split; [exact Hlen|]. split; [apply sum_total_fixes_ge|].
  split; [apply manual_review_le_fixed|].
  split; [apply incl_filter|].
  assert (C' : (t_total_confidence
                  (fold_left (tally_step env dry_run) test_files
                     (mkTally [] [] 0 (0 # 1)%Q 0))
                == sum_confidence_fixed
                     (map (fun f => process_file env f dry_run) test_files))%Q)
    by (rewrite C; apply Qplus_0_l).
  split.
  { rewrite (per_file_Qeq _ _ test_files C'). now apply per_file_nonneg. }
  split.
  { rewrite (per_file_Qeq _ _ test_files C'). now apply per_file_le. }
  unfold per_file, Py.len. destruct test_files as [|f files]; [discriminate|].
  apply Qle_shift_div_r; [apply (inject_nat_pos (List.length files))|].
  rewrite Qmult_1_l. rewrite <- Zle_Qle. lia.
Qed.

End OrchestratorProperties.
